(** * port-ui: the in-memory holdings projection and the metrics calculator

    A shallow embedding of [server/storage.ts] ([MemStorage]) together with
    the parts of the JavaScript runtime the code relies on:

    - JavaScript numbers are IEEE 754 binary64 values.  They are modelled by
      [spec_float] with precision 53 and maximal exponent 1024, and the
      arithmetic is the one of [SpecFloat] (round to nearest, ties to even).
    - [parseFloat] and [Number.prototype.toString] convert between the
      decimal strings kept in the store and numbers.
    - A JavaScript [Map] keeps its entries in insertion order; it is an
      association list with unique keys. *)

From Stdlib Require Import ZArith QArith Qabs Qpower String Ascii List Bool.
From Stdlib Require Import Lia Lqa SpecFloat.
From Stdlib Require Import Permutation Sorted.
Import ListNotations.

Local Close Scope Q_scope.
Local Open Scope string_scope.
Local Open Scope Z_scope.

(* ===================================================================== *)
(** * JavaScript numbers *)
(* ===================================================================== *)

Module Number.

Definition prec : Z := 53.
Definition emax : Z := 1024.

Definition number : Type := spec_float.

Definition zero : number := S754_zero false.
Definition nan : number := S754_nan.
Definition infinity : number := S754_infinity false.

(** The number denoted by an integer literal. *)
Definition ofZ (z : Z) : number := binary_normalize prec emax z 0 false.

Definition hundred : number := ofZ 100.

(** [x + y], [x - y], [x * y], [x / y] *)
Definition add (x y : number) : number := SFadd prec emax x y.
Definition sub (x y : number) : number := SFsub prec emax x y.
Definition mul (x y : number) : number := SFmul prec emax x y.
Definition div (x y : number) : number := SFdiv prec emax x y.

(** [x > y] and [x <= y]; both are [false] as soon as one side is NaN. *)
Definition gt (x y : number) : bool := SFltb y x.
Definition le (x y : number) : bool := SFleb x y.

(** [x === y] on numbers. *)
Definition eqb (x y : number) : bool := SFeqb x y.


Definition isFinite (x : number) : bool :=
  match x with S754_zero _ | S754_finite _ _ _ => true | _ => false end.

(** The exact rational value of a finite number. *)
Definition toQ (x : number) : option Q :=
  match x with
  | S754_zero _ => Some (0 # 1)%Q
  | S754_finite s m e =>
      let v := if 0 <=? e then inject_Z (Zpos m * 2 ^ e)
               else (Zpos m # Z.to_pos (2 ^ (- e)))%Q in
      Some (if s then Qopp v else v)
  | _ => None
  end.

(* ------------------------------------------------------------------- *)
(** ** Decimal literals: the grammar read by [parseFloat] *)

(** [parseFloat] (ECMA-262, 19.2.4) skips leading white space, takes the
    longest prefix that is a [StrDecimalLiteral] and returns the number
    nearest to its value, or NaN when no prefix is one.  Strings are UTF-8
    texts here, so a white-space character takes one to three bytes. *)

(** A recognised [StrDecimalLiteral]: [Infinity] with its sign, or a sign,
    the digits read as one integer, and the power of ten that scales it. *)
Inductive literal : Type :=
| LitInfinity (neg : bool)
| LitDecimal (neg : bool) (digits : Z) (exp10 : Z).

(** [WhiteSpace] and [LineTerminator] in one byte: TAB, LF, VT, FF, CR and
    the space. *)
Definition isWhiteSpace (c : ascii) : bool :=
  let n := Z.of_N (N_of_ascii c) in
  ((9 <=? n) && (n <=? 13)) || (n =? 32).

(** In two bytes: U+00A0, the no-break space. *)
Definition isWhiteSpace2 (c1 c2 : ascii) : bool :=
  (Z.of_N (N_of_ascii c1) =? 194) && (Z.of_N (N_of_ascii c2) =? 160).

(** In three bytes: U+1680, U+2000 to U+200A, U+2028, U+2029, U+202F,
    U+205F, U+3000 and U+FEFF. *)
Definition isWhiteSpace3 (c1 c2 c3 : ascii) : bool :=
  let n1 := Z.of_N (N_of_ascii c1) in
  let n2 := Z.of_N (N_of_ascii c2) in
  let n3 := Z.of_N (N_of_ascii c3) in
  ((n1 =? 225) && (n2 =? 154) && (n3 =? 128))
  || ((n1 =? 226) && (n2 =? 128)
      && (((128 <=? n3) && (n3 <=? 138)) || (n3 =? 168) || (n3 =? 169) || (n3 =? 175)))
  || ((n1 =? 226) && (n2 =? 129) && (n3 =? 159))
  || ((n1 =? 227) && (n2 =? 128) && (n3 =? 128))
  || ((n1 =? 239) && (n2 =? 187) && (n3 =? 191)).

(** [TrimString(s, start)] *)
Fixpoint trimStart (s : string) : string :=
  match s with
  | String c1 r1 =>
      if isWhiteSpace c1 then trimStart r1
      else
        match r1 with
        | String c2 r2 =>
            if isWhiteSpace2 c1 c2 then trimStart r2
            else
              match r2 with
              | String c3 r3 => if isWhiteSpace3 c1 c2 c3 then trimStart r3 else s
              | EmptyString => s
              end
        | EmptyString => s
        end
  | EmptyString => s
  end.

Definition digitValue (c : ascii) : option Z :=
  let n := Z.of_N (N_of_ascii c) in
  if (48 <=? n) && (n <=? 57) then Some (n - 48) else None.

(** Reads the longest run of decimal digits: the value accumulated on top
    of [acc], how many digits were read, and the rest of the text. *)
Fixpoint readDigits (s : string) (acc count : Z) : Z * Z * string :=
  match s with
  | String c r =>
      match digitValue c with
      | Some d => readDigits r (10 * acc + d) (count + 1)
      | None => (acc, count, s)
      end
  | EmptyString => (acc, count, s)
  end.

Definition readSign (s : string) : bool * string :=
  match s with
  | String "+" r => (false, r)
  | String "-" r => (true, r)
  | _ => (false, s)
  end.

(** The value of an [ExponentPart] at the head of [s]; 0 when there is
    none (an [e] that no digit follows is not part of the literal). *)
Definition readExponent (s : string) : Z :=
  match s with
  | String c r =>
      if (Ascii.eqb c "e" || Ascii.eqb c "E")%bool then
        let (neg, r') := readSign r in
        let '(v, count, _) := readDigits r' 0 0 in
        if count =? 0 then 0 else if neg then - v else v
      else 0
  | EmptyString => 0
  end.

Definition readLiteral (s : string) : option literal :=
  let (neg, s1) := readSign (trimStart s) in
  if String.prefix "Infinity" s1 then Some (LitInfinity neg)
  else
    let '(ip, icount, s2) := readDigits s1 0 0 in
    let '(m, fcount, s3) :=
      match s2 with
      | String "." r => readDigits r ip 0
      | _ => (ip, 0, s2)
      end in
    if (icount =? 0) && (fcount =? 0) then None
    else Some (LitDecimal neg m (readExponent s3 - fcount)).

(** The mathematical value of a literal, when it is a rational. *)
Definition literalValue (l : literal) : option Q :=
  match l with
  | LitInfinity _ => None
  | LitDecimal neg m e =>
      let v := if 0 <=? e then inject_Z (m * 10 ^ e)
               else (m # Z.to_pos (10 ^ (- e)))%Q in
      Some (if neg then Qopp v else v)
  end.

(** The exact decimal value written in a string. *)
Definition decimalValue (s : string) : option Q :=
  match readLiteral s with
  | Some l => literalValue l
  | None => None
  end.

(** The number nearest to [± m * 10 ^ e] (ties to even): an integer is
    rounded directly, a proper fraction through the correctly rounded
    quotient of its numerator by its denominator. *)
Definition roundDecimal (neg : bool) (m e : Z) : number :=
  match m with
  | Z0 => S754_zero neg
  | Zpos p =>
      if 0 <=? e then binary_normalize prec emax (cond_Zopp neg (m * 10 ^ e)) 0 neg
      else SFdiv prec emax (S754_finite neg p 0)
                           (S754_finite false (Z.to_pos (10 ^ (- e))) 0)
  | Zneg _ => S754_nan
  end.

(** [parseFloat(s)] *)
Definition parseFloat (s : string) : number :=
  match readLiteral s with
  | None => S754_nan
  | Some (LitInfinity neg) => S754_infinity neg
  | Some (LitDecimal neg m e) => roundDecimal neg m e
  end.

(* ------------------------------------------------------------------- *)
(** ** [Number.prototype.toString] (radix 10) *)

(** [Number::toString] (ECMA-262, 6.1.6.1.20) writes the shortest decimal
    [s * 10 ^ (n - k)], with [k] digits in [s], that reads back as the very
    same number, and lays it out by the size of [n]. *)

(** [num / den < 10 ^ n] *)
Definition belowPow10 (num den n : Z) : bool :=
  if 0 <=? n then num <? den * 10 ^ n else num * 10 ^ (- n) <? den.

Fixpoint expUp (fuel : nat) (num den n : Z) : Z :=
  match fuel with
  | O => n
  | S f => if belowPow10 num den n then n else expUp f num den (n + 1)
  end.

Fixpoint expDown (fuel : nat) (num den n : Z) : Z :=
  match fuel with
  | O => n
  | S f => if belowPow10 num den (n - 1) then expDown f num den (n - 1) else n
  end.

(** The [n] with [10 ^ (n - 1) <= num / den < 10 ^ n]. *)
Definition decimalExponent (num den : Z) : Z :=
  let guess := (Zdigits2 num - Zdigits2 den) * 30103 / 100000 in
  expDown 800 num den (expUp 800 num den guess).

(** Among the two [k]-digit decimals [s * 10 ^ (n - k)] that enclose
    [num / den], the one that reads back as [x]; the nearer one when both
    do, the even one on a tie. *)
Definition digitsFor (x : number) (num den n k : Z) : option Z :=
  let t := n - k in
  let (p, q) := if 0 <=? t then (num, den * 10 ^ t) else (num * 10 ^ (- t), den) in
  let lo := p / q in
  let hi := lo + 1 in
  let nearerLo :=
    match 2 * (p - lo * q) ?= q with
    | Lt => true
    | Gt => false
    | Eq => Z.even lo
    end in
  match eqb (roundDecimal false lo t) x, eqb (roundDecimal false hi t) x with
  | true, true => Some (if nearerLo then lo else hi)
  | true, false => Some lo
  | false, true => Some hi
  | false, false => None
  end.

(** The least [k] with such digits, searched upwards from [k]; seventeen
    digits always suffice for a binary64 value. *)
Fixpoint shortestDigits (fuel : nat) (x : number) (num den n k : Z) : Z * Z :=
  match fuel with
  | O => (0, k)
  | S f =>
      match digitsFor x num den n k with
      | Some s => (s, k)
      | None => shortestDigits f x num den n (k + 1)
      end
  end.

Fixpoint showDigits (fuel : nat) (z : Z) (acc : string) : string :=
  match fuel with
  | O => acc
  | S f =>
      let acc' := String (ascii_of_N (Z.to_N (48 + z mod 10))) acc in
      if z <? 10 then acc' else showDigits f (z / 10) acc'
  end.

(** The decimal digits of a non-negative integer. *)
Definition showInteger (z : Z) : string :=
  showDigits (S (Z.to_nat (Z.log2 z))) z "".

Fixpoint zeros (n : nat) : string :=
  match n with
  | O => ""
  | S n' => String "0" (zeros n')
  end.

(** The text of [s * 10 ^ (n - k)], where [s] has [k] digits. *)
Definition formatDecimal (s k n : Z) : string :=
  let ds := showInteger s in
  if (k <=? n) && (n <=? 21) then
    ds ++ zeros (Z.to_nat (n - k))
  else if (0 <? n) && (n <=? 21) then
    substring 0 (Z.to_nat n) ds ++ "." ++ substring (Z.to_nat n) (Z.to_nat (k - n)) ds
  else if (-6 <? n) && (n <=? 0) then
    "0." ++ zeros (Z.to_nat (- n)) ++ ds
  else
    let e := n - 1 in
    let sign := if 0 <=? e then "+" else "-" in
    let mant :=
      if k =? 1 then ds
      else substring 0 1 ds ++ "." ++ substring 1 (Z.to_nat (k - 1)) ds in
    mant ++ "e" ++ sign ++ showInteger (Z.abs e).

(** The text of the positive number [m * 2 ^ e]. *)
Definition showPositive (m : positive) (e : Z) : string :=
  let (num, den) := if 0 <=? e then (Zpos m * 2 ^ e, 1) else (Zpos m, 2 ^ (- e)) in
  let n := decimalExponent num den in
  let (s, k) := shortestDigits 17 (S754_finite false m e) num den n 1 in
  (* the upper neighbour of 9..9 is written 1 with one more place *)
  if s =? 10 ^ k then formatDecimal (10 ^ (k - 1)) k (n + 1)
  else formatDecimal s k n.

(** [x.toString()] *)
Definition toString (x : number) : string :=
  match x with
  | S754_nan => "NaN"
  | S754_zero _ => "0"
  | S754_infinity s => if s then "-Infinity" else "Infinity"
  | S754_finite s m e => (if s then "-" else "") ++ showPositive m e
  end.

End Number.

(* ===================================================================== *)
(** * JavaScript [Map] with string keys *)
(* ===================================================================== *)

(** Entries are kept in insertion order: [set] on a present key replaces the
    value where it stands, on an absent key it adds the entry at the end. *)
Module JsMap.

Section Operations.
Variable V : Type.

Definition t : Type := list (string * V).

Definition empty : t := [].

Fixpoint get (k : string) (m : t) : option V :=
  match m with
  | [] => None
  | (k', v) :: r => if String.eqb k k' then Some v else get k r
  end.

Definition has (k : string) (m : t) : bool :=
  match get k m with Some _ => true | None => false end.

Fixpoint set (k : string) (v : V) (m : t) : t :=
  match m with
  | [] => [(k, v)]
  | (k', v') :: r =>
      if String.eqb k k' then (k, v) :: r else (k', v') :: set k v r
  end.

Fixpoint delete (k : string) (m : t) : t :=
  match m with
  | [] => []
  | (k', v') :: r =>
      if String.eqb k k' then r else (k', v') :: delete k r
  end.

Definition keys (m : t) : list string := map fst m.
Definition values (m : t) : list V := map snd m.

(** No key occurs twice. *)
Definition wf (m : t) : Prop := NoDup (keys m).

(** How many values pass a test, and the first one that does, in
    insertion order: [values().filter(f).length] and
    [values().filter(f)[0]]. *)
Definition count (f : V -> bool) (m : t) : nat := length (filter f (values m)).
Definition first (f : V -> bool) (m : t) : option V :=
  hd_error (filter f (values m)).
End Operations.

Arguments empty {V}.
Arguments get {V} k m.
Arguments has {V} k m.
Arguments set {V} k v m.
Arguments delete {V} k m.
Arguments keys {V} m.
Arguments values {V} m.
Arguments wf {V} m.
Arguments count {V} f m.
Arguments first {V} f m.

End JsMap.

(* ===================================================================== *)
(** * The data model ([shared/schema.ts]) *)
(* ===================================================================== *)

(** A [Date], in milliseconds since the epoch. *)
Definition Date : Type := Z.

(** [s || d] on an optional string: [undefined], [null] and the empty string
    are falsy. *)
Definition orElse (s : option string) (d : string) : string :=
  match s with
  | Some EmptyString | None => d
  | Some v => v
  end.

Module Portfolio.
Record t : Type := {
  id : string;
  name : string;
  description : option string;
  externalIdentifier : option string;
  taxResidency : string;
  financialYearEnd : string;
  performanceCalculationMethod : string;
  baseCurrency : string;
  createdAt : option Date
}.
End Portfolio.

Module Holding.
Record t : Type := {
  id : string;
  portfolioId : string;
  symbol : string;
  companyName : string;
  exchange : string;
  currency : string;
  quantity : string;
  averageCost : string;
  currentPrice : option string;
  lastUpdated : option Date
}.
End Holding.

Module InsertHolding.
Record t : Type := {
  portfolioId : string;
  symbol : string;
  companyName : string;
  exchange : string;
  currency : string;
  quantity : string;
  averageCost : string
}.
End InsertHolding.

(** The [update] handed to [updateHolding], declared [Partial<InsertHolding>]:
    every field may be left out.  The object that the route
    [POST /api/portfolios/:portfolioId/update-prices] passes also has a
    [currentPrice], which the spread of [updateHolding] copies like the
    others. *)
Module PartialInsertHolding.
Record t : Type := {
  portfolioId : option string;
  symbol : option string;
  companyName : option string;
  exchange : option string;
  currency : option string;
  quantity : option string;
  averageCost : option string;
  currentPrice : option (option string)
}.
End PartialInsertHolding.

Module Transaction.
Record t : Type := {
  id : string;
  portfolioId : string;
  symbol : string;
  type : string;
  quantity : string;
  price : string;
  totalAmount : string;
  fees : option string;
  currency : string;
  exchange : string;
  date : Date;
  createdAt : option Date
}.
End Transaction.

Module InsertTransaction.
Record t : Type := {
  portfolioId : string;
  symbol : string;
  type : string;
  quantity : string;
  price : string;
  totalAmount : string;
  fees : option string;
  currency : string;
  exchange : string;
  date : Date
}.
End InsertTransaction.

Module Currency.
Record t : Type := {
  id : string;
  fromCurrency : string;
  toCurrency : string;
  rate : string;
  lastUpdated : option Date
}.
End Currency.

Module MarketData.
Record t : Type := {
  id : string;
  symbol : string;
  price : string;
  change : option string;
  changePercent : option string;
  volume : option Z;
  marketCap : option string;
  lastUpdated : option Date
}.
End MarketData.

Module User.
Record t : Type := {
  id : string;
  googleId : string;
  email : string;
  name : string;
  picture : option string;
  accessToken : option string;
  createdAt : Date
}.
End User.

Module PortfolioWithMetrics.
Record t : Type := {
  portfolio : Portfolio.t;
  totalValue : Number.number;
  totalGain : Number.number;
  totalGainPercent : Number.number;
  dividendYield : Number.number;
  holdingsCount : nat
}.
End PortfolioWithMetrics.

Module HoldingWithMetrics.
Record t : Type := {
  holding : Holding.t;
  currentValue : Number.number;
  totalGain : Number.number;
  totalGainPercent : Number.number;
  marketData : option MarketData.t
}.
End HoldingWithMetrics.

(** The objects handed to the other writers of the store. *)

(** [InsertPortfolio]: the optional fields are absent, [null] or a string;
    [None] stands for the first two, which [||] does not tell apart. *)
Module InsertPortfolio.
Record t : Type := {
  name : string;
  description : option string;
  externalIdentifier : option string;
  taxResidency : option string;
  financialYearEnd : option string;
  performanceCalculationMethod : option string;
  baseCurrency : option string
}.
End InsertPortfolio.

(** [Partial<InsertPortfolio>]: a field is absent ([None]) or carries the
    value that the spread writes over the stored one; for the two nullable
    fields that value may be [null]. *)
Module PartialInsertPortfolio.
Record t : Type := {
  name : option string;
  description : option (option string);
  externalIdentifier : option (option string);
  taxResidency : option string;
  financialYearEnd : option string;
  performanceCalculationMethod : option string;
  baseCurrency : option string
}.
End PartialInsertPortfolio.

Module InsertCurrency.
Record t : Type := {
  fromCurrency : string;
  toCurrency : string;
  rate : string
}.
End InsertCurrency.

Module InsertMarketData.
Record t : Type := {
  symbol : string;
  price : string;
  change : option string;
  changePercent : option string;
  volume : option Z;
  marketCap : option string
}.
End InsertMarketData.

Module InsertUser.
Record t : Type := {
  googleId : string;
  email : string;
  name : string;
  picture : option string
}.
End InsertUser.

(** What a call returns or throws. *)
Inductive thrown : Type :=
| TypeError
| Error (message : string).

Inductive outcome (A : Type) : Type :=
| Returns (a : A)
| Throws (e : thrown).

Arguments Returns {A} a.
Arguments Throws {A} e.

(* ===================================================================== *)
(** * JavaScript arrays *)
(* ===================================================================== *)

Module JsArray.

Section Operations.
Variable A : Type.

(** A relative index of [slice], brought into [0 .. len]: a negative one
    counts from the end. *)
Definition relative (len i : Z) : Z :=
  if i <? 0 then Z.max (len + i) 0 else Z.min i len.

(** [l.slice(start, end)] for integers [start] and [end]. *)
Definition slice (start stop : Z) (l : list A) : list A :=
  let len := Z.of_nat (length l) in
  let k := relative len start in
  let final := relative len stop in
  firstn (Z.to_nat (final - k)) (skipn (Z.to_nat k) l).

(** [l.sort(compare)]: the sort is stable, so with a comparator that orders
    consistently the result is the one of inserting the elements, last one
    first, each before the first element it does not have to follow. *)
Fixpoint insert (compare : A -> A -> Z) (x : A) (l : list A) : list A :=
  match l with
  | [] => [x]
  | y :: r => if compare x y <=? 0 then x :: l else y :: insert compare x r
  end.

Definition sort (compare : A -> A -> Z) (l : list A) : list A :=
  fold_right (insert compare) [] l.

(** [l.filter(Boolean)] on possibly undefined entries. *)
Fixpoint defined (l : list (option A)) : list A :=
  match l with
  | [] => []
  | Some a :: r => a :: defined r
  | None :: r => defined r
  end.
End Operations.

Arguments slice {A} start stop l.
Arguments insert {A} compare x l.
Arguments sort {A} compare l.
Arguments defined {A} l.

End JsArray.

(* ===================================================================== *)
(** * [MemStorage] ([server/storage.ts]) *)
(* ===================================================================== *)

Module MemStorage.
Import Number.

Record t : Type := {
  portfolios : JsMap.t Portfolio.t;
  holdings : JsMap.t Holding.t;
  transactions : JsMap.t Transaction.t;
  currencies : JsMap.t Currency.t;
  marketData : JsMap.t MarketData.t;
  users : JsMap.t User.t;
  googleIdToUserId : JsMap.t string
}.

(** What the runtime hands to the construction of one stored object: the
    result of [randomUUID()] and the reading of [new Date()]. *)
Record Env : Type := { uuid : string; now : Date }.

Definition empty : t :=
  {| portfolios := JsMap.empty; holdings := JsMap.empty;
     transactions := JsMap.empty; currencies := JsMap.empty;
     marketData := JsMap.empty; users := JsMap.empty;
     googleIdToUserId := JsMap.empty |}.

Definition setPortfolios (m : JsMap.t Portfolio.t) (st : t) : t :=
  {| portfolios := m; holdings := holdings st;
     transactions := transactions st; currencies := currencies st;
     marketData := marketData st; users := users st;
     googleIdToUserId := googleIdToUserId st |}.

Definition setHoldings (m : JsMap.t Holding.t) (st : t) : t :=
  {| portfolios := portfolios st; holdings := m;
     transactions := transactions st; currencies := currencies st;
     marketData := marketData st; users := users st;
     googleIdToUserId := googleIdToUserId st |}.

Definition setTransactions (m : JsMap.t Transaction.t) (st : t) : t :=
  {| portfolios := portfolios st; holdings := holdings st;
     transactions := m; currencies := currencies st;
     marketData := marketData st; users := users st;
     googleIdToUserId := googleIdToUserId st |}.

Definition setCurrencies (m : JsMap.t Currency.t) (st : t) : t :=
  {| portfolios := portfolios st; holdings := holdings st;
     transactions := transactions st; currencies := m;
     marketData := marketData st; users := users st;
     googleIdToUserId := googleIdToUserId st |}.

(* ------------------------------------------------------------------- *)
(** ** Holdings *)

(** [getHoldings(portfolioId)] *)
Definition getHoldings (portfolioId : string) (st : t) : list Holding.t :=
  filter (fun h => String.eqb (Holding.portfolioId h) portfolioId)
         (JsMap.values (holdings st)).

(** [getHolding(id)] *)
Definition getHolding (id : string) (st : t) : option Holding.t :=
  JsMap.get id (holdings st).

(** [createHolding(insertHolding)] *)
Definition createHolding (e : Env) (insertHolding : InsertHolding.t) (st : t)
  : Holding.t * t :=
  let holding :=
    {| Holding.id := uuid e;
       Holding.portfolioId := InsertHolding.portfolioId insertHolding;
       Holding.symbol := InsertHolding.symbol insertHolding;
       Holding.companyName := InsertHolding.companyName insertHolding;
       Holding.exchange := InsertHolding.exchange insertHolding;
       Holding.currency := InsertHolding.currency insertHolding;
       Holding.quantity := InsertHolding.quantity insertHolding;
       Holding.averageCost := InsertHolding.averageCost insertHolding;
       Holding.currentPrice := None;
       Holding.lastUpdated := Some (now e) |} in
  (holding, setHoldings (JsMap.set (Holding.id holding) holding (holdings st)) st).

(** [{ ...holding, ...update, lastUpdated: new Date() }] *)
Definition mergeHolding (holding : Holding.t) (update : PartialInsertHolding.t)
           (date : Date) : Holding.t :=
  let over {A : Type} (new : option A) (old : A) : A :=
    match new with Some v => v | None => old end in
  {| Holding.id := Holding.id holding;
     Holding.portfolioId :=
       over (PartialInsertHolding.portfolioId update) (Holding.portfolioId holding);
     Holding.symbol :=
       over (PartialInsertHolding.symbol update) (Holding.symbol holding);
     Holding.companyName :=
       over (PartialInsertHolding.companyName update) (Holding.companyName holding);
     Holding.exchange :=
       over (PartialInsertHolding.exchange update) (Holding.exchange holding);
     Holding.currency :=
       over (PartialInsertHolding.currency update) (Holding.currency holding);
     Holding.quantity :=
       over (PartialInsertHolding.quantity update) (Holding.quantity holding);
     Holding.averageCost :=
       over (PartialInsertHolding.averageCost update) (Holding.averageCost holding);
     Holding.currentPrice :=
       over (PartialInsertHolding.currentPrice update) (Holding.currentPrice holding);
     Holding.lastUpdated := Some date |}.

(** [updateHolding(id, update)] *)
Definition updateHolding (date : Date) (id : string)
           (update : PartialInsertHolding.t) (st : t) : option Holding.t * t :=
  match JsMap.get id (holdings st) with
  | None => (None, st)
  | Some holding =>
      let updated := mergeHolding holding update date in
      (Some updated, setHoldings (JsMap.set id updated (holdings st)) st)
  end.

(** [deleteHolding(id)] *)
Definition deleteHolding (id : string) (st : t) : bool * t :=
  (JsMap.has id (holdings st),
   setHoldings (JsMap.delete id (holdings st)) st).

(** [const { id, currentPrice, lastUpdated, ...holdingUpdate } = holding] *)
Definition holdingUpdate (holding : Holding.t) : PartialInsertHolding.t :=
  {| PartialInsertHolding.portfolioId := Some (Holding.portfolioId holding);
     PartialInsertHolding.symbol := Some (Holding.symbol holding);
     PartialInsertHolding.companyName := Some (Holding.companyName holding);
     PartialInsertHolding.exchange := Some (Holding.exchange holding);
     PartialInsertHolding.currency := Some (Holding.currency holding);
     PartialInsertHolding.quantity := Some (Holding.quantity holding);
     PartialInsertHolding.averageCost := Some (Holding.averageCost holding);
     PartialInsertHolding.currentPrice := None |}.

Definition withQuantity (q : string) (u : PartialInsertHolding.t)
  : PartialInsertHolding.t :=
  {| PartialInsertHolding.portfolioId := PartialInsertHolding.portfolioId u;
     PartialInsertHolding.symbol := PartialInsertHolding.symbol u;
     PartialInsertHolding.companyName := PartialInsertHolding.companyName u;
     PartialInsertHolding.exchange := PartialInsertHolding.exchange u;
     PartialInsertHolding.currency := PartialInsertHolding.currency u;
     PartialInsertHolding.quantity := Some q;
     PartialInsertHolding.averageCost := PartialInsertHolding.averageCost u;
     PartialInsertHolding.currentPrice := PartialInsertHolding.currentPrice u |}.

Definition withAverageCost (c : string) (u : PartialInsertHolding.t)
  : PartialInsertHolding.t :=
  {| PartialInsertHolding.portfolioId := PartialInsertHolding.portfolioId u;
     PartialInsertHolding.symbol := PartialInsertHolding.symbol u;
     PartialInsertHolding.companyName := PartialInsertHolding.companyName u;
     PartialInsertHolding.exchange := PartialInsertHolding.exchange u;
     PartialInsertHolding.currency := PartialInsertHolding.currency u;
     PartialInsertHolding.quantity := PartialInsertHolding.quantity u;
     PartialInsertHolding.averageCost := Some c;
     PartialInsertHolding.currentPrice := PartialInsertHolding.currentPrice u |}.


(** The predicate of the [filter] that opens [updateHoldingFromTransaction]. *)
Definition sameInstrument (portfolioId symbol : string) (h : Holding.t) : bool :=
  String.eqb (Holding.portfolioId h) portfolioId
  && String.eqb (Holding.symbol h) symbol.

(** [holdings[0]] of that filter: the oldest entry for the instrument. *)
Definition findHolding (portfolioId symbol : string) (st : t) : option Holding.t :=
  hd_error (filter (sameInstrument portfolioId symbol) (JsMap.values (holdings st))).

(** [updateHoldingFromTransaction(transaction)]; [e] serves the one holding
    that the call writes. *)
Definition updateHoldingFromTransaction (e : Env) (transaction : Transaction.t)
           (st : t) : t :=
  let holding :=
    findHolding (Transaction.portfolioId transaction)
                (Transaction.symbol transaction) st in
  if String.eqb (Transaction.type transaction) "buy" then
    match holding with
    | Some holding =>
        let existingQuantity := parseFloat (Holding.quantity holding) in
        let existingCost := parseFloat (Holding.averageCost holding) in
        let transactionQuantity := parseFloat (Transaction.quantity transaction) in
        let transactionPrice := parseFloat (Transaction.price transaction) in
        let newQuantity := add existingQuantity transactionQuantity in
        let newAverageCost :=
          div (add (mul existingQuantity existingCost)
                   (mul transactionQuantity transactionPrice))
              newQuantity in
        snd (updateHolding (now e) (Holding.id holding)
               (withAverageCost (toString newAverageCost)
                  (withQuantity (toString newQuantity) (holdingUpdate holding)))
               st)
    | None =>
        snd (createHolding e
               {| InsertHolding.portfolioId := Transaction.portfolioId transaction;
                  InsertHolding.symbol := Transaction.symbol transaction;
                  InsertHolding.companyName := Transaction.symbol transaction;
                  InsertHolding.exchange := Transaction.exchange transaction;
                  InsertHolding.currency := Transaction.currency transaction;
                  InsertHolding.quantity := Transaction.quantity transaction;
                  InsertHolding.averageCost := Transaction.price transaction |}
               st)
    end
  else
    match String.eqb (Transaction.type transaction) "sell", holding with
    | true, Some holding =>
        let existingQuantity := parseFloat (Holding.quantity holding) in
        let transactionQuantity := parseFloat (Transaction.quantity transaction) in
        let newQuantity := sub existingQuantity transactionQuantity in
        if le newQuantity zero then
          snd (deleteHolding (Holding.id holding) st)
        else
          snd (updateHolding (now e) (Holding.id holding)
                 (withQuantity (toString newQuantity) (holdingUpdate holding))
                 st)
    | _, _ => st
    end.

(* ------------------------------------------------------------------- *)
(** ** Transactions *)

(** The stored transaction built by [createTransaction]. *)
Definition newTransaction (e : Env) (insertTransaction : InsertTransaction.t)
  : Transaction.t :=
  {| Transaction.id := uuid e;
     Transaction.portfolioId := InsertTransaction.portfolioId insertTransaction;
     Transaction.symbol := InsertTransaction.symbol insertTransaction;
     Transaction.type := InsertTransaction.type insertTransaction;
     Transaction.quantity := InsertTransaction.quantity insertTransaction;
     Transaction.price := InsertTransaction.price insertTransaction;
     Transaction.totalAmount := InsertTransaction.totalAmount insertTransaction;
     Transaction.fees := Some (orElse (InsertTransaction.fees insertTransaction) "0");
     Transaction.currency := InsertTransaction.currency insertTransaction;
     Transaction.exchange := InsertTransaction.exchange insertTransaction;
     Transaction.date := InsertTransaction.date insertTransaction;
     Transaction.createdAt := Some (now e) |}.

(** [createTransaction(insertTransaction)]: [eT] serves the transaction,
    [eH] the holding written by [updateHoldingFromTransaction]. *)
Definition createTransaction (eT eH : Env) (insertTransaction : InsertTransaction.t)
           (st : t) : Transaction.t * t :=
  let transaction := newTransaction eT insertTransaction in
  let st1 :=
    setTransactions
      (JsMap.set (Transaction.id transaction) transaction (transactions st)) st in
  (transaction, updateHoldingFromTransaction eH transaction st1).

(** [getTransaction(id)] *)
Definition getTransaction (id : string) (st : t) : option Transaction.t :=
  JsMap.get id (transactions st).

(* ------------------------------------------------------------------- *)
(** ** Metrics *)

(** The body of the [map] in [getHoldingsWithMetrics]. *)
Definition holdingWithMetrics (st : t) (holding : Holding.t) : HoldingWithMetrics.t :=
  let currentPrice := parseFloat (orElse (Holding.currentPrice holding) "0") in
  let quantity := parseFloat (Holding.quantity holding) in
  let averageCost := parseFloat (Holding.averageCost holding) in
  let currentValue := mul currentPrice quantity in
  let totalCost := mul averageCost quantity in
  let totalGain := sub currentValue totalCost in
  let totalGainPercent :=
    if gt totalCost zero then mul (div totalGain totalCost) hundred else zero in
  {| HoldingWithMetrics.holding := holding;
     HoldingWithMetrics.currentValue := currentValue;
     HoldingWithMetrics.totalGain := totalGain;
     HoldingWithMetrics.totalGainPercent := totalGainPercent;
     HoldingWithMetrics.marketData :=
       JsMap.get (Holding.symbol holding) (marketData st) |}.

(** [getHoldingsWithMetrics(portfolioId)] *)
Definition getHoldingsWithMetrics (portfolioId : string) (st : t)
  : list HoldingWithMetrics.t :=
  map (holdingWithMetrics st) (getHoldings portfolioId st).

(** One turn of the [for] loop of [getPortfolioWithMetrics] on the pair
    [(totalValue, totalCost)]. *)
Definition accumulate (acc : number * number) (holding : Holding.t)
  : number * number :=
  let currentPrice := parseFloat (orElse (Holding.currentPrice holding) "0") in
  let quantity := parseFloat (Holding.quantity holding) in
  let averageCost := parseFloat (Holding.averageCost holding) in
  (add (fst acc) (mul currentPrice quantity),
   add (snd acc) (mul averageCost quantity)).

(** [getPortfolioWithMetrics(id)] *)
Definition getPortfolioWithMetrics (id : string) (st : t)
  : option PortfolioWithMetrics.t :=
  match JsMap.get id (portfolios st) with
  | None => None
  | Some portfolio =>
      let holdings :=
        filter (fun h => String.eqb (Holding.portfolioId h) id)
               (JsMap.values (holdings st)) in
      let transactions :=
        filter (fun t => String.eqb (Transaction.portfolioId t) id)
               (JsMap.values (transactions st)) in
      let (totalValue, totalCost) := fold_left accumulate holdings (zero, zero) in
      let totalGain := sub totalValue totalCost in
      let totalGainPercent :=
        if gt totalCost zero then mul (div totalGain totalCost) hundred else zero in
      let dividendTransactions :=
        filter (fun t => String.eqb (Transaction.type t) "dividend") transactions in
      let annualDividends :=
        fold_left (fun sum t => add sum (parseFloat (Transaction.totalAmount t)))
                  dividendTransactions zero in
      let dividendYield :=
        if gt totalValue zero then mul (div annualDividends totalValue) hundred
        else zero in
      Some {| PortfolioWithMetrics.portfolio := portfolio;
              PortfolioWithMetrics.totalValue := totalValue;
              PortfolioWithMetrics.totalGain := totalGain;
              PortfolioWithMetrics.totalGainPercent := totalGainPercent;
              PortfolioWithMetrics.dividendYield := dividendYield;
              PortfolioWithMetrics.holdingsCount := length holdings |}
  end.

(* ------------------------------------------------------------------- *)
(** ** The constructor *)

(** [initializeSampleData()]: [ids n] is the result of the [n]-th call of
    [randomUUID()], [today] the reading of the clock. *)
Definition initializeSampleData (ids : nat -> string) (today : Date) (st : t) : t :=
  let day := 24 * 60 * 60 * 1000 in
  let usPortfolio :=
    {| Portfolio.id := ids 0%nat;
       Portfolio.name := "US Growth Portfolio";
       Portfolio.description := Some "Technology and growth stocks in US markets";
       Portfolio.externalIdentifier := None;
       Portfolio.taxResidency := "US";
       Portfolio.financialYearEnd := "31st Dec";
       Portfolio.performanceCalculationMethod := "Simple";
       Portfolio.baseCurrency := "USD";
       Portfolio.createdAt := Some today |} in
  let st := setPortfolios (JsMap.set (Portfolio.id usPortfolio) usPortfolio (portfolios st)) st in
  let intlPortfolio :=
    {| Portfolio.id := ids 1%nat;
       Portfolio.name := "International Diversified";
       Portfolio.description := Some "Global diversification across developed markets";
       Portfolio.externalIdentifier := None;
       Portfolio.taxResidency := "US";
       Portfolio.financialYearEnd := "31st Mar";
       Portfolio.performanceCalculationMethod := "TWRR";
       Portfolio.baseCurrency := "USD";
       Portfolio.createdAt := Some today |} in
  let st := setPortfolios (JsMap.set (Portfolio.id intlPortfolio) intlPortfolio (portfolios st)) st in
  let appleHolding :=
    {| Holding.id := ids 2%nat;
       Holding.portfolioId := Portfolio.id usPortfolio;
       Holding.symbol := "AAPL";
       Holding.companyName := "Apple Inc.";
       Holding.exchange := "NASDAQ";
       Holding.currency := "USD";
       Holding.quantity := "50";
       Holding.averageCost := "150.00";
       Holding.currentPrice := Some "175.50";
       Holding.lastUpdated := Some today |} in
  let st := setHoldings (JsMap.set (Holding.id appleHolding) appleHolding (holdings st)) st in
  let msftHolding :=
    {| Holding.id := ids 3%nat;
       Holding.portfolioId := Portfolio.id usPortfolio;
       Holding.symbol := "MSFT";
       Holding.companyName := "Microsoft Corporation";
       Holding.exchange := "NASDAQ";
       Holding.currency := "USD";
       Holding.quantity := "25";
       Holding.averageCost := "280.00";
       Holding.currentPrice := Some "310.25";
       Holding.lastUpdated := Some today |} in
  let st := setHoldings (JsMap.set (Holding.id msftHolding) msftHolding (holdings st)) st in
  let asmlHolding :=
    {| Holding.id := ids 4%nat;
       Holding.portfolioId := Portfolio.id intlPortfolio;
       Holding.symbol := "ASML";
       Holding.companyName := "ASML Holding N.V.";
       Holding.exchange := "AEX";
       Holding.currency := "EUR";
       Holding.quantity := "10";
       Holding.averageCost := "580.00";
       Holding.currentPrice := Some "620.50";
       Holding.lastUpdated := Some today |} in
  let st := setHoldings (JsMap.set (Holding.id asmlHolding) asmlHolding (holdings st)) st in
  let appleBuy :=
    {| Transaction.id := ids 5%nat;
       Transaction.portfolioId := Portfolio.id usPortfolio;
       Transaction.symbol := "AAPL";
       Transaction.type := "buy";
       Transaction.quantity := "50";
       Transaction.price := "150.00";
       Transaction.totalAmount := "7500.00";
       Transaction.fees := Some "9.99";
       Transaction.currency := "USD";
       Transaction.exchange := "NASDAQ";
       Transaction.date := today - 30 * day;
       Transaction.createdAt := Some today |} in
  let st := setTransactions (JsMap.set (Transaction.id appleBuy) appleBuy (transactions st)) st in
  let msftBuy :=
    {| Transaction.id := ids 6%nat;
       Transaction.portfolioId := Portfolio.id usPortfolio;
       Transaction.symbol := "MSFT";
       Transaction.type := "buy";
       Transaction.quantity := "25";
       Transaction.price := "280.00";
       Transaction.totalAmount := "7000.00";
       Transaction.fees := Some "9.99";
       Transaction.currency := "USD";
       Transaction.exchange := "NASDAQ";
       Transaction.date := today - 15 * day;
       Transaction.createdAt := Some today |} in
  let st := setTransactions (JsMap.set (Transaction.id msftBuy) msftBuy (transactions st)) st in
  let usdEurRate :=
    {| Currency.id := ids 7%nat;
       Currency.fromCurrency := "USD";
       Currency.toCurrency := "EUR";
       Currency.rate := "0.8473";
       Currency.lastUpdated := Some today |} in
  let st := setCurrencies (JsMap.set "USD-EUR" usdEurRate (currencies st)) st in
  let eurUsdRate :=
    {| Currency.id := ids 8%nat;
       Currency.fromCurrency := "EUR";
       Currency.toCurrency := "USD";
       Currency.rate := "1.1801";
       Currency.lastUpdated := Some today |} in
  setCurrencies (JsMap.set "EUR-USD" eurUsdRate (currencies st)) st.

(** [new MemStorage()] *)
Definition constructor (ids : nat -> string) (today : Date) : t :=
  initializeSampleData ids today empty.

(* ------------------------------------------------------------------- *)
(** ** The other maps of the store *)

Definition setMarketData (m : JsMap.t MarketData.t) (st : t) : t :=
  {| portfolios := portfolios st; holdings := holdings st;
     transactions := transactions st; currencies := currencies st;
     marketData := m; users := users st;
     googleIdToUserId := googleIdToUserId st |}.

Definition setUsers (m : JsMap.t User.t) (st : t) : t :=
  {| portfolios := portfolios st; holdings := holdings st;
     transactions := transactions st; currencies := currencies st;
     marketData := marketData st; users := m;
     googleIdToUserId := googleIdToUserId st |}.

Definition setGoogleIdToUserId (m : JsMap.t string) (st : t) : t :=
  {| portfolios := portfolios st; holdings := holdings st;
     transactions := transactions st; currencies := currencies st;
     marketData := marketData st; users := users st;
     googleIdToUserId := m |}.

(** [s || null] on an optional string. *)
Definition orNull (s : option string) : option string :=
  match s with
  | Some EmptyString | None => None
  | Some v => Some v
  end.

(* ------------------------------------------------------------------- *)
(** ** Users *)

(** [getUserByGoogleId(googleId)]; an empty id is falsy. *)
Definition getUserByGoogleId (googleId : string) (st : t) : option User.t :=
  match JsMap.get googleId (googleIdToUserId st) with
  | None | Some EmptyString => None
  | Some userId => JsMap.get userId (users st)
  end.

(** [getUserById(id)] *)
Definition getUserById (id : string) (st : t) : option User.t :=
  JsMap.get id (users st).

(** [createUser(insertUser)] *)
Definition createUser (e : Env) (insertUser : InsertUser.t) (st : t) : User.t * t :=
  let user :=
    {| User.id := uuid e;
       User.googleId := InsertUser.googleId insertUser;
       User.email := InsertUser.email insertUser;
       User.name := InsertUser.name insertUser;
       User.picture := InsertUser.picture insertUser;
       User.accessToken := None;
       User.createdAt := now e |} in
  let st1 := setUsers (JsMap.set (User.id user) user (users st)) st in
  (user,
   setGoogleIdToUserId
     (JsMap.set (User.googleId user) (User.id user) (googleIdToUserId st1)) st1).

(** [{ ...user, accessToken }] *)
Definition withAccessToken (accessToken : string) (user : User.t) : User.t :=
  {| User.id := User.id user;
     User.googleId := User.googleId user;
     User.email := User.email user;
     User.name := User.name user;
     User.picture := User.picture user;
     User.accessToken := Some accessToken;
     User.createdAt := User.createdAt user |}.

(** [updateUserToken(userId, accessToken)] *)
Definition updateUserToken (userId accessToken : string) (st : t)
  : outcome User.t * t :=
  match JsMap.get userId (users st) with
  | None => (Throws (Error "User not found"), st)
  | Some user =>
      let updatedUser := withAccessToken accessToken user in
      (Returns updatedUser, setUsers (JsMap.set userId updatedUser (users st)) st)
  end.

(* ------------------------------------------------------------------- *)
(** ** Portfolios *)

(** [getPortfolios()] *)
Definition getPortfolios (st : t) : list Portfolio.t :=
  JsMap.values (portfolios st).

(** [getPortfolio(id)] *)
Definition getPortfolio (id : string) (st : t) : option Portfolio.t :=
  JsMap.get id (portfolios st).

(** [createPortfolio(insertPortfolio)] *)
Definition createPortfolio (e : Env) (insertPortfolio : InsertPortfolio.t) (st : t)
  : Portfolio.t * t :=
  let portfolio :=
    {| Portfolio.id := uuid e;
       Portfolio.name := InsertPortfolio.name insertPortfolio;
       Portfolio.description := orNull (InsertPortfolio.description insertPortfolio);
       Portfolio.externalIdentifier :=
         orNull (InsertPortfolio.externalIdentifier insertPortfolio);
       Portfolio.taxResidency :=
         orElse (InsertPortfolio.taxResidency insertPortfolio) "US";
       Portfolio.financialYearEnd :=
         orElse (InsertPortfolio.financialYearEnd insertPortfolio) "31st Mar";
       Portfolio.performanceCalculationMethod :=
         orElse (InsertPortfolio.performanceCalculationMethod insertPortfolio) "Simple";
       Portfolio.baseCurrency :=
         orElse (InsertPortfolio.baseCurrency insertPortfolio) "USD";
       Portfolio.createdAt := Some (now e) |} in
  (portfolio,
   setPortfolios (JsMap.set (Portfolio.id portfolio) portfolio (portfolios st)) st).

(** [{ ...portfolio, ...update }] *)
Definition mergePortfolio (portfolio : Portfolio.t) (update : PartialInsertPortfolio.t)
  : Portfolio.t :=
  let over {A : Type} (new : option A) (old : A) : A :=
    match new with Some v => v | None => old end in
  {| Portfolio.id := Portfolio.id portfolio;
     Portfolio.name :=
       over (PartialInsertPortfolio.name update) (Portfolio.name portfolio);
     Portfolio.description :=
       over (PartialInsertPortfolio.description update)
            (Portfolio.description portfolio);
     Portfolio.externalIdentifier :=
       over (PartialInsertPortfolio.externalIdentifier update)
            (Portfolio.externalIdentifier portfolio);
     Portfolio.taxResidency :=
       over (PartialInsertPortfolio.taxResidency update)
            (Portfolio.taxResidency portfolio);
     Portfolio.financialYearEnd :=
       over (PartialInsertPortfolio.financialYearEnd update)
            (Portfolio.financialYearEnd portfolio);
     Portfolio.performanceCalculationMethod :=
       over (PartialInsertPortfolio.performanceCalculationMethod update)
            (Portfolio.performanceCalculationMethod portfolio);
     Portfolio.baseCurrency :=
       over (PartialInsertPortfolio.baseCurrency update)
            (Portfolio.baseCurrency portfolio);
     Portfolio.createdAt := Portfolio.createdAt portfolio |}.

(** [updatePortfolio(id, update)] *)
Definition updatePortfolio (id : string) (update : PartialInsertPortfolio.t) (st : t)
  : option Portfolio.t * t :=
  match JsMap.get id (portfolios st) with
  | None => (None, st)
  | Some portfolio =>
      let updated := mergePortfolio portfolio update in
      (Some updated, setPortfolios (JsMap.set id updated (portfolios st)) st)
  end.

(** [deletePortfolio(id)] *)
Definition deletePortfolio (id : string) (st : t) : bool * t :=
  (JsMap.has id (portfolios st),
   setPortfolios (JsMap.delete id (portfolios st)) st).

(* ------------------------------------------------------------------- *)
(** ** Listing the ledger *)

(** [(a, b) => b.date.getTime() - a.date.getTime()] *)
Definition newestFirst (a b : Transaction.t) : Z :=
  Transaction.date b - Transaction.date a.

(** [getTransactions(portfolioId)] *)
Definition getTransactions (portfolioId : string) (st : t) : list Transaction.t :=
  JsArray.sort newestFirst
    (filter (fun t => String.eqb (Transaction.portfolioId t) portfolioId)
            (JsMap.values (transactions st))).

(** [getRecentTransactions(portfolioId, limit = 5)]; [None] is the argument
    left out. *)
Definition getRecentTransactions (portfolioId : string) (limit : option Z) (st : t)
  : list Transaction.t :=
  let limit := match limit with Some n => n | None => 5 end in
  JsArray.slice 0 limit (getTransactions portfolioId st).

(* ------------------------------------------------------------------- *)
(** ** Currencies *)

(** The key of a rate: [`${fromCurrency}-${toCurrency}`]. *)
Definition rateKey (fromCurrency toCurrency : string) : string :=
  fromCurrency ++ "-" ++ toCurrency.

(** [getCurrencyRate(fromCurrency, toCurrency)] *)
Definition getCurrencyRate (fromCurrency toCurrency : string) (st : t)
  : option Currency.t :=
  JsMap.get (rateKey fromCurrency toCurrency) (currencies st).

(** [updateCurrencyRate(insertRate)] *)
Definition updateCurrencyRate (e : Env) (insertRate : InsertCurrency.t) (st : t)
  : Currency.t * t :=
  let rate :=
    {| Currency.id := uuid e;
       Currency.fromCurrency := InsertCurrency.fromCurrency insertRate;
       Currency.toCurrency := InsertCurrency.toCurrency insertRate;
       Currency.rate := InsertCurrency.rate insertRate;
       Currency.lastUpdated := Some (now e) |} in
  (rate,
   setCurrencies
     (JsMap.set (rateKey (Currency.fromCurrency rate) (Currency.toCurrency rate))
                rate (currencies st))
     st).

(** [getAllCurrencyRates()] *)
Definition getAllCurrencyRates (st : t) : list Currency.t :=
  JsMap.values (currencies st).

(* ------------------------------------------------------------------- *)
(** ** Market data *)

(** [getMarketData(symbol)] *)
Definition getMarketData (symbol : string) (st : t) : option MarketData.t :=
  JsMap.get symbol (marketData st).

(** [insertData.volume || null]: 0 is falsy. *)
Definition volumeOrNull (v : option Z) : option Z :=
  match v with
  | Some 0 | None => None
  | Some n => Some n
  end.

(** [updateMarketData(insertData)] *)
Definition updateMarketData (e : Env) (insertData : InsertMarketData.t) (st : t)
  : MarketData.t * t :=
  let data :=
    {| MarketData.id := uuid e;
       MarketData.symbol := InsertMarketData.symbol insertData;
       MarketData.price := InsertMarketData.price insertData;
       MarketData.change := orNull (InsertMarketData.change insertData);
       MarketData.changePercent := orNull (InsertMarketData.changePercent insertData);
       MarketData.volume := volumeOrNull (InsertMarketData.volume insertData);
       MarketData.marketCap := orNull (InsertMarketData.marketCap insertData);
       MarketData.lastUpdated := Some (now e) |} in
  (data, setMarketData (JsMap.set (MarketData.symbol data) data (marketData st)) st).

(** [getMarketDataBatch(symbols)] *)
Definition getMarketDataBatch (symbols : list string) (st : t) : list MarketData.t :=
  JsArray.defined (map (fun symbol => JsMap.get symbol (marketData st)) symbols).

End MemStorage.

(* ===================================================================== *)
(** * Vocabulary of the properties *)
(* ===================================================================== *)

Module Props.
Import Number MemStorage.

(** ** Invariants of the holdings map *)

(** Every holding is stored under its own [id]. *)
Definition keyed (m : JsMap.t Holding.t) : Prop :=
  forall k h, In (k, h) m -> k = Holding.id h.

Definition wellFormed (st : MemStorage.t) : Prop :=
  JsMap.wf (holdings st) /\ keyed (holdings st).

(** How many holdings the store has for an instrument of a portfolio. *)
Definition holdingsFor (portfolioId symbol : string) (st : MemStorage.t) : nat :=
  JsMap.count (sameInstrument portfolioId symbol) (holdings st).

(** At most one holding for each (portfolioId, symbol). *)
Definition uniqueIn (m : JsMap.t Holding.t) : Prop :=
  forall portfolioId symbol,
    (JsMap.count (sameInstrument portfolioId symbol) m <= 1)%nat.

Definition uniqueHoldings (st : MemStorage.t) : Prop := uniqueIn (holdings st).

(** ** The holdings written by [updateHoldingFromTransaction] *)

(** The holding created by the first buy of an instrument. *)
Definition opened (e : Env) (t : Transaction.t) : Holding.t :=
  {| Holding.id := uuid e;
     Holding.portfolioId := Transaction.portfolioId t;
     Holding.symbol := Transaction.symbol t;
     Holding.companyName := Transaction.symbol t;
     Holding.exchange := Transaction.exchange t;
     Holding.currency := Transaction.currency t;
     Holding.quantity := Transaction.quantity t;
     Holding.averageCost := Transaction.price t;
     Holding.currentPrice := None;
     Holding.lastUpdated := Some (now e) |}.

(** [h] with new figures and a new time stamp, all else as it was. *)
Definition restated (h : Holding.t) (quantity averageCost : string) (date : Date)
  : Holding.t :=
  {| Holding.id := Holding.id h;
     Holding.portfolioId := Holding.portfolioId h;
     Holding.symbol := Holding.symbol h;
     Holding.companyName := Holding.companyName h;
     Holding.exchange := Holding.exchange h;
     Holding.currency := Holding.currency h;
     Holding.quantity := quantity;
     Holding.averageCost := averageCost;
     Holding.currentPrice := Holding.currentPrice h;
     Holding.lastUpdated := Some date |}.

(** [existing_quantity - txn_quantity] *)
Definition remaining (h : Holding.t) (txnQuantity : string) : number :=
  sub (parseFloat (Holding.quantity h)) (parseFloat txnQuantity).

(** ** Sequences of calls *)

(** One call of [createTransaction] with what the runtime hands to it. *)
Record Call : Type := {
  envT : Env;
  envH : Env;
  input : InsertTransaction.t
}.

Definition apply (st : MemStorage.t) (c : Call) : MemStorage.t :=
  snd (createTransaction (envT c) (envH c) (input c) st).

Definition applyAll (calls : list Call) (st : MemStorage.t) : MemStorage.t :=
  fold_left apply calls st.

Definition isBuyOf (portfolioId symbol : string) (i : InsertTransaction.t) : Prop :=
  InsertTransaction.type i = "buy"
  /\ InsertTransaction.portfolioId i = portfolioId
  /\ InsertTransaction.symbol i = symbol.

(** States reached from a fresh store by the two public writers of the
    holdings map. *)
Inductive reachable : MemStorage.t -> Prop :=
| reach_new : forall ids today, reachable (constructor ids today)
| reach_createTransaction : forall st eT eH i,
    reachable st -> reachable (snd (createTransaction eT eH i st))
| reach_createHolding : forall st e i,
    reachable st -> reachable (snd (createHolding e i st)).

(** States reached by [createTransaction] alone. *)
Inductive reachableByTransactions : MemStorage.t -> Prop :=
| byTx_new : forall ids today, reachableByTransactions (constructor ids today)
| byTx_createTransaction : forall st eT eH i,
    reachableByTransactions st ->
    reachableByTransactions (snd (createTransaction eT eH i st)).

(** ** The buy rule, on the stored texts *)

(** [new_quantity = existing_quantity + txn_quantity] *)
Definition nextQuantity (quantity txnQuantity : string) : string :=
  toString (add (parseFloat quantity) (parseFloat txnQuantity)).

(** [new_average_cost = (existing_quantity * existing_average_cost
    + txn_quantity * txn_price) / new_quantity] *)
Definition nextAverageCost (quantity averageCost txnQuantity txnPrice : string)
  : string :=
  toString
    (div (add (mul (parseFloat quantity) (parseFloat averageCost))
              (mul (parseFloat txnQuantity) (parseFloat txnPrice)))
         (add (parseFloat quantity) (parseFloat txnQuantity))).

(** The quantity and average cost after further buys, each rounded to
    binary64 and written back as text. *)
Fixpoint afterBuys (quantity averageCost : string) (buys : list InsertTransaction.t)
  : string * string :=
  match buys with
  | [] => (quantity, averageCost)
  | b :: rest =>
      afterBuys
        (nextQuantity quantity (InsertTransaction.quantity b))
        (nextAverageCost quantity averageCost
                         (InsertTransaction.quantity b) (InsertTransaction.price b))
        rest
  end.

(** ** Exact decimal arithmetic, for comparison *)

Definition Qplus' (a b : option Q) : option Q :=
  match a, b with Some x, Some y => Some (x + y)%Q | _, _ => None end.
Definition Qminus' (a b : option Q) : option Q :=
  match a, b with Some x, Some y => Some (x - y)%Q | _, _ => None end.
Definition Qmult' (a b : option Q) : option Q :=
  match a, b with Some x, Some y => Some (x * y)%Q | _, _ => None end.
Definition Qeq' (a b : option Q) : Prop :=
  match a, b with Some x, Some y => (x == y)%Q | _, _ => False end.
Definition Qlt' (a b : option Q) : Prop :=
  match a, b with Some x, Some y => (x < y)%Q | _, _ => False end.

(** The exact sum of the quantities written in the transactions. *)
Definition exactQuantity (buys : list InsertTransaction.t) : option Q :=
  fold_left (fun acc b => Qplus' acc (decimalValue (InsertTransaction.quantity b)))
            buys (Some 0%Q).

(** The exact sum of quantity times price. *)
Definition exactCost (buys : list InsertTransaction.t) : option Q :=
  fold_left (fun acc b =>
               Qplus' acc (Qmult' (decimalValue (InsertTransaction.quantity b))
                                  (decimalValue (InsertTransaction.price b))))
            buys (Some 0%Q).

(** ** Rounding *)

(** The record [mrs] of a right shift holds the integer part of [N / D],
    whether the rest is a half or more, and whether it is neither nothing
    nor a half. *)
Definition located (N D : Z) (mrs : shr_record) : Prop :=
  (shr_m mrs * D <= N < (shr_m mrs + 1) * D)
  /\ (shr_r mrs = true <-> D <= 2 * (N - shr_m mrs * D))
  /\ (shr_s mrs = true
      <-> N - shr_m mrs * D <> 0 /\ 2 * (N - shr_m mrs * D) <> D).

Definition signed (s : bool) (q : Q) : Q := if s then Qopp q else q.

(** Half the distance between 1 and the next number, and half the least
    positive number. *)
Definition eps : Q := (2 ^ (-53))%Q.
Definition eta : Q := (2 ^ (-1075))%Q.

(** The number [r], when finite, is the rational [x] up to rounding. *)
Definition rounded (x : Q) (r : number) : Prop :=
  forall v, toQ r = Some v -> (Qabs (v - x) <= Qabs x * eps + eta)%Q.

(** ** The metrics, as the formulas read *)

(** [holding.currentPrice || "0"], read as a number. *)
Definition priceOf (h : Holding.t) : number :=
  parseFloat (orElse (Holding.currentPrice h) "0").
Definition quantityOf (h : Holding.t) : number := parseFloat (Holding.quantity h).
Definition averageCostOf (h : Holding.t) : number := parseFloat (Holding.averageCost h).

(** [currentPrice * quantity] and [averageCost * quantity] *)
Definition valueOf (h : Holding.t) : number := mul (priceOf h) (quantityOf h).
Definition costOf (h : Holding.t) : number := mul (averageCostOf h) (quantityOf h).

(** Two holdings whose figures read as the same numbers. *)
Definition sameReadings (h1 h2 : Holding.t) : Prop :=
  quantityOf h1 = quantityOf h2
  /\ averageCostOf h1 = averageCostOf h2
  /\ priceOf h1 = priceOf h2.

(** Two results with the same computed figures. *)
Definition sameFigures (m1 m2 : HoldingWithMetrics.t) : Prop :=
  HoldingWithMetrics.currentValue m1 = HoldingWithMetrics.currentValue m2
  /\ HoldingWithMetrics.totalGain m1 = HoldingWithMetrics.totalGain m2
  /\ HoldingWithMetrics.totalGainPercent m1 = HoldingWithMetrics.totalGainPercent m2.

(** [gain / basis * 100] *)
Definition percent (gain basis : number) : number := mul (div gain basis) hundred.

(** The sum of a list of numbers, from left to right, starting at 0. *)
Definition sum (l : list number) : number := fold_left add l zero.

Definition isDividend (t : Transaction.t) : bool :=
  String.eqb (Transaction.type t) "dividend".

Definition transactionsOf (portfolioId : string) (st : MemStorage.t)
  : list Transaction.t :=
  filter (fun t => String.eqb (Transaction.portfolioId t) portfolioId)
         (JsMap.values (transactions st)).

(** The sum of [totalAmount] over the dividend transactions. *)
Definition dividendsOf (portfolioId : string) (st : MemStorage.t) : number :=
  sum (map (fun t => parseFloat (Transaction.totalAmount t))
           (filter isDividend (transactionsOf portfolioId st))).

End Props.

(* ===================================================================== *)
(** * The properties as the specification words them *)
(* ===================================================================== *)

Module Stated.
Import Number MemStorage Props.

(** After buys on a fresh instrument the holding's quantity is the sum of
    the quantities and its average cost is their weighted mean price. *)
Definition weightedMean (st : MemStorage.t) (calls : list Call)
           (portfolioId symbol : string) : Prop :=
  exists h,
    findHolding portfolioId symbol (applyAll calls st) = Some h
    /\ Qeq' (decimalValue (Holding.quantity h)) (exactQuantity (map input calls))
    /\ Qeq' (Qmult' (decimalValue (Holding.averageCost h))
                    (exactQuantity (map input calls)))
            (exactCost (map input calls)).


(** A buy whose quantity or price is not positive changes nothing. *)
Definition rejectsBadBuy (st : MemStorage.t) (eT eH : Env) (i : InsertTransaction.t)
  : Prop :=
  InsertTransaction.type i = "buy" ->
  le (parseFloat (InsertTransaction.quantity i)) zero = true
  \/ le (parseFloat (InsertTransaction.price i)) zero = true ->
  snd (createTransaction eT eH i st) = st.

(** A sell that leaves [existing_quantity - txn_quantity > 0], on the
    quantities as written, keeps the holding and changes its quantity
    only. *)
Definition partialSell (st : MemStorage.t) (eT eH : Env) (i : InsertTransaction.t)
           (h : Holding.t) : Prop :=
  InsertTransaction.type i = "sell" ->
  findHolding (InsertTransaction.portfolioId i) (InsertTransaction.symbol i) st = Some h ->
  Qlt' (Some 0%Q)
       (Qminus' (decimalValue (Holding.quantity h))
                (decimalValue (InsertTransaction.quantity i))) ->
  exists h',
    getHolding (Holding.id h) (snd (createTransaction eT eH i st)) = Some h'
    /\ Holding.averageCost h' = Holding.averageCost h
    /\ Holding.id h' = Holding.id h
    /\ Holding.portfolioId h' = Holding.portfolioId h
    /\ Holding.symbol h' = Holding.symbol h
    /\ Holding.companyName h' = Holding.companyName h
    /\ Holding.exchange h' = Holding.exchange h
    /\ Holding.currency h' = Holding.currency h
    /\ Holding.currentPrice h' = Holding.currentPrice h.

(** Every reachable state has at most one holding per instrument. *)
Definition alwaysUnique : Prop :=
  forall st, reachable st -> uniqueHoldings st.

(** The metrics of a holding, guarded only where the cost basis is 0, and
    never NaN nor infinite. *)
Definition holdingMetrics (st : MemStorage.t) (h : Holding.t) : Prop :=
  let m := holdingWithMetrics st h in
  HoldingWithMetrics.currentValue m = valueOf h
  /\ HoldingWithMetrics.totalGain m = sub (valueOf h) (costOf h)
  /\ HoldingWithMetrics.totalGainPercent m =
       (if eqb (costOf h) zero then zero
        else percent (sub (valueOf h) (costOf h)) (costOf h))
  /\ isFinite (HoldingWithMetrics.totalGainPercent m) = true.

(** The metrics of a portfolio, guarded only where a denominator is 0. *)
Definition portfolioMetrics (st : MemStorage.t) (id : string) : Prop :=
  forall p, JsMap.get id (portfolios st) = Some p ->
  exists r,
    getPortfolioWithMetrics id st = Some r
    /\ let hs := getHoldings id st in
       let value := sum (map valueOf hs) in
       let cost := sum (map costOf hs) in
       PortfolioWithMetrics.totalValue r = value
       /\ PortfolioWithMetrics.totalGain r = sub value cost
       /\ PortfolioWithMetrics.totalGainPercent r =
            (if eqb cost zero then zero else percent (sub value cost) cost)
       /\ PortfolioWithMetrics.dividendYield r =
            (if eqb value zero then zero else percent (dividendsOf id st) value)
       /\ PortfolioWithMetrics.holdingsCount r = length hs.

(** The computed value and gain are the exact results on the decimals
    written in the holding. *)
Definition exactMetrics (st : MemStorage.t) (h : Holding.t) : Prop :=
  let m := holdingWithMetrics st h in
  let price := decimalValue (orElse (Holding.currentPrice h) "0") in
  let quantity := decimalValue (Holding.quantity h) in
  let averageCost := decimalValue (Holding.averageCost h) in
  Qeq' (toQ (HoldingWithMetrics.currentValue m)) (Qmult' price quantity)
  /\ Qeq' (toQ (HoldingWithMetrics.totalGain m))
          (Qminus' (Qmult' price quantity) (Qmult' averageCost quantity)).

End Stated.

(* ===================================================================== *)
(** * Concrete stores and requests *)
(* ===================================================================== *)

Module Sample.
Import Number MemStorage Props.

Definition ids (n : nat) : string := "uuid-" ++ showInteger (Z.of_nat n).

(** The store right after construction; the portfolios are [uuid-0] and
    [uuid-1]. *)
Definition fresh : MemStorage.t := constructor ids 1700000000000.

(** The holding of AAPL that the constructor puts in portfolio [uuid-0]. *)
Definition apple : Holding.t :=
  {| Holding.id := "uuid-2";
     Holding.portfolioId := "uuid-0";
     Holding.symbol := "AAPL";
     Holding.companyName := "Apple Inc.";
     Holding.exchange := "NASDAQ";
     Holding.currency := "USD";
     Holding.quantity := "50";
     Holding.averageCost := "150.00";
     Holding.currentPrice := Some "175.50";
     Holding.lastUpdated := Some 1700000000000 |}.

Definition env (n : nat) : Env := {| uuid := ids n; now := 1700000000000 + Z.of_nat n |}.

Definition request (portfolioId symbol type quantity price : string)
  : InsertTransaction.t :=
  {| InsertTransaction.portfolioId := portfolioId;
     InsertTransaction.symbol := symbol;
     InsertTransaction.type := type;
     InsertTransaction.quantity := quantity;
     InsertTransaction.price := price;
     InsertTransaction.totalAmount := "0";
     InsertTransaction.fees := None;
     InsertTransaction.currency := "USD";
     InsertTransaction.exchange := "NASDAQ";
     InsertTransaction.date := 1700000000000 |}.

Definition call (n : nat) (i : InsertTransaction.t) : Call :=
  {| envT := env n; envH := env (S n); input := i |}.

(** Buy 50 at 150.00, then 25 at 180.00, of an instrument not held yet. *)
Definition twoBuys : list Call :=
  [call 10 (request "uuid-0" "TSLA" "buy" "50" "150.00");
   call 12 (request "uuid-0" "TSLA" "buy" "25" "180.00")].

(** Buy 0.1, then 0.2, at 1 each, of an instrument not held yet. *)
Definition twoDimes : list Call :=
  [call 10 (request "uuid-0" "TSLA" "buy" "0.1" "1");
   call 12 (request "uuid-0" "TSLA" "buy" "0.2" "1")].

(** A buy of a negative quantity of an instrument not held yet. *)
Definition badBuy : InsertTransaction.t :=
  request "uuid-0" "TSLA" "buy" "-5" "10".

(** A second holding of AAPL for portfolio [uuid-0], as
    [POST /api/portfolios/uuid-0/holdings] hands it to [createHolding]. *)
Definition secondApple : InsertHolding.t :=
  {| InsertHolding.portfolioId := "uuid-0";
     InsertHolding.symbol := "AAPL";
     InsertHolding.companyName := "Apple Inc.";
     InsertHolding.exchange := "NASDAQ";
     InsertHolding.currency := "USD";
     InsertHolding.quantity := "5";
     InsertHolding.averageCost := "170.00" |}.

(** The store after a buy of -1000 AAPL at 150 in portfolio [uuid-0], and
    the holding of AAPL it then has. *)
Definition shorted : MemStorage.t :=
  apply fresh (call 10 (request "uuid-0" "AAPL" "buy" "-1000" "150")).

Definition shortApple : Holding.t := restated apple "-950" "150" 1700000000011.

(** The store after a buy of 3 TSLA at 0.1 in portfolio [uuid-0], and the
    holding of TSLA it then has. *)
Definition threeDimes : MemStorage.t :=
  apply fresh (call 10 (request "uuid-0" "TSLA" "buy" "3" "0.1")).

Definition dimeHolding : Holding.t :=
  opened (env 11) (newTransaction (env 10) (request "uuid-0" "TSLA" "buy" "3" "0.1")).

(** The store after a buy of 200000000.00000001 TSLA at 1 in portfolio
    [uuid-0], the holding of TSLA it then has, and a sell of 200000000. *)
Definition bigPosition : MemStorage.t :=
  apply fresh (call 10 (request "uuid-0" "TSLA" "buy" "200000000.00000001" "1")).

Definition bigHolding : Holding.t :=
  opened (env 11)
         (newTransaction (env 10)
            (request "uuid-0" "TSLA" "buy" "200000000.00000001" "1")).

Definition bigSell : InsertTransaction.t :=
  request "uuid-0" "TSLA" "sell" "200000000" "1".

(** A holding whose cost basis overflows: 1e308 units at 10 each. *)
Definition hugeHolding : Holding.t := restated apple "1e308" "10" 1700000000011.

(** The same buy written with two different decimals that read as the same
    number. *)
Definition dime : InsertTransaction.t :=
  request "uuid-0" "AAPL" "buy" "0.1" "180".
Definition longDime : InsertTransaction.t :=
  request "uuid-0" "AAPL" "buy" "0.1000000000000000055511151231257827" "180.0".

End Sample.

(* ===================================================================== *)
(** * Signing in with Google (the verify callback of the strategy) *)
(* ===================================================================== *)

Module Auth.
Import MemStorage.

(** The part of passport's [Profile] that the callback reads; an entry of
    [emails] or [photos] is given by its [value]. *)
Record Profile : Type := {
  id : string;
  displayName : string;
  emails : option (list string);
  photos : option (list string)
}.

(** [entries?.[0].value || ""]: no array gives the empty string, an empty
    array has no first entry to read [value] from. *)
Definition firstValue (entries : option (list string)) : outcome string :=
  match entries with
  | None => Returns ""
  | Some [] => Throws TypeError
  | Some (v :: _) => Returns (orElse (Some v) "")
  end.

(** The callback given to [GoogleStrategy]: what it hands to [done], an
    error or the user, and the store it leaves. *)
Definition verify (e : Env) (accessToken : string) (profile : Profile)
           (st : MemStorage.t) : outcome User.t * MemStorage.t :=
  let found : outcome (User.t * MemStorage.t) :=
    match getUserByGoogleId (id profile) st with
    | Some user => Returns (user, st)
    | None =>
        match firstValue (emails profile) with
        | Throws err => Throws err
        | Returns email =>
            match firstValue (photos profile) with
            | Throws err => Throws err
            | Returns picture =>
                Returns
                  (createUser e
                     {| InsertUser.googleId := id profile;
                        InsertUser.email := email;
                        InsertUser.name := displayName profile;
                        InsertUser.picture := Some picture |}
                     st)
            end
        end
    end in
  match found with
  | Throws err => (Throws err, st)
  | Returns (user, st1) =>
      match updateUserToken (User.id user) accessToken st1 with
      | (Throws err, st2) => (Throws err, st2)
      | (Returns _, st2) => (Returns user, st2)
      end
  end.

(** [passport.deserializeUser]: the user of a session is read by id. *)
Definition deserializeUser (id : string) (st : MemStorage.t) : option User.t :=
  getUserById id st.

End Auth.

(* ===================================================================== *)
(** * Vocabulary for the other maps *)
(* ===================================================================== *)

Module StoreProps.
Import Number MemStorage.

(** Every user is stored under its own [id]. *)
Definition usersKeyed (st : MemStorage.t) : Prop :=
  forall k u, In (k, u) (users st) -> k = User.id u.

(** The index by Google id leads to a user with that Google id. *)
Definition indexed (st : MemStorage.t) : Prop :=
  forall g k, JsMap.get g (googleIdToUserId st) = Some k ->
              exists u, JsMap.get k (users st) = Some u /\ User.googleId u = g.

Definition registry (st : MemStorage.t) : Prop := usersKeyed st /\ indexed st.

(** Every quote is cached under its own [symbol]. *)
Definition quotesKeyed (st : MemStorage.t) : Prop :=
  forall k d, In (k, d) (marketData st) -> k = MarketData.symbol d.

(** No hyphen in a currency code. *)
Fixpoint dashFree (s : string) : bool :=
  match s with
  | EmptyString => true
  | String c r => negb (Ascii.eqb c "-") && dashFree r
  end.

(** The three computed figures of a holding. *)
Definition figures (m : HoldingWithMetrics.t) : number * number * number :=
  (HoldingWithMetrics.currentValue m, HoldingWithMetrics.totalGain m,
   HoldingWithMetrics.totalGainPercent m).

(** [a] is dated no earlier than [b]. *)
Definition notOlder (a b : Transaction.t) : Prop :=
  Transaction.date b <= Transaction.date a.

(** The ledger entries of a portfolio, in ledger order. *)
Definition ledgerOf (portfolioId : string) (st : MemStorage.t) : list Transaction.t :=
  filter (fun t => String.eqb (Transaction.portfolioId t) portfolioId)
         (JsMap.values (transactions st)).

Definition datedAt (d : Date) (t : Transaction.t) : bool := Transaction.date t =? d.

(** The store differs from another in its holdings and ledger at most. *)
Definition sameElsewhere (st st' : MemStorage.t) : Prop :=
  portfolios st' = portfolios st
  /\ currencies st' = currencies st
  /\ marketData st' = marketData st
  /\ users st' = users st
  /\ googleIdToUserId st' = googleIdToUserId st.

End StoreProps.

(* ===================================================================== *)
(** * More concrete stores and requests *)
(* ===================================================================== *)

Module Fixture.
Import Number MemStorage Props.

Definition ada : Auth.Profile :=
  {| Auth.id := "g-100";
     Auth.displayName := "Ada";
     Auth.emails := Some ["ada@example.org"];
     Auth.photos := None |}.

(** A profile whose [emails] array is empty. *)
Definition noMail : Auth.Profile :=
  {| Auth.id := "g-200";
     Auth.displayName := "Bob";
     Auth.emails := Some [];
     Auth.photos := None |}.

(** The store after Ada signed in once. *)
Definition signedIn : MemStorage.t :=
  snd (Auth.verify (Sample.env 20) "token-1" ada Sample.fresh).

Definition growth : InsertPortfolio.t :=
  {| InsertPortfolio.name := "Growth";
     InsertPortfolio.description := Some "";
     InsertPortfolio.externalIdentifier := None;
     InsertPortfolio.taxResidency := None;
     InsertPortfolio.financialYearEnd := Some "30th Jun";
     InsertPortfolio.performanceCalculationMethod := None;
     InsertPortfolio.baseCurrency := Some "AUD" |}.

Definition noChange : PartialInsertPortfolio.t :=
  {| PartialInsertPortfolio.name := None;
     PartialInsertPortfolio.description := None;
     PartialInsertPortfolio.externalIdentifier := None;
     PartialInsertPortfolio.taxResidency := None;
     PartialInsertPortfolio.financialYearEnd := None;
     PartialInsertPortfolio.performanceCalculationMethod := None;
     PartialInsertPortfolio.baseCurrency := None |}.

Definition rename : PartialInsertPortfolio.t :=
  {| PartialInsertPortfolio.name := Some "US Core";
     PartialInsertPortfolio.description := Some None;
     PartialInsertPortfolio.externalIdentifier := None;
     PartialInsertPortfolio.taxResidency := None;
     PartialInsertPortfolio.financialYearEnd := None;
     PartialInsertPortfolio.performanceCalculationMethod := None;
     PartialInsertPortfolio.baseCurrency := None |}.

Definition gbpUsd : InsertCurrency.t :=
  {| InsertCurrency.fromCurrency := "GBP";
     InsertCurrency.toCurrency := "USD";
     InsertCurrency.rate := "1.27" |}.

Definition appleQuote : InsertMarketData.t :=
  {| InsertMarketData.symbol := "AAPL";
     InsertMarketData.price := "180.10";
     InsertMarketData.change := Some "1.20";
     InsertMarketData.changePercent := Some "0.67";
     InsertMarketData.volume := Some 0;
     InsertMarketData.marketCap := None |}.

(** The store with a quote for AAPL cached. *)
Definition quoted : MemStorage.t :=
  snd (updateMarketData (Sample.env 30) appleQuote Sample.fresh).

(** A dividend on AAPL in portfolio [uuid-0]. *)
Definition dividend : InsertTransaction.t :=
  {| InsertTransaction.portfolioId := "uuid-0";
     InsertTransaction.symbol := "AAPL";
     InsertTransaction.type := "dividend";
     InsertTransaction.quantity := "50";
     InsertTransaction.price := "0.24";
     InsertTransaction.totalAmount := "12.00";
     InsertTransaction.fees := None;
     InsertTransaction.currency := "USD";
     InsertTransaction.exchange := "NASDAQ";
     InsertTransaction.date := 1700000000000 |}.

End Fixture.

(* ===================================================================== *)
(** * Facts about [Map] *)
(* ===================================================================== *)

Module JsMapFacts.
Import JsMap.

Section Facts.
Variable V : Type.
Implicit Types (m : JsMap.t V) (k : string) (v : V).

Lemma get_set_same k v m : get k (set k v m) = Some v.
Proof.
  induction m as [|[k' v'] r IH]; simpl.
  - now rewrite String.eqb_refl.
  - destruct (String.eqb k k') eqn:E; simpl.
    + now rewrite String.eqb_refl.
    + now rewrite E.
Qed.

Lemma get_set_other k k' v m :
  k <> k' -> get k' (set k v m) = get k' m.
Proof.
  intros Hne. induction m as [|[k1 v1] r IH]; simpl.
  - destruct (String.eqb k' k) eqn:E; [|reflexivity].
    apply String.eqb_eq in E. congruence.
  - destruct (String.eqb k k1) eqn:E; simpl.
    + apply String.eqb_eq in E. subst k1.
      destruct (String.eqb k' k) eqn:E'; [|reflexivity].
      apply String.eqb_eq in E'. congruence.
    + now rewrite IH.
Qed.

Lemma in_set k v m k' v' :
  In (k', v') (set k v m) -> (k' = k /\ v' = v) \/ In (k', v') m.
Proof.
  induction m as [|[k1 v1] r IH]; simpl.
  - intros [H|[]]. left. now inversion H.
  - destruct (String.eqb k k1) eqn:E; simpl.
    + intros [H|H]; [left; now inversion H | right; now right].
    + intros [H|H]; [right; now left |].
      destruct (IH H) as [?|?]; [now left | right; now right].
Qed.

Lemma in_delete k m kv : In kv (delete k m) -> In kv m.
Proof.
  induction m as [|[k1 v1] r IH]; simpl; [tauto|].
  destruct (String.eqb k k1); simpl; intuition.
Qed.

Lemma in_keys k v m : In (k, v) m -> In k (keys m).
Proof. intros H. apply (in_map fst) in H. exact H. Qed.

Lemma keys_in k m : In k (keys m) -> exists v, In (k, v) m.
Proof.
  unfold keys. rewrite in_map_iff. intros [[k' v] [E H]].
  simpl in E. subst k'. now exists v.
Qed.

Lemma values_in v m : In v (values m) -> exists k, In (k, v) m.
Proof.
  unfold values. rewrite in_map_iff. intros [[k v'] [E H]].
  simpl in E. subst v'. now exists k.
Qed.

Lemma in_values k v m : In (k, v) m -> In v (values m).
Proof. intros H. apply (in_map snd) in H. exact H. Qed.

Lemma keys_set k v m x : In x (keys (set k v m)) -> x = k \/ In x (keys m).
Proof.
  intros H. apply keys_in in H. destruct H as [v' H].
  apply in_set in H. destruct H as [[-> _]|H]; [now left|].
  right. eapply in_keys; eauto.
Qed.

Lemma wf_set k v m : wf m -> wf (set k v m).
Proof.
  unfold wf. induction m as [|[k1 v1] r IH]; simpl; intros H.
  - constructor; [intros []|constructor].
  - inversion H as [|? ? Hnotin Hnd]; subst.
    destruct (String.eqb k k1) eqn:E; simpl.
    + apply String.eqb_eq in E. subst k1. now constructor.
    + constructor; [|now apply IH].
      intros Hin. apply keys_set in Hin. destruct Hin as [->|Hin].
      * now rewrite String.eqb_refl in E.
      * contradiction.
Qed.

Lemma wf_delete k m : wf m -> wf (delete k m).
Proof.
  unfold wf. induction m as [|[k1 v1] r IH]; simpl; intros H; [exact H|].
  inversion H as [|? ? Hnotin Hnd]; subst.
  destruct (String.eqb k k1); simpl; [exact Hnd|].
  constructor; [|now apply IH].
  intros Hin. apply keys_in in Hin. destruct Hin as [v Hin].
  apply in_delete in Hin. apply Hnotin. eapply in_keys; eauto.
Qed.

Lemma in_get k v m : wf m -> In (k, v) m -> get k m = Some v.
Proof.
  unfold wf. induction m as [|[k1 v1] r IH]; simpl; intros Hwf H; [easy|].
  inversion Hwf as [|? ? Hnotin Hnd]; subst.
  destruct H as [H|H].
  - inversion H; subst. now rewrite String.eqb_refl.
  - destruct (String.eqb k k1) eqn:E.
    + apply String.eqb_eq in E. subst k1.
      exfalso. apply Hnotin. eapply in_keys; eauto.
    + now apply IH.
Qed.

Lemma get_in k v m : get k m = Some v -> In (k, v) m.
Proof.
  induction m as [|[k1 v1] r IH]; simpl; [discriminate|].
  destruct (String.eqb k k1) eqn:E.
  - apply String.eqb_eq in E. subst k1. intros H. inversion H. now left.
  - intros H. right. now apply IH.
Qed.

Lemma get_delete_same k m : wf m -> get k (delete k m) = None.
Proof.
  intros Hwf. destruct (get k (delete k m)) as [v|] eqn:E; [|reflexivity].
  exfalso. apply get_in in E.
  revert Hwf E. unfold wf.
  induction m as [|[k1 v1] r IH]; simpl; intros Hwf E; [easy|].
  inversion Hwf as [|? ? Hnotin Hnd]; subst.
  destruct (String.eqb k k1) eqn:E1.
  - apply String.eqb_eq in E1. subst k1.
    apply Hnotin. eapply in_keys; eauto.
  - destruct E as [E|E].
    + inversion E; subst. now rewrite String.eqb_refl in E1.
    + now apply IH.
Qed.

Lemma get_delete_other k k' m : k <> k' -> get k' (delete k m) = get k' m.
Proof.
  intros Hne. induction m as [|[k1 v1] r IH]; simpl; [reflexivity|].
  destruct (String.eqb k k1) eqn:E; simpl.
  - apply String.eqb_eq in E. subst k1.
    destruct (String.eqb k' k) eqn:E'; [|reflexivity].
    apply String.eqb_eq in E'. congruence.
  - now rewrite IH.
Qed.

Lemma set_absent k v m : get k m = None -> set k v m = (m ++ [(k, v)])%list.
Proof.
  induction m as [|[k1 v1] r IH]; simpl; [reflexivity|].
  destruct (String.eqb k k1); [discriminate|].
  intros H. now rewrite IH.
Qed.

(** *** Counting and finding the values that satisfy a test *)

Variable f : V -> bool.

Lemma count_set_same k v v0 m :
  get k m = Some v0 -> f v0 = f v -> count f (set k v m) = count f m.
Proof.
  unfold count, values. induction m as [|[k1 v1] r IH]; simpl; [discriminate|].
  destruct (String.eqb k k1); simpl.
  - intros H E. inversion H; subst. rewrite E. now destruct (f v).
  - intros H E. destruct (f v1); simpl; rewrite IH; auto.
Qed.

Lemma count_set_le k v m :
  (count f (set k v m) <= count f m + (if f v then 1 else 0))%nat.
Proof.
  unfold count, values. induction m as [|[k1 v1] r IH]; simpl.
  - destruct (f v); simpl; lia.
  - destruct (String.eqb k k1); simpl.
    + destruct (f v), (f v1); simpl; lia.
    + destruct (f v1); simpl; lia.
Qed.

Lemma count_delete_le k m : (count f (delete k m) <= count f m)%nat.
Proof.
  unfold count, values. induction m as [|[k1 v1] r IH]; simpl; [lia|].
  destruct (String.eqb k k1); simpl.
  - destruct (f v1); simpl; lia.
  - destruct (f v1); simpl; lia.
Qed.

Lemma first_none_count m : first f m = None -> count f m = 0%nat.
Proof.
  unfold first, count. destruct (filter f (values m)); [reflexivity|discriminate].
Qed.

Lemma first_some_count v m : first f m = Some v -> (1 <= count f m)%nat.
Proof.
  unfold first, count. destruct (filter f (values m)); [discriminate|simpl; lia].
Qed.

Lemma first_in v m : first f m = Some v -> In v (values m) /\ f v = true.
Proof.
  unfold first. intros H.
  destruct (filter f (values m)) as [|x l] eqn:E; [discriminate|].
  inversion H; subst. apply filter_In. rewrite E. now left.
Qed.

Lemma count_none_first m : count f m = 0%nat -> first f m = None.
Proof.
  unfold first, count. destruct (filter f (values m)); [reflexivity|discriminate].
Qed.

(** Deleting the entry of a satisfying value takes one off the count. *)
Lemma count_delete_hit k v m :
  get k m = Some v -> f v = true -> S (count f (delete k m)) = count f m.
Proof.
  unfold count, values. induction m as [|[k1 v1] r IH]; simpl; [discriminate|].
  destruct (String.eqb k k1); simpl.
  - intros H E. inversion H; subst. now rewrite E.
  - intros H E. destruct (f v1); simpl; rewrite <- IH; auto.
Qed.

Lemma count_zero m :
  (forall v, In v (values m) -> f v = false) -> count f m = 0%nat.
Proof.
  unfold count. intros H.
  destruct (filter f (values m)) as [|x l] eqn:E; [reflexivity|].
  assert (Hx : In x (filter f (values m))) by (rewrite E; now left).
  apply filter_In in Hx. destruct Hx as [Hin Hf].
  rewrite (H _ Hin) in Hf. discriminate.
Qed.

(** Writing a satisfying value over the first satisfying one keeps it
    first. *)
Lemma first_set_same k v v0 m :
  first f m = Some v0 -> (forall k', In (k', v0) m -> k' = k) -> f v = true ->
  first f (set k v m) = Some v.
Proof.
  unfold first, values. induction m as [|[k1 v1] r IH]; simpl; [discriminate|].
  intros H Hk Hv. destruct (f v1) eqn:E1.
  - simpl in H. inversion H; subst v1.
    rewrite (Hk k1 (or_introl eq_refl)), String.eqb_refl. simpl. now rewrite Hv.
  - destruct (String.eqb k k1); simpl.
    + now rewrite Hv.
    + rewrite E1. apply IH; auto.
Qed.

(** Writing a satisfying value where none was makes it the first. *)
Lemma first_set_new k v m :
  first f m = None -> f v = true -> first f (set k v m) = Some v.
Proof.
  unfold first, values. induction m as [|[k1 v1] r IH]; simpl; intros H Hv.
  - now rewrite Hv.
  - destruct (f v1) eqn:E1; [discriminate|].
    destruct (String.eqb k k1); simpl.
    + now rewrite Hv.
    + rewrite E1. now apply IH.
Qed.

End Facts.

End JsMapFacts.

(* ===================================================================== *)
(** * Facts about numbers *)
(* ===================================================================== *)

Module NumberFacts.
Import Number.

Lemma parseFloat_0 : parseFloat "0" = zero.
Proof. reflexivity. Qed.

(** What a JavaScript engine prints and reads, on a few inputs. *)
Example toString_values :
  map toString
      [add (parseFloat "0.1") (parseFloat "0.2"); div (ofZ 1) (ofZ 3);
       parseFloat "150.00"; parseFloat "1e21"; parseFloat "0.000001";
       parseFloat "1e-7"; parseFloat "9007199254740993"; parseFloat "-42.50";
       parseFloat "5e-324"; parseFloat "1.7976931348623157e308";
       parseFloat "1e400"; parseFloat "abc"; parseFloat "-0"]
  = ["0.30000000000000004"; "0.3333333333333333"; "150"; "1e+21"; "0.000001";
     "1e-7"; "9007199254740992"; "-42.5"; "5e-324"; "1.7976931348623157e+308";
     "Infinity"; "NaN"; "0"].
Proof. reflexivity. Qed.

Example parseFloat_values :
  map parseFloat ["  12.5kg"; ".5"; "5."; "1e"; "+Infinity"; "e5"; ""; "0x10"]
  = [S754_finite false 7036874417766400 (-49);
     S754_finite false 4503599627370496 (-53);
     S754_finite false 5629499534213120 (-50);
     S754_finite false 4503599627370496 (-52);
     S754_infinity false; S754_nan; S754_nan; S754_zero false].
Proof. reflexivity. Qed.

(** White space of more than one byte is skipped too: U+00A0 and U+FEFF. *)
Example parseFloat_white_space :
  map parseFloat
      [String (ascii_of_N 194) (String (ascii_of_N 160) "5");
       String (ascii_of_N 239) (String (ascii_of_N 187) (String (ascii_of_N 191) " 12.5"));
       String (ascii_of_N 194) "5"]
  = [ofZ 5; parseFloat "12.5"; nan].
Proof. reflexivity. Qed.

(** [x > 0] excludes [x <= 0]. *)
Lemma gt_zero_not_le (x : number) : gt x zero = true -> le x zero = false.
Proof.
  unfold gt, le, zero, SFltb, SFleb.
  destruct x as [s|s| |s m e]; simpl; try discriminate;
    destruct s; simpl; congruence.
Qed.


(** A basis that is zero is not above zero. *)
Lemma eqb_zero_not_gt (x : number) : eqb x zero = true -> gt x zero = false.
Proof.
  unfold gt, eqb, zero, SFltb, SFeqb.
  destruct x as [s|s| |s m e]; simpl; try discriminate; auto;
    destruct s; simpl; try discriminate; auto.
Qed.

(** A finite number minus itself is zero. *)
Lemma sub_self (x : number) : isFinite x = true -> le (sub x x) zero = true.
Proof.
  destruct x as [s|s| |s m e]; simpl; try discriminate; intros _.
  - now destruct s.
  - unfold sub, SFsub, shl_align.
    rewrite Z.min_id, Z.sub_diag. reflexivity.
Qed.

End NumberFacts.

(* ===================================================================== *)
(** * Facts about [MemStorage] *)
(* ===================================================================== *)

Module MemStorageFacts.
Import Number MemStorage Props.

Lemma setHoldings_same (st : MemStorage.t) : setHoldings (holdings st) st = st.
Proof. now destruct st. Qed.

Lemma found_same p s st h :
  findHolding p s st = Some h -> sameInstrument p s h = true.
Proof. intros H. now apply (JsMapFacts.first_in _ _ _ _ H). Qed.

Lemma found_in p s st h :
  findHolding p s st = Some h -> In h (JsMap.values (holdings st)).
Proof. intros H. now apply (JsMapFacts.first_in _ _ _ _ H). Qed.

Lemma found_get p s st h :
  wellFormed st -> findHolding p s st = Some h ->
  JsMap.get (Holding.id h) (holdings st) = Some h.
Proof.
  intros [Hwf Hk] H. apply found_in in H.
  apply JsMapFacts.values_in in H. destruct H as [k H].
  rewrite <- (Hk _ _ H). now apply JsMapFacts.in_get.
Qed.

Lemma sameInstrument_restated p s h q c d :
  sameInstrument p s (restated h q c d) = sameInstrument p s h.
Proof. reflexivity. Qed.

(** ** Well-formedness is kept by every writer *)

Lemma keyed_set k h m : keyed m -> k = Holding.id h -> keyed (JsMap.set k h m).
Proof.
  intros Hk E k' h' H. apply JsMapFacts.in_set in H.
  destruct H as [[-> ->]|H]; [exact E | now apply Hk].
Qed.

Lemma keyed_delete k m : keyed m -> keyed (JsMap.delete k m).
Proof. intros Hk k' h' H. apply Hk. eapply JsMapFacts.in_delete; eauto. Qed.

Lemma wellFormed_empty : wellFormed empty.
Proof. split; [constructor | intros k h []]. Qed.

Lemma wellFormed_setTransactions m st :
  wellFormed st -> wellFormed (setTransactions m st).
Proof. exact (fun H => H). Qed.

Lemma wellFormed_createHolding e i st :
  wellFormed st -> wellFormed (snd (createHolding e i st)).
Proof.
  intros [Hwf Hk]. split; simpl.
  - now apply JsMapFacts.wf_set.
  - now apply keyed_set.
Qed.

Lemma wellFormed_updateHolding d id u st :
  wellFormed st -> wellFormed (snd (updateHolding d id u st)).
Proof.
  intros [Hwf Hk]. unfold updateHolding.
  destruct (JsMap.get id (holdings st)) as [h|] eqn:E; [|now split].
  split; simpl.
  - now apply JsMapFacts.wf_set.
  - apply keyed_set; [exact Hk|]. simpl.
    apply Hk. now apply JsMapFacts.get_in.
Qed.

Lemma wellFormed_deleteHolding id st :
  wellFormed st -> wellFormed (snd (deleteHolding id st)).
Proof.
  intros [Hwf Hk]. split; simpl.
  - now apply JsMapFacts.wf_delete.
  - now apply keyed_delete.
Qed.

Lemma wellFormed_updateHoldingFromTransaction e t st :
  wellFormed st -> wellFormed (updateHoldingFromTransaction e t st).
Proof.
  intros H. unfold updateHoldingFromTransaction.
  destruct (String.eqb (Transaction.type t) "buy").
  - destruct (findHolding _ _ st).
    + now apply wellFormed_updateHolding.
    + now apply wellFormed_createHolding.
  - destruct (String.eqb (Transaction.type t) "sell"); [|exact H].
    destruct (findHolding _ _ st) as [h|]; [|exact H].
    destruct (le _ zero).
    + now apply wellFormed_deleteHolding.
    + now apply wellFormed_updateHolding.
Qed.

Lemma wellFormed_createTransaction eT eH i st :
  wellFormed st -> wellFormed (snd (createTransaction eT eH i st)).
Proof.
  intros H. unfold createTransaction. simpl.
  apply wellFormed_updateHoldingFromTransaction.
  now apply wellFormed_setTransactions.
Qed.

(** ** [updateHoldingFromTransaction] writes the holdings map only *)

Lemma updateHoldingFromTransaction_frame e t st :
  updateHoldingFromTransaction e t st
  = setHoldings (holdings (updateHoldingFromTransaction e t st)) st.
Proof.
  unfold updateHoldingFromTransaction, updateHolding.
  destruct (String.eqb (Transaction.type t) "buy").
  - destruct (findHolding _ _ st) as [h|]; [|reflexivity].
    destruct (JsMap.get _ _); simpl; [reflexivity | now rewrite setHoldings_same].
  - destruct (String.eqb (Transaction.type t) "sell");
      [|now rewrite setHoldings_same].
    destruct (findHolding _ _ st) as [h|]; [|now rewrite setHoldings_same].
    destruct (le _ zero); [reflexivity|].
    destruct (JsMap.get _ _); simpl; [reflexivity | now rewrite setHoldings_same].
Qed.

(** The holdings after [createTransaction] are those that
    [updateHoldingFromTransaction] computes from the holdings before. *)
Lemma holdings_createTransaction eT eH i st :
  holdings (snd (createTransaction eT eH i st))
  = holdings (updateHoldingFromTransaction eH (newTransaction eT i) st).
Proof.
  unfold createTransaction. simpl.
  unfold updateHoldingFromTransaction, updateHolding, findHolding. simpl.
  destruct (String.eqb (InsertTransaction.type i) "buy").
  - destruct (hd_error _) as [h|]; [|reflexivity].
    now destruct (JsMap.get _ _).
  - destruct (String.eqb (InsertTransaction.type i) "sell"); [|reflexivity].
    destruct (hd_error _) as [h|]; [|reflexivity].
    destruct (le _ zero); [reflexivity|].
    now destruct (JsMap.get _ _).
Qed.

Lemma transactions_createTransaction eT eH i st :
  transactions (snd (createTransaction eT eH i st))
  = JsMap.set (uuid eT) (newTransaction eT i) (transactions st).
Proof.
  unfold createTransaction. simpl.
  now rewrite updateHoldingFromTransaction_frame.
Qed.

(** ** The cases of [updateHoldingFromTransaction] *)

Section Cases.
Variables (e : Env) (t : Transaction.t) (st : MemStorage.t).

Lemma buy_new :
  Transaction.type t = "buy" ->
  findHolding (Transaction.portfolioId t) (Transaction.symbol t) st = None ->
  holdings (updateHoldingFromTransaction e t st)
  = JsMap.set (uuid e) (opened e t) (holdings st).
Proof.
  intros Ht Hf. unfold updateHoldingFromTransaction.
  now rewrite Ht, Hf.
Qed.

Lemma buy_more h :
  wellFormed st -> Transaction.type t = "buy" ->
  findHolding (Transaction.portfolioId t) (Transaction.symbol t) st = Some h ->
  holdings (updateHoldingFromTransaction e t st)
  = JsMap.set (Holding.id h)
      (restated h
         (nextQuantity (Holding.quantity h) (Transaction.quantity t))
         (nextAverageCost (Holding.quantity h) (Holding.averageCost h)
                          (Transaction.quantity t) (Transaction.price t))
         (now e))
      (holdings st).
Proof.
  intros Hwf Ht Hf. unfold updateHoldingFromTransaction, updateHolding.
  now rewrite Ht, Hf, (found_get _ _ _ _ Hwf Hf).
Qed.

Lemma sell_close h :
  wellFormed st -> Transaction.type t = "sell" ->
  findHolding (Transaction.portfolioId t) (Transaction.symbol t) st = Some h ->
  le (remaining h (Transaction.quantity t)) zero = true ->
  holdings (updateHoldingFromTransaction e t st)
  = JsMap.delete (Holding.id h) (holdings st).
Proof.
  unfold remaining. intros Hwf Ht Hf Hle.
  unfold updateHoldingFromTransaction.
  now rewrite Ht, Hf, Hle.
Qed.

Lemma sell_reduce h :
  wellFormed st -> Transaction.type t = "sell" ->
  findHolding (Transaction.portfolioId t) (Transaction.symbol t) st = Some h ->
  le (remaining h (Transaction.quantity t)) zero = false ->
  holdings (updateHoldingFromTransaction e t st)
  = JsMap.set (Holding.id h)
      (restated h (toString (remaining h (Transaction.quantity t)))
                (Holding.averageCost h) (now e))
      (holdings st).
Proof.
  unfold remaining. intros Hwf Ht Hf Hle.
  unfold updateHoldingFromTransaction, updateHolding.
  now rewrite Ht, Hf, Hle, (found_get _ _ _ _ Hwf Hf).
Qed.

Lemma sell_nothing :
  Transaction.type t = "sell" ->
  findHolding (Transaction.portfolioId t) (Transaction.symbol t) st = None ->
  updateHoldingFromTransaction e t st = st.
Proof.
  intros Ht Hf. unfold updateHoldingFromTransaction.
  now rewrite Ht, Hf.
Qed.

Lemma other_type :
  Transaction.type t <> "buy" -> Transaction.type t <> "sell" ->
  updateHoldingFromTransaction e t st = st.
Proof.
  intros Hb Hs. unfold updateHoldingFromTransaction.
  apply String.eqb_neq in Hb. apply String.eqb_neq in Hs.
  now rewrite Hb, Hs.
Qed.
End Cases.

End MemStorageFacts.

(* ===================================================================== *)
(** * Invariants of the store *)
(* ===================================================================== *)

Module Invariants.
Import Number MemStorage Props MemStorageFacts.

Lemma sameInstrument_true p s h :
  sameInstrument p s h = true ->
  Holding.portfolioId h = p /\ Holding.symbol h = s.
Proof.
  unfold sameInstrument. intros H. apply andb_true_iff in H.
  destruct H as [H1 H2]. split; now apply String.eqb_eq.
Qed.

Lemma sameInstrument_own h :
  sameInstrument (Holding.portfolioId h) (Holding.symbol h) h = true.
Proof. unfold sameInstrument. now rewrite !String.eqb_refl. Qed.

Lemma sameInstrument_other_symbol p s h :
  Holding.symbol h <> s -> sameInstrument p s h = false.
Proof.
  intros H. unfold sameInstrument. apply String.eqb_neq in H.
  rewrite H. apply andb_false_r.
Qed.

(** Writing a holding of an instrument that has none keeps holdings unique,
    whatever key it is written under. *)
Lemma unique_set_new k h m :
  uniqueIn m ->
  JsMap.count (sameInstrument (Holding.portfolioId h) (Holding.symbol h)) m = 0%nat ->
  uniqueIn (JsMap.set k h m).
Proof.
  intros Hu H0 p s.
  pose proof (JsMapFacts.count_set_le _ (sameInstrument p s) k h m) as Hle.
  destruct (sameInstrument p s h) eqn:E.
  - apply sameInstrument_true in E. destruct E as [<- <-].
    rewrite H0 in Hle. exact Hle.
  - specialize (Hu p s). lia.
Qed.

(** Writing over a holding one of the same instrument keeps them unique. *)
Lemma unique_set_same h h' m :
  uniqueIn m ->
  JsMap.get (Holding.id h) m = Some h ->
  (forall p s, sameInstrument p s h = sameInstrument p s h') ->
  uniqueIn (JsMap.set (Holding.id h) h' m).
Proof.
  intros Hu Hg Hs p s.
  rewrite (JsMapFacts.count_set_same _ (sameInstrument p s)
             (Holding.id h) h' h m Hg (Hs p s)).
  apply Hu.
Qed.

Lemma unique_delete k m : uniqueIn m -> uniqueIn (JsMap.delete k m).
Proof.
  intros Hu p s.
  pose proof (JsMapFacts.count_delete_le _ (sameInstrument p s) k m) as Hle.
  specialize (Hu p s). lia.
Qed.

Lemma unique_empty : uniqueIn JsMap.empty.
Proof. intros p s. unfold JsMap.count. simpl. lia. Qed.

Lemma unique_updateHoldingFromTransaction e t st :
  wellFormed st -> uniqueHoldings st ->
  uniqueHoldings (updateHoldingFromTransaction e t st).
Proof.
  intros Hwf Hu. unfold uniqueHoldings.
  destruct (findHolding (Transaction.portfolioId t) (Transaction.symbol t) st)
    as [h|] eqn:Hf;
  destruct (String.eqb (Transaction.type t) "buy") eqn:Hb.
  - apply String.eqb_eq in Hb.
    rewrite (buy_more e t st h Hwf Hb Hf).
    now apply (unique_set_same h _ _ Hu (found_get _ _ _ _ Hwf Hf)).
  - destruct (String.eqb (Transaction.type t) "sell") eqn:Hs.
    + apply String.eqb_eq in Hs.
      destruct (le (remaining h (Transaction.quantity t)) zero) eqn:Hle.
      * rewrite (sell_close e t st h Hwf Hs Hf Hle).
        now apply unique_delete.
      * rewrite (sell_reduce e t st h Hwf Hs Hf Hle).
        now apply (unique_set_same h _ _ Hu (found_get _ _ _ _ Hwf Hf)).
    + apply String.eqb_neq in Hb. apply String.eqb_neq in Hs.
      now rewrite other_type.
  - apply String.eqb_eq in Hb.
    rewrite (buy_new e t st Hb Hf).
    apply unique_set_new; [exact Hu|].
    now apply JsMapFacts.first_none_count.
  - destruct (String.eqb (Transaction.type t) "sell") eqn:Hs.
    + apply String.eqb_eq in Hs. now rewrite sell_nothing.
    + apply String.eqb_neq in Hb. apply String.eqb_neq in Hs.
      now rewrite other_type.
Qed.

Lemma unique_createTransaction eT eH i st :
  wellFormed st -> uniqueHoldings st ->
  uniqueHoldings (snd (createTransaction eT eH i st)).
Proof.
  intros Hwf Hu. unfold uniqueHoldings.
  rewrite holdings_createTransaction.
  now apply unique_updateHoldingFromTransaction.
Qed.

(** ** The constructor *)

Lemma wellFormed_constructor ids today : wellFormed (constructor ids today).
Proof.
  unfold wellFormed, constructor, initializeSampleData.
  cbn [holdings setHoldings setPortfolios setTransactions setCurrencies].
  split.
  - repeat apply JsMapFacts.wf_set. constructor.
  - repeat (apply keyed_set; [|reflexivity]). intros k h [].
Qed.

Lemma unique_constructor ids today : uniqueHoldings (constructor ids today).
Proof.
  unfold uniqueHoldings, constructor, initializeSampleData.
  cbn [holdings setHoldings setPortfolios setTransactions setCurrencies].
  apply unique_set_new; [apply unique_set_new; [apply unique_set_new|]|].
  - apply unique_empty.
  - reflexivity.
  - apply JsMapFacts.count_zero. intros v Hin. simpl in Hin.
    destruct Hin as [<-|[]]. now apply sameInstrument_other_symbol.
  - apply JsMapFacts.count_zero. intros v Hin.
    apply JsMapFacts.values_in in Hin. destruct Hin as [k Hin].
    apply JsMapFacts.in_set in Hin. destruct Hin as [[_ ->]|Hin].
    + now apply sameInstrument_other_symbol.
    + simpl in Hin. destruct Hin as [Hin|[]]. inversion Hin.
      now apply sameInstrument_other_symbol.
Qed.

(** ** Reachable states *)

Lemma reachable_wellFormed st : reachable st -> wellFormed st.
Proof.
  induction 1.
  - apply wellFormed_constructor.
  - now apply wellFormed_createTransaction.
  - now apply wellFormed_createHolding.
Qed.

Lemma reachableByTransactions_wellFormed st :
  reachableByTransactions st -> wellFormed st.
Proof.
  induction 1.
  - apply wellFormed_constructor.
  - now apply wellFormed_createTransaction.
Qed.

End Invariants.

(* ===================================================================== *)
(** * The properties of [createTransaction] on sells *)
(* ===================================================================== *)

Module Sells.
Import Number MemStorage Props MemStorageFacts.

Lemma fresh_wellFormed : wellFormed Sample.fresh.
Proof. apply Invariants.wellFormed_constructor. Qed.



(** C5. A sell on an existing holding with
    [existing_quantity - txn_quantity <= 0] removes that holding: its entry
    is deleted from the holdings map, the holding is no longer among its
    values, and when holdings were unique no holding of the instrument is
    left.  The transaction is recorded and returned as for any other; no
    failure is signalled. *)
Theorem C5_sell_out_removes_holding (st : MemStorage.t) (eT eH : Env)
        (i : InsertTransaction.t) (h : Holding.t) :
  wellFormed st ->
  InsertTransaction.type i = "sell" ->
  findHolding (InsertTransaction.portfolioId i) (InsertTransaction.symbol i) st = Some h ->
  le (remaining h (InsertTransaction.quantity i)) zero = true ->
  let r := createTransaction eT eH i st in
  fst r = newTransaction eT i
  /\ getTransaction (uuid eT) (snd r) = Some (fst r)
  /\ holdings (snd r) = JsMap.delete (Holding.id h) (holdings st)
  /\ getHolding (Holding.id h) (snd r) = None
  /\ ~ In h (JsMap.values (holdings (snd r)))
  /\ (uniqueHoldings st ->
      findHolding (InsertTransaction.portfolioId i) (InsertTransaction.symbol i)
                  (snd r) = None).
Proof.
  intros Hwf Ht Hf Hle r.
  assert (Hh : holdings (snd r) = JsMap.delete (Holding.id h) (holdings st)).
  { subst r. rewrite holdings_createTransaction.
    now apply (sell_close eH (newTransaction eT i) st h). }
  assert (Hg : getHolding (Holding.id h) (snd r) = None).
  { unfold getHolding. rewrite Hh. apply JsMapFacts.get_delete_same. apply Hwf. }
  split; [reflexivity|].
  split.
  { unfold getTransaction. subst r. rewrite transactions_createTransaction.
    apply JsMapFacts.get_set_same. }
  split; [exact Hh|]. split; [exact Hg|]. split.
  - intros Hin. apply JsMapFacts.values_in in Hin. destruct Hin as [k Hin].
    assert (Hk : k = Holding.id h).
    { rewrite Hh in Hin. apply JsMapFacts.in_delete in Hin.
      destruct Hwf as [_ Hkeyed]. now apply Hkeyed. }
    subst k. apply JsMapFacts.in_get in Hin.
    + unfold getHolding in Hg. congruence.
    + rewrite Hh. apply JsMapFacts.wf_delete. apply Hwf.
  - intros Hu. unfold findHolding. rewrite Hh.
    apply (JsMapFacts.count_none_first _ (sameInstrument _ _)).
    pose proof (JsMapFacts.count_delete_hit _
                  (sameInstrument (InsertTransaction.portfolioId i)
                                  (InsertTransaction.symbol i))
                  (Holding.id h) h (holdings st)
                  (found_get _ _ _ _ Hwf Hf) (found_same _ _ _ _ Hf)) as Hc.
    specialize (Hu (InsertTransaction.portfolioId i) (InsertTransaction.symbol i)).
    lia.
Qed.

Lemma C5_sell_out_removes_holding_witness :
  let i := Sample.request "uuid-0" "AAPL" "sell" "50" "175.50" in
  let r := createTransaction (Sample.env 10) (Sample.env 11) i Sample.fresh in
  wellFormed Sample.fresh
  /\ findHolding "uuid-0" "AAPL" Sample.fresh = Some Sample.apple
  /\ le (remaining Sample.apple "50") zero = true
  /\ getHolding "uuid-2" (snd r) = None
  /\ findHolding "uuid-0" "AAPL" (snd r) = None.
Proof.
  intros i r.
  assert (Hf : findHolding "uuid-0" "AAPL" Sample.fresh = Some Sample.apple)
    by reflexivity.
  assert (Hle : le (remaining Sample.apple "50") zero = true) by reflexivity.
  destruct (C5_sell_out_removes_holding Sample.fresh (Sample.env 10) (Sample.env 11)
              i Sample.apple fresh_wellFormed eq_refl Hf Hle)
    as (_ & _ & _ & Hg & _ & Hn).
  split; [exact fresh_wellFormed|]. split; [exact Hf|]. split; [exact Hle|].
  split; [exact Hg|].
  apply Hn. apply Invariants.unique_constructor.
Defined.

(** Selling the quantity on record, spelled as the holding spells it or in
    any way that reads as the same finite number, closes the position. *)
Lemma sell_everything (st : MemStorage.t) (eT eH : Env)
      (i : InsertTransaction.t) (h : Holding.t) :
  wellFormed st ->
  InsertTransaction.type i = "sell" ->
  findHolding (InsertTransaction.portfolioId i) (InsertTransaction.symbol i) st = Some h ->
  parseFloat (InsertTransaction.quantity i) = quantityOf h ->
  isFinite (quantityOf h) = true ->
  getHolding (Holding.id h) (snd (createTransaction eT eH i st)) = None.
Proof.
  intros Hwf Ht Hf Hq Hfin. unfold getHolding.
  rewrite holdings_createTransaction.
  rewrite (sell_close eH (newTransaction eT i) st h Hwf Ht Hf).
  - apply JsMapFacts.get_delete_same. apply Hwf.
  - unfold remaining. simpl Transaction.quantity. rewrite Hq.
    now apply NumberFacts.sub_self.
Qed.

(** C6. A sell on an existing holding with
    [existing_quantity - txn_quantity > 0] rewrites the holding where it
    stands with the new quantity; [averageCost], [id], [portfolioId],
    [symbol], [companyName], [exchange], [currency] and [currentPrice] are
    what they were, and so is every other entry of the holdings map. *)
Theorem C6_partial_sell_changes_quantity_only (st : MemStorage.t) (eT eH : Env)
        (i : InsertTransaction.t) (h : Holding.t) :
  wellFormed st ->
  InsertTransaction.type i = "sell" ->
  findHolding (InsertTransaction.portfolioId i) (InsertTransaction.symbol i) st = Some h ->
  gt (remaining h (InsertTransaction.quantity i)) zero = true ->
  let st' := snd (createTransaction eT eH i st) in
  exists h',
    getHolding (Holding.id h) st' = Some h'
    /\ findHolding (InsertTransaction.portfolioId i) (InsertTransaction.symbol i) st'
       = Some h'
    /\ Holding.quantity h' = toString (remaining h (InsertTransaction.quantity i))
    /\ Holding.averageCost h' = Holding.averageCost h
    /\ Holding.id h' = Holding.id h
    /\ Holding.portfolioId h' = Holding.portfolioId h
    /\ Holding.symbol h' = Holding.symbol h
    /\ Holding.companyName h' = Holding.companyName h
    /\ Holding.exchange h' = Holding.exchange h
    /\ Holding.currency h' = Holding.currency h
    /\ Holding.currentPrice h' = Holding.currentPrice h
    /\ holdings st' = JsMap.set (Holding.id h) h' (holdings st)
    /\ (forall k, k <> Holding.id h -> getHolding k st' = getHolding k st).
Proof.
  intros Hwf Ht Hf Hgt st'.
  apply NumberFacts.gt_zero_not_le in Hgt.
  assert (Hh : holdings st'
               = JsMap.set (Holding.id h)
                   (restated h (toString (remaining h (InsertTransaction.quantity i)))
                             (Holding.averageCost h) (now eH))
                   (holdings st)).
  { subst st'. rewrite holdings_createTransaction.
    now apply (sell_reduce eH (newTransaction eT i) st h). }
  eexists. split.
  { unfold getHolding. rewrite Hh. apply JsMapFacts.get_set_same. }
  split.
  { unfold findHolding. rewrite Hh.
    apply (JsMapFacts.first_set_same _ (sameInstrument _ _) _ _ h).
    - exact Hf.
    - intros k' Hin. destruct Hwf as [_ Hkeyed]. now apply Hkeyed.
    - rewrite sameInstrument_restated. eapply found_same; eauto. }
  repeat (split; [reflexivity|]).
  split; [exact Hh|].
  intros k Hk. unfold getHolding. rewrite Hh.
  apply JsMapFacts.get_set_other. congruence.
Qed.

Lemma C6_partial_sell_changes_quantity_only_witness :
  let i := Sample.request "uuid-0" "AAPL" "sell" "20" "175.50" in
  let st' := snd (createTransaction (Sample.env 10) (Sample.env 11) i Sample.fresh) in
  wellFormed Sample.fresh
  /\ findHolding "uuid-0" "AAPL" Sample.fresh = Some Sample.apple
  /\ gt (remaining Sample.apple "20") zero = true
  /\ exists h',
       getHolding "uuid-2" st' = Some h'
       /\ Holding.quantity h' = "30"
       /\ Holding.averageCost h' = "150.00"
       /\ Holding.currentPrice h' = Some "175.50".
Proof.
  intros i st'.
  assert (Hf : findHolding "uuid-0" "AAPL" Sample.fresh = Some Sample.apple)
    by reflexivity.
  assert (Hgt : gt (remaining Sample.apple "20") zero = true) by reflexivity.
  destruct (C6_partial_sell_changes_quantity_only Sample.fresh (Sample.env 10)
              (Sample.env 11) i Sample.apple fresh_wellFormed eq_refl Hf Hgt)
    as (h' & Hg & _ & Hq & Hc & _ & _ & _ & _ & _ & _ & Hp & _).
  split; [exact fresh_wellFormed|]. split; [exact Hf|]. split; [exact Hgt|].
  exists h'. split; [exact Hg|]. split; [exact Hq|]. split; [exact Hc | exact Hp].
Defined.

(** C6, as worded, fails: a holding of 200000000.00000001 sold down by
    200000000 should keep 0.00000001, yet both quantities read as the same
    binary64 number, the difference is 0 and the holding is deleted. *)
Lemma C6_counterexample :
  ~ Stated.partialSell Sample.bigPosition (Sample.env 12) (Sample.env 13)
      Sample.bigSell Sample.bigHolding.
Proof.
  intros H.
  destruct (H eq_refl eq_refl) as (h' & Hg & _).
  - vm_compute. reflexivity.
  - vm_compute in Hg. discriminate Hg.
Qed.

Example bigPosition_sold :
  findHolding "uuid-0" "TSLA" Sample.bigPosition = Some Sample.bigHolding
  /\ parseFloat "200000000.00000001" = parseFloat "200000000"
  /\ toString (remaining Sample.bigHolding "200000000") = "0"
  /\ findHolding "uuid-0" "TSLA"
       (snd (createTransaction (Sample.env 12) (Sample.env 13) Sample.bigSell
                               Sample.bigPosition)) = None.
Proof. repeat split. Qed.

End Sells.

(* ===================================================================== *)
(** * The properties of [createTransaction] on buys *)
(* ===================================================================== *)

Module Buys.
Import Number MemStorage Props MemStorageFacts.

(** The first buy of an instrument opens its holding. *)
Lemma first_buy (st : MemStorage.t) (eT eH : Env) (i : InsertTransaction.t) :
  InsertTransaction.type i = "buy" ->
  findHolding (InsertTransaction.portfolioId i) (InsertTransaction.symbol i) st = None ->
  let st' := snd (createTransaction eT eH i st) in
  findHolding (InsertTransaction.portfolioId i) (InsertTransaction.symbol i) st'
  = Some (opened eH (newTransaction eT i))
  /\ holdingsFor (InsertTransaction.portfolioId i) (InsertTransaction.symbol i) st'
     = 1%nat.
Proof.
  intros Ht Hf st'.
  assert (Hh : holdings st'
               = JsMap.set (uuid eH) (opened eH (newTransaction eT i)) (holdings st)).
  { subst st'. rewrite holdings_createTransaction.
    now apply (buy_new eH (newTransaction eT i) st). }
  assert (Hs : sameInstrument (InsertTransaction.portfolioId i)
                              (InsertTransaction.symbol i)
                              (opened eH (newTransaction eT i)) = true)
    by apply Invariants.sameInstrument_own.
  assert (H1 : findHolding (InsertTransaction.portfolioId i)
                           (InsertTransaction.symbol i) st'
               = Some (opened eH (newTransaction eT i))).
  { unfold findHolding. rewrite Hh.
    now apply (JsMapFacts.first_set_new _ (sameInstrument _ _)). }
  split; [exact H1|].
  pose proof (JsMapFacts.first_some_count _ _ _ _ H1) as Hge.
  pose proof (JsMapFacts.count_set_le _
                (sameInstrument (InsertTransaction.portfolioId i)
                                (InsertTransaction.symbol i))
                (uuid eH) (opened eH (newTransaction eT i)) (holdings st)) as Hle.
  rewrite Hs, (JsMapFacts.first_none_count _ _ _ Hf) in Hle.
  rewrite Hh in Hge. unfold holdingsFor. rewrite Hh. lia.
Qed.

(** A buy of an instrument already held restates its holding. *)
Lemma next_buy (st : MemStorage.t) (eT eH : Env) (i : InsertTransaction.t)
      (h : Holding.t) :
  wellFormed st ->
  InsertTransaction.type i = "buy" ->
  findHolding (InsertTransaction.portfolioId i) (InsertTransaction.symbol i) st = Some h ->
  let st' := snd (createTransaction eT eH i st) in
  let h' := restated h
              (nextQuantity (Holding.quantity h) (InsertTransaction.quantity i))
              (nextAverageCost (Holding.quantity h) (Holding.averageCost h)
                               (InsertTransaction.quantity i) (InsertTransaction.price i))
              (now eH) in
  holdings st' = JsMap.set (Holding.id h) h' (holdings st)
  /\ findHolding (InsertTransaction.portfolioId i) (InsertTransaction.symbol i) st'
     = Some h'
  /\ holdingsFor (InsertTransaction.portfolioId i) (InsertTransaction.symbol i) st'
     = holdingsFor (InsertTransaction.portfolioId i) (InsertTransaction.symbol i) st.
Proof.
  intros Hwf Ht Hf st' h'.
  assert (Hh : holdings st' = JsMap.set (Holding.id h) h' (holdings st)).
  { subst st'. rewrite holdings_createTransaction.
    now apply (buy_more eH (newTransaction eT i) st h). }
  split; [exact Hh|]. split.
  - unfold findHolding. rewrite Hh.
    apply (JsMapFacts.first_set_same _ (sameInstrument _ _) _ _ h).
    + exact Hf.
    + intros k' Hin. destruct Hwf as [_ Hkeyed]. now apply Hkeyed.
    + subst h'. rewrite sameInstrument_restated. eapply found_same; eauto.
  - unfold holdingsFor. rewrite Hh.
    apply JsMapFacts.count_set_same with (v0 := h).
    + eapply found_get; eauto.
    + reflexivity.
Qed.

(** Buys of an instrument that has exactly one holding keep that holding
    and fold the buy rule over it. *)
Lemma further_buys (p s : string) (calls : list Call) :
  forall (st : MemStorage.t) (h : Holding.t),
    wellFormed st ->
    findHolding p s st = Some h ->
    holdingsFor p s st = 1%nat ->
    Forall (fun c => isBuyOf p s (input c)) calls ->
    exists h',
      findHolding p s (applyAll calls st) = Some h'
      /\ (Holding.quantity h', Holding.averageCost h')
         = afterBuys (Holding.quantity h) (Holding.averageCost h) (map input calls)
      /\ holdingsFor p s (applyAll calls st) = 1%nat.
Proof.
  induction calls as [|c calls IH]; intros st h Hwf Hf H1 Hall.
  - exists h. auto.
  - inversion Hall as [|? ? [Ht [Hp Hs]] Hrest]; subst.
    destruct (next_buy st (envT c) (envH c) (input c) h Hwf Ht Hf)
      as (_ & Hf' & Hc').
    simpl applyAll. simpl map. simpl afterBuys.
    apply (IH (apply st c)
              (restated h
                 (nextQuantity (Holding.quantity h)
                               (InsertTransaction.quantity (input c)))
                 (nextAverageCost (Holding.quantity h) (Holding.averageCost h)
                                  (InsertTransaction.quantity (input c))
                                  (InsertTransaction.price (input c)))
                 (now (envH c)))).
    + now apply wellFormed_createTransaction.
    + exact Hf'.
    + unfold apply. now rewrite Hc'.
    + exact Hrest.
Qed.

(** C1. Buys of a (portfolioId, symbol) that has no holding leave exactly
    one holding for it.  The first buy creates it with the quantity and the
    price of the transaction, as written; each later buy replaces the
    quantity by the text of [existing_quantity + txn_quantity] and the
    average cost by the text of [(existing_quantity * existing_average_cost
    + txn_quantity * txn_price) / new_quantity], every operation being the
    binary64 one on the numbers read from the stored texts. *)
Theorem C1_buys_accumulate (st : MemStorage.t) (p s : string)
        (c : Call) (calls : list Call) :
  wellFormed st ->
  findHolding p s st = None ->
  isBuyOf p s (input c) ->
  Forall (fun c => isBuyOf p s (input c)) calls ->
  let st' := applyAll (c :: calls) st in
  exists h,
    findHolding p s st' = Some h
    /\ (Holding.quantity h, Holding.averageCost h)
       = afterBuys (InsertTransaction.quantity (input c))
                   (InsertTransaction.price (input c)) (map input calls)
    /\ holdingsFor p s st' = 1%nat.
Proof.
  intros Hwf Hf [Ht [Hp Hs]] Hall st'. subst p s.
  destruct (first_buy st (envT c) (envH c) (input c) Ht Hf) as [H1 Hc].
  subst st'. simpl applyAll.
  apply (further_buys _ _ calls (apply st c)
           (opened (envH c) (newTransaction (envT c) (input c)))).
  - now apply wellFormed_createTransaction.
  - exact H1.
  - exact Hc.
  - exact Hall.
Qed.

Lemma C1_buys_accumulate_witness :
  wellFormed Sample.fresh
  /\ findHolding "uuid-0" "TSLA" Sample.fresh = None
  /\ Forall (fun c => isBuyOf "uuid-0" "TSLA" (input c)) Sample.twoBuys
  /\ exists h,
       findHolding "uuid-0" "TSLA" (applyAll Sample.twoBuys Sample.fresh) = Some h
       /\ (Holding.quantity h, Holding.averageCost h) = ("75", "160")
       /\ holdingsFor "uuid-0" "TSLA" (applyAll Sample.twoBuys Sample.fresh) = 1%nat.
Proof.
  assert (Hall : Forall (fun c => isBuyOf "uuid-0" "TSLA" (input c)) Sample.twoBuys)
    by (repeat constructor).
  split; [exact Sells.fresh_wellFormed|]. split; [reflexivity|].
  split; [exact Hall|].
  apply (C1_buys_accumulate Sample.fresh "uuid-0" "TSLA"
           (Sample.call 10 (Sample.request "uuid-0" "TSLA" "buy" "50" "150.00"))
           [Sample.call 12 (Sample.request "uuid-0" "TSLA" "buy" "25" "180.00")]
           Sells.fresh_wellFormed eq_refl).
  - repeat split.
  - repeat constructor.
Defined.

(** C1, as worded, fails: after buying 0.1 and then 0.2 the quantity on
    record is 0.30000000000000004, not the sum 0.3. *)
Lemma C1_counterexample :
  ~ Stated.weightedMean Sample.fresh Sample.twoDimes "uuid-0" "TSLA".
Proof.
  intros (h & Hf & Hq & _).
  vm_compute in Hf. inversion Hf; subst h. clear Hf.
  vm_compute in Hq. discriminate Hq.
Qed.

Example twoDimes_quantity :
  option_map Holding.quantity
             (findHolding "uuid-0" "TSLA" (applyAll Sample.twoDimes Sample.fresh))
  = Some "0.30000000000000004".
Proof. reflexivity. Qed.

End Buys.

(* ===================================================================== *)
(** * What [createTransaction] checks *)
(* ===================================================================== *)

Module Checks.
Import Number MemStorage Props MemStorageFacts.




(** C3. [createTransaction] checks neither the quantity nor the price of a
    buy and has no failing outcome: whatever they are, it returns the
    transaction it built, the ledger holds it under its id, and afterwards
    the instrument has a holding, created from the transaction when there
    was none and restated by the buy rule when there was one. *)
Theorem C3_buy_is_applied_unchecked (st : MemStorage.t) (eT eH : Env)
        (i : InsertTransaction.t) :
  wellFormed st ->
  InsertTransaction.type i = "buy" ->
  let r := createTransaction eT eH i st in
  let found p := findHolding (InsertTransaction.portfolioId i)
                             (InsertTransaction.symbol i) p in
  fst r = newTransaction eT i
  /\ getTransaction (uuid eT) (snd r) = Some (fst r)
  /\ exists h,
       found (snd r) = Some h
       /\ match found st with
          | None => h = opened eH (fst r)
          | Some h0 =>
              h = restated h0
                    (nextQuantity (Holding.quantity h0) (InsertTransaction.quantity i))
                    (nextAverageCost (Holding.quantity h0) (Holding.averageCost h0)
                                     (InsertTransaction.quantity i)
                                     (InsertTransaction.price i))
                    (now eH)
          end.
Proof.
  intros Hwf Ht r found.
  split; [reflexivity|]. split.
  { unfold getTransaction. subst r. rewrite transactions_createTransaction.
    apply JsMapFacts.get_set_same. }
  subst found. cbv beta.
  destruct (findHolding (InsertTransaction.portfolioId i)
                        (InsertTransaction.symbol i) st) as [h0|] eqn:Hf.
  - destruct (Buys.next_buy st eT eH i h0 Hwf Ht Hf) as (_ & H1 & _).
    eexists. split; [exact H1 | reflexivity].
  - destruct (Buys.first_buy st eT eH i Ht Hf) as (H1 & _).
    eexists. split; [exact H1 | reflexivity].
Qed.

Lemma C3_buy_is_applied_unchecked_witness :
  let r := createTransaction (Sample.env 10) (Sample.env 11) Sample.badBuy
                             Sample.fresh in
  wellFormed Sample.fresh
  /\ le (parseFloat (InsertTransaction.quantity Sample.badBuy)) zero = true
  /\ getTransaction "uuid-10" (snd r) = Some (fst r)
  /\ exists h,
       findHolding "uuid-0" "TSLA" (snd r) = Some h
       /\ h = opened (Sample.env 11) (fst r).
Proof.
  intros r.
  destruct (C3_buy_is_applied_unchecked Sample.fresh (Sample.env 10) (Sample.env 11)
              Sample.badBuy Sells.fresh_wellFormed eq_refl)
    as (_ & Hg & h & Hf & Hh).
  split; [exact Sells.fresh_wellFormed|]. split; [reflexivity|].
  split; [exact Hg|]. exists h. split; [exact Hf | exact Hh].
Defined.

(** C3, as worded, fails: the buy of -5 at 10 is not rejected, and the
    store after it is not the store before it. *)
Lemma C3_counterexample :
  ~ Stated.rejectsBadBuy Sample.fresh (Sample.env 10) (Sample.env 11) Sample.badBuy.
Proof.
  intros H. specialize (H eq_refl (or_introl eq_refl)).
  vm_compute in H. discriminate H.
Qed.

Example badBuy_holding :
  option_map Holding.quantity
    (findHolding "uuid-0" "TSLA"
       (snd (createTransaction (Sample.env 10) (Sample.env 11) Sample.badBuy
                               Sample.fresh)))
  = Some "-5".
Proof. reflexivity. Qed.

End Checks.

(* ===================================================================== *)
(** * One holding per instrument *)
(* ===================================================================== *)

Module Uniqueness.
Import Number MemStorage Props MemStorageFacts.

(** C4. In every state reached from the constructor by [createTransaction]
    alone there is at most one holding for each (portfolioId, symbol).
    [createHolding] writes what it is given without looking for a holding
    of the same instrument. *)
Theorem C4_transactions_keep_holdings_unique (st : MemStorage.t) :
  reachableByTransactions st -> uniqueHoldings st.
Proof.
  induction 1 as [ids today | st eT eH i Hr IH].
  - apply Invariants.unique_constructor.
  - apply Invariants.unique_createTransaction; [|exact IH].
    now apply Invariants.reachableByTransactions_wellFormed.
Qed.

Lemma C4_transactions_keep_holdings_unique_witness :
  reachableByTransactions (applyAll Sample.twoBuys Sample.fresh)
  /\ uniqueHoldings (applyAll Sample.twoBuys Sample.fresh).
Proof.
  assert (H : reachableByTransactions (applyAll Sample.twoBuys Sample.fresh)).
  { apply byTx_createTransaction. apply byTx_createTransaction. apply byTx_new. }
  split; [exact H|].
  exact (C4_transactions_keep_holdings_unique _ H).
Defined.

(** C4, as worded, fails: [createHolding] for AAPL in portfolio [uuid-0],
    right after construction, leaves two holdings of AAPL there. *)
Lemma C4_counterexample : ~ Stated.alwaysUnique.
Proof.
  intros H.
  assert (Hr : reachable (snd (createHolding (Sample.env 10) Sample.secondApple
                                             Sample.fresh))).
  { apply reach_createHolding. apply reach_new. }
  apply H in Hr. specialize (Hr "uuid-0" "AAPL").
  vm_compute in Hr. lia.
Qed.

Example two_apples :
  holdingsFor "uuid-0" "AAPL"
    (snd (createHolding (Sample.env 10) Sample.secondApple Sample.fresh)) = 2%nat.
Proof. reflexivity. Qed.

End Uniqueness.

(* ===================================================================== *)
(** * The metrics calculator *)
(* ===================================================================== *)

Module Metrics.
Import Number MemStorage Props MemStorageFacts.

Lemma Forall2_map_graph (A B : Type) (f : A -> B) (P : A -> B -> Prop) (l : list A) :
  (forall a, P a (f a)) -> Forall2 P l (map f l).
Proof. intros H. induction l; simpl; constructor; auto. Qed.

(** C7. [getHoldingsWithMetrics] returns, for each holding of the portfolio
    and in the same order, [currentValue = currentPrice * quantity],
    [totalGain = currentValue - averageCost * quantity] and
    [totalGainPercent = totalGain / (averageCost * quantity) * 100] when
    the cost basis is above zero, and 0 in every other case: a cost basis
    that is zero, negative or NaN.  A holding without [currentPrice] is
    valued at price 0. *)
Theorem C7_holding_metrics (st : MemStorage.t) (portfolioId : string) :
  Forall2
    (fun h m =>
       HoldingWithMetrics.holding m = h
       /\ HoldingWithMetrics.currentValue m = valueOf h
       /\ HoldingWithMetrics.totalGain m = sub (valueOf h) (costOf h)
       /\ HoldingWithMetrics.totalGainPercent m
          = (if gt (costOf h) zero
             then percent (sub (valueOf h) (costOf h)) (costOf h)
             else zero)
       /\ (eqb (costOf h) zero = true -> HoldingWithMetrics.totalGainPercent m = zero)
       /\ (gt (costOf h) zero = false ->
           isFinite (HoldingWithMetrics.totalGainPercent m) = true)
       /\ (Holding.currentPrice h = None -> priceOf h = zero))
    (getHoldings portfolioId st)
    (getHoldingsWithMetrics portfolioId st).
Proof.
  unfold getHoldingsWithMetrics. apply Forall2_map_graph. intros h.
  split; [reflexivity|]. split; [reflexivity|]. split; [reflexivity|].
  split; [reflexivity|].
  unfold holdingWithMetrics. simpl HoldingWithMetrics.totalGainPercent.
  fold (priceOf h) (quantityOf h) (averageCostOf h).
  fold (valueOf h) (costOf h).
  split; [|split].
  - intros Hz. now rewrite (NumberFacts.eqb_zero_not_gt _ Hz).
  - intros Hg. now rewrite Hg.
  - intros Hn. unfold priceOf. rewrite Hn. apply NumberFacts.parseFloat_0.
Qed.

(** C7, as worded, fails: the holding of -950 AAPL at average cost 150 and
    price 175.50 has cost basis -142500, not 0, and the formula gives 17,
    yet [totalGainPercent] is 0. *)
Lemma C7_counterexample :
  ~ (forall h, In h (getHoldings "uuid-0" Sample.shorted) ->
               Stated.holdingMetrics Sample.shorted h).
Proof.
  intros H.
  assert (Hin : In Sample.shortApple (getHoldings "uuid-0" Sample.shorted))
    by (vm_compute; left; reflexivity).
  destruct (H _ Hin) as (_ & _ & Hp & _).
  vm_compute in Hp. discriminate Hp.
Qed.

(** The holdings the constructor puts in portfolio [uuid-0]: 50 AAPL at
    150.00 priced 175.50, and 25 MSFT at 280.00 priced 310.25. *)
Example sample_metrics :
  map (fun m => (toString (HoldingWithMetrics.currentValue m),
                 toString (HoldingWithMetrics.totalGain m),
                 toString (HoldingWithMetrics.totalGainPercent m)))
      (getHoldingsWithMetrics "uuid-0" Sample.fresh)
  = [("8775", "1275", "17"); ("7756.25", "756.25", "10.803571428571429")].
Proof. reflexivity. Qed.

(** Nor is the percentage always a finite number: with 1e308 units at
    average cost 10 the cost basis is infinite and the percentage NaN. *)
Example huge_percent :
  HoldingWithMetrics.totalGainPercent (holdingWithMetrics Sample.fresh Sample.hugeHolding)
  = nan.
Proof. reflexivity. Qed.

(** ** The portfolio *)

Lemma fold_accumulate (hs : list Holding.t) :
  forall a b,
    fold_left accumulate hs (a, b)
    = (fold_left add (map valueOf hs) a, fold_left add (map costOf hs) b).
Proof.
  induction hs as [|h hs IH]; intros a b; simpl; [reflexivity|].
  now rewrite <- IH.
Qed.

Lemma fold_amounts (ts : list Transaction.t) :
  forall a,
    fold_left (fun sum t => add sum (parseFloat (Transaction.totalAmount t))) ts a
    = fold_left add (map (fun t => parseFloat (Transaction.totalAmount t)) ts) a.
Proof.
  induction ts as [|t ts IH]; intros a; simpl; [reflexivity|]. apply IH.
Qed.

(** C8. For a portfolio in the store, [getPortfolioWithMetrics] returns
    [totalValue], the sum of [currentPrice * quantity] over its holdings,
    [totalGain = totalValue - cost] where [cost] is the sum of
    [averageCost * quantity], [totalGainPercent = totalGain / cost * 100]
    when [cost] is above zero and 0 otherwise, [dividendYield], the sum of
    [totalAmount] over its dividend transactions divided by [totalValue]
    times 100 when [totalValue] is above zero and 0 otherwise, and
    [holdingsCount], the number of its holdings.  Without holdings all of
    them are 0. *)
Theorem C8_portfolio_metrics (st : MemStorage.t) (id : string) (p : Portfolio.t) :
  JsMap.get id (portfolios st) = Some p ->
  exists r,
    getPortfolioWithMetrics id st = Some r
    /\ PortfolioWithMetrics.portfolio r = p
    /\ let hs := getHoldings id st in
       let value := sum (map valueOf hs) in
       let cost := sum (map costOf hs) in
       PortfolioWithMetrics.totalValue r = value
       /\ PortfolioWithMetrics.totalGain r = sub value cost
       /\ PortfolioWithMetrics.totalGainPercent r
          = (if gt cost zero then percent (sub value cost) cost else zero)
       /\ PortfolioWithMetrics.dividendYield r
          = (if gt value zero then percent (dividendsOf id st) value else zero)
       /\ PortfolioWithMetrics.holdingsCount r = length hs
       /\ (hs = [] ->
           PortfolioWithMetrics.totalValue r = zero
           /\ PortfolioWithMetrics.totalGain r = zero
           /\ PortfolioWithMetrics.totalGainPercent r = zero
           /\ PortfolioWithMetrics.dividendYield r = zero
           /\ PortfolioWithMetrics.holdingsCount r = 0%nat).
Proof.
  intros Hp. unfold getPortfolioWithMetrics. rewrite Hp.
  fold (getHoldings id st). fold (transactionsOf id st).
  rewrite fold_accumulate, fold_amounts.
  fold isDividend.
  eexists. split; [reflexivity|]. split; [reflexivity|].
  cbv zeta. simpl PortfolioWithMetrics.totalValue.
  simpl PortfolioWithMetrics.totalGain. simpl PortfolioWithMetrics.totalGainPercent.
  simpl PortfolioWithMetrics.dividendYield. simpl PortfolioWithMetrics.holdingsCount.
  repeat (split; [reflexivity|]).
  intros Hn. rewrite Hn. repeat split.
Qed.

Lemma C8_portfolio_metrics_witness :
  exists p r,
    JsMap.get "uuid-0" (portfolios Sample.fresh) = Some p
    /\ getPortfolioWithMetrics "uuid-0" Sample.fresh = Some r
    /\ toString (PortfolioWithMetrics.totalValue r) = "16531.25"
    /\ toString (PortfolioWithMetrics.totalGain r) = "2031.25"
    /\ PortfolioWithMetrics.holdingsCount r = 2%nat.
Proof.
  destruct (JsMap.get "uuid-0" (portfolios Sample.fresh)) as [p|] eqn:Hp;
    [|discriminate Hp].
  destruct (C8_portfolio_metrics Sample.fresh "uuid-0" p Hp)
    as (r & Hr & _ & Hv & Hg & _ & _ & Hc & _).
  exists p, r. split; [reflexivity|]. split; [exact Hr|].
  split; [now rewrite Hv|]. split; [now rewrite Hg | now rewrite Hc].
Defined.

(** C8, as worded, fails: after the buy of -1000 AAPL the cost of portfolio
    [uuid-0] is -135500, not 0, and the formula gives a percentage, yet
    [totalGainPercent] is 0. *)
Lemma C8_counterexample : ~ Stated.portfolioMetrics Sample.shorted "uuid-0".
Proof.
  intros H.
  destruct (JsMap.get "uuid-0" (portfolios Sample.shorted)) as [p|] eqn:Hp;
    [|discriminate Hp].
  destruct (H p Hp) as (r & Hr & Hrest).
  cbv zeta in Hrest. destruct Hrest as (_ & _ & Hpct & _).
  vm_compute in Hr. inversion Hr; subst r. clear Hr.
  vm_compute in Hpct. discriminate Hpct.
Qed.

End Metrics.

(* ===================================================================== *)
(** * Binary64 operations return the exact result, rounded *)
(* ===================================================================== *)

Module Rounding.
Import Number Props.

(** ** Digits and right shifts *)

Lemma digits2_pos_bounds (p : positive) :
  2 ^ (Zpos (digits2_pos p) - 1) <= Zpos p < 2 ^ Zpos (digits2_pos p).
Proof.
  induction p as [p IH|p IH|]; simpl digits2_pos.
  - rewrite Pos2Z.inj_succ, (Pos2Z.inj_xI p).
    replace (Z.succ (Zpos (digits2_pos p)) - 1)
      with (Z.succ (Zpos (digits2_pos p) - 1)) by lia.
    rewrite !Z.pow_succ_r by lia.
    set (a := 2 ^ (Zpos (digits2_pos p) - 1)) in *.
    set (b := 2 ^ Zpos (digits2_pos p)) in *. clearbody a b. lia.
  - rewrite Pos2Z.inj_succ, (Pos2Z.inj_xO p).
    replace (Z.succ (Zpos (digits2_pos p)) - 1)
      with (Z.succ (Zpos (digits2_pos p) - 1)) by lia.
    rewrite !Z.pow_succ_r by lia.
    set (a := 2 ^ (Zpos (digits2_pos p) - 1)) in *.
    set (b := 2 ^ Zpos (digits2_pos p)) in *. clearbody a b. lia.
  - simpl. lia.
Qed.

Lemma Zdigits2_nonneg (m : Z) : 0 <= m -> 0 <= Zdigits2 m.
Proof. destruct m; simpl; lia. Qed.

Lemma Zdigits2_bounds (m : Z) :
  0 < m -> 2 ^ (Zdigits2 m - 1) <= m < 2 ^ Zdigits2 m.
Proof. destruct m as [|p|p]; try lia. intros _. apply digits2_pos_bounds. Qed.

Lemma Zdigits2_upper (m : Z) : 0 <= m -> m < 2 ^ Zdigits2 m.
Proof.
  intros H. destruct (Z.eq_dec m 0) as [->|Hn]; [reflexivity|].
  apply Zdigits2_bounds. lia.
Qed.

(** Fewer than [2 ^ k] means at most [k] digits. *)
Lemma Zdigits2_le (m k : Z) : 0 <= m -> 0 <= k -> m < 2 ^ k -> Zdigits2 m <= k.
Proof.
  intros Hm Hk Hlt. destruct (Z.eq_dec m 0) as [->|Hn]; [simpl; lia|].
  destruct (Zdigits2_bounds m ltac:(lia)) as [Hlo _].
  destruct (Z_le_gt_dec (Zdigits2 m) k) as [|Hgt]; [assumption|exfalso].
  assert (2 ^ k <= 2 ^ (Zdigits2 m - 1)) by (apply Z.pow_le_mono_r; lia).
  lia.
Qed.

(** At least [2 ^ k] means more than [k] digits. *)
Lemma Zdigits2_gt (m k : Z) : 0 <= k -> 2 ^ k <= m -> k < Zdigits2 m.
Proof.
  intros Hk Hle.
  assert (0 < 2 ^ k) by (apply Z.pow_pos_nonneg; lia).
  destruct (Zdigits2_bounds m ltac:(lia)) as [_ Hhi].
  destruct (Z_lt_le_dec k (Zdigits2 m)) as [|Hge]; [assumption|exfalso].
  assert (2 ^ Zdigits2 m <= 2 ^ k).
  { apply Z.pow_le_mono_r; [lia|]. exact Hge. }
  lia.
Qed.

Lemma located_shr_1 (N D : Z) (mrs : shr_record) :
  0 < D -> 0 <= shr_m mrs -> located N D mrs ->
  located N (2 * D) (shr_1 mrs) /\ 0 <= shr_m (shr_1 mrs).
Proof.
  unfold located. destruct mrs as [m r s]. cbn [shr_m shr_r shr_s].
  intros HD Hm (Hb & Hr & Hs).
  assert (Hrs : (r || s)%bool = true <-> N - m * D <> 0).
  { rewrite orb_true_iff, Hr, Hs. lia. }
  destruct m as [|[p|p|]|p]; try lia; cbn [shr_1 shr_m shr_r shr_s];
    rewrite ?(Pos2Z.inj_xI p), ?(Pos2Z.inj_xO p) in *.
  - split; [|lia]. split; [lia|]. split; [split; [discriminate|lia]|].
    rewrite Hrs. lia.
  - split; [|lia]. split; [lia|]. split; [split; [lia|reflexivity]|].
    rewrite Hrs. lia.
  - split; [|lia]. split; [lia|]. split; [split; [discriminate|lia]|].
    rewrite Hrs. lia.
  - split; [|lia]. split; [lia|]. split; [split; [lia|reflexivity]|].
    rewrite Hrs. lia.
Qed.

Lemma pow2_xO (p : positive) : 2 ^ Zpos p~0 = 2 ^ Zpos p * 2 ^ Zpos p.
Proof.
  rewrite (Pos2Z.inj_xO p). replace (2 * Zpos p) with (Zpos p + Zpos p) by lia.
  now rewrite Z.pow_add_r by lia.
Qed.

Lemma pow2_xI (p : positive) : 2 ^ Zpos p~1 = 2 * (2 ^ Zpos p * 2 ^ Zpos p).
Proof.
  rewrite (Pos2Z.inj_xI p). rewrite Z.pow_add_r by lia.
  replace (2 * Zpos p) with (Zpos p + Zpos p) by lia.
  rewrite Z.pow_add_r by lia. rewrite Z.pow_1_r. ring.
Qed.

Lemma located_iter (p : positive) :
  forall (N D : Z) (mrs : shr_record),
    0 < D -> 0 <= shr_m mrs -> located N D mrs ->
    located N (D * 2 ^ Zpos p) (iter_pos shr_1 p mrs)
    /\ 0 <= shr_m (iter_pos shr_1 p mrs).
Proof.
  induction p as [p IH|p IH|]; intros N D mrs HD Hm Hl; simpl iter_pos.
  - destruct (located_shr_1 N D mrs HD Hm Hl) as [H1 Hm1].
    assert (HP : 0 < 2 ^ Zpos p) by (apply Z.pow_pos_nonneg; lia).
    destruct (IH N (2 * D) _ ltac:(lia) Hm1 H1) as [H2 Hm2].
    destruct (IH N (2 * D * 2 ^ Zpos p) _ ltac:(nia) Hm2 H2) as [H3 Hm3].
    split; [|exact Hm3].
    replace (D * 2 ^ Zpos p~1) with (2 * D * 2 ^ Zpos p * 2 ^ Zpos p); [exact H3|].
    rewrite pow2_xI. ring.
  - assert (HP : 0 < 2 ^ Zpos p) by (apply Z.pow_pos_nonneg; lia).
    destruct (IH N D _ HD Hm Hl) as [H2 Hm2].
    destruct (IH N (D * 2 ^ Zpos p) _ ltac:(nia) Hm2 H2) as [H3 Hm3].
    split; [|exact Hm3].
    replace (D * 2 ^ Zpos p~0) with (D * 2 ^ Zpos p * 2 ^ Zpos p); [exact H3|].
    rewrite pow2_xO. ring.
  - destruct (located_shr_1 N D mrs HD Hm Hl) as [H1 Hm1].
    split; [|exact Hm1]. rewrite Z.pow_1_r. now rewrite Z.mul_comm.
Qed.

Lemma located_round (N D : Z) (mrs : shr_record) :
  0 < D -> located N D mrs ->
  let m2 := round_nearest_even (shr_m mrs) (loc_of_shr_record mrs) in
  - D <= 2 * (m2 * D - N) <= D
  /\ shr_m mrs <= m2 <= shr_m mrs + 1
  /\ (N = shr_m mrs * D -> m2 = shr_m mrs).
Proof.
  unfold located. destruct mrs as [m r s]. cbn [shr_m shr_r shr_s].
  intros HD (Hb & Hr & Hs).
  destruct r, s; cbn [loc_of_shr_record round_nearest_even].
  - assert (D <= 2 * (N - m * D)) by (now apply Hr).
    assert (N - m * D <> 0 /\ 2 * (N - m * D) <> D) by (now apply Hs). lia.
  - assert (D <= 2 * (N - m * D)) by (now apply Hr).
    assert (~ (N - m * D <> 0 /\ 2 * (N - m * D) <> D))
      by (intros H'; apply Hs in H'; discriminate).
    destruct (Z.even m); lia.
  - assert (~ D <= 2 * (N - m * D)) by (intros H'; apply Hr in H'; discriminate).
    lia.
  - assert (~ D <= 2 * (N - m * D)) by (intros H'; apply Hr in H'; discriminate).
    assert (~ (N - m * D <> 0 /\ 2 * (N - m * D) <> D))
      by (intros H'; apply Hs in H'; discriminate).
    lia.
Qed.

Lemma shr_m_of_loc (m : Z) (l : location) : shr_m (shr_record_of_loc m l) = m.
Proof. now destruct l as [|[]]. Qed.

Lemma located_shr (N D : Z) (mrs : shr_record) (e n : Z) :
  0 < D -> 0 <= shr_m mrs -> located N D mrs ->
  located N (D * 2 ^ Z.max 0 n) (fst (shr mrs e n))
  /\ 0 <= shr_m (fst (shr mrs e n))
  /\ snd (shr mrs e n) = e + Z.max 0 n
  /\ (n <= 0 -> fst (shr mrs e n) = mrs).
Proof.
  intros HD Hm Hl. destruct n as [|p|p]; cbn [shr fst snd].
  - rewrite Z.max_id. change (2 ^ 0) with 1. rewrite Z.mul_1_r, Z.add_0_r. tauto.
  - rewrite Z.max_r by lia.
    destruct (located_iter p N D mrs HD Hm Hl) as [H1 H2].
    split; [exact H1|]. split; [exact H2|]. split; [reflexivity|lia].
  - rewrite Z.max_l by lia. change (2 ^ 0) with 1.
    rewrite Z.mul_1_r, Z.add_0_r. tauto.
Qed.

(** The second shift of [binary_round_aux]: it takes back the carry of the
    rounding, and only that. *)
Lemma shr_fexp_carry (m2 e1 : Z) :
  0 <= m2 <= 2 ^ prec -> emin prec emax <= e1 ->
  (m2 < 2 ^ prec
   /\ shr_fexp prec emax m2 e1 loc_Exact
      = ({| shr_m := m2; shr_r := false; shr_s := false |}, e1))
  \/ (m2 = 2 ^ prec
      /\ shr_fexp prec emax m2 e1 loc_Exact
         = ({| shr_m := 2 ^ (prec - 1); shr_r := false; shr_s := false |}, e1 + 1)).
Proof.
  intros Hm He. unfold shr_fexp. cbn [shr_record_of_loc].
  destruct (Z.eq_dec m2 (2 ^ prec)) as [->|Hne].
  - right. split; [reflexivity|].
    replace (fexp prec emax (Zdigits2 (2 ^ prec) + e1) - e1) with 1.
    + reflexivity.
    + change (Zdigits2 (2 ^ prec)) with 54.
      unfold fexp, emin, prec, emax in *. lia.
  - left. split; [lia|].
    assert (Hd : Zdigits2 m2 <= prec).
    { apply Zdigits2_le; [lia | unfold prec; lia | lia]. }
    assert (Hn : fexp prec emax (Zdigits2 m2 + e1) - e1 <= 0).
    { unfold fexp, emin, prec, emax in *. lia. }
    destruct (fexp prec emax (Zdigits2 m2 + e1) - e1) as [|p|p]; try reflexivity.
    lia.
Qed.

Lemma binary_round_aux_cases (s : bool) (m e : Z) (l : location) (N D : Z) :
  0 <= m -> 0 < D -> located N D (shr_record_of_loc m l) ->
  let k := Z.max 0 (fexp prec emax (Zdigits2 m + e) - e) in
  exists m2 : Z,
    0 <= m2
    /\ - (D * 2 ^ k) <= 2 * (m2 * (D * 2 ^ k) - N) <= D * 2 ^ k
    /\ (N = m * D -> k = 0 -> m2 = m)
    /\ ((m2 = 0 /\ binary_round_aux prec emax s m e l = S754_zero s)
        \/ (exists (m3 : positive) (j : Z),
              0 <= j /\ Zpos m3 * 2 ^ j = m2
              /\ binary_round_aux prec emax s m e l
                 = if e + k + j <=? emax - prec then S754_finite s m3 (e + k + j)
                   else S754_infinity s)).
Proof.
  intros Hm HD Hl k.
  assert (Hm0 : 0 <= shr_m (shr_record_of_loc m l)) by (now rewrite shr_m_of_loc).
  pose proof (located_shr N D _ e (fexp prec emax (Zdigits2 m + e) - e) HD Hm0 Hl)
    as (H1 & Hm1 & He1 & Hsame).
  fold k in H1, He1.
  unfold binary_round_aux.
  change (shr_fexp prec emax m e l)
    with (shr (shr_record_of_loc m l) e (fexp prec emax (Zdigits2 m + e) - e)).
  destruct (shr (shr_record_of_loc m l) e (fexp prec emax (Zdigits2 m + e) - e))
    as [mrs' e'] eqn:Es.
  cbn [fst snd] in H1, Hm1, He1, Hsame. subst e'.
  assert (HK : 0 < 2 ^ k) by (apply Z.pow_pos_nonneg; lia).
  assert (HDk : 0 < D * 2 ^ k) by nia.
  pose proof (located_round N (D * 2 ^ k) mrs' HDk H1) as (Hr1 & Hr2 & Hr3).
  set (m2 := round_nearest_even (shr_m mrs') (loc_of_shr_record mrs')) in *.
  exists m2. split; [lia|]. split; [exact Hr1|]. split.
  { intros HN Hk.
    assert (E : mrs' = shr_record_of_loc m l) by (apply Hsame; unfold k in Hk; lia).
    rewrite <- (shr_m_of_loc m l), <- E. apply Hr3.
    rewrite E, shr_m_of_loc, Hk. change (2 ^ 0) with 1. lia. }
  (* the mantissa before rounding has at most [prec] digits *)
  assert (Hlt : shr_m mrs' < 2 ^ prec).
  { destruct Hl as (Hb & _). rewrite shr_m_of_loc in Hb.
    destruct H1 as (Hb1 & _).
    pose proof (Zdigits2_upper m Hm) as Hup.
    pose proof (Zdigits2_nonneg m Hm) as Hd0.
    destruct (Z_lt_le_dec (shr_m mrs') (2 ^ prec)) as [|Hge]; [assumption|exfalso].
    assert (Hk : Zdigits2 m <= prec + k).
    { unfold k, fexp, emin, prec, emax. lia. }
    assert (2 ^ Zdigits2 m <= 2 ^ (prec + k)) by (apply Z.pow_le_mono_r; lia).
    rewrite Z.pow_add_r in H by (unfold prec; lia).
    assert (shr_m mrs' * 2 ^ k < m + 1) by nia.
    nia. }
  assert (Hemin : emin prec emax <= e + k).
  { unfold k, fexp, emin, prec, emax. lia. }
  destruct (shr_fexp_carry m2 (e + k) ltac:(lia) Hemin) as [[Hlt2 E]|[Heq E]];
    rewrite E; cbn [shr_m].
  - destruct m2 as [|p|p] eqn:Em2; try lia.
    + left. split; reflexivity.
    + right. exists p, 0. split; [lia|]. split; [now rewrite Z.mul_1_r|].
      now rewrite Z.add_0_r.
  - right. exists (Z.to_pos (2 ^ (prec - 1))), 1.
    split; [lia|]. split; [rewrite Heq; reflexivity|reflexivity].
Qed.

(** ** The rounding bound of [binary_round_aux] *)

Lemma pow2_pos (z : Z) : (0 < 2 ^ z)%Q.
Proof. now apply Qpower_0_lt. Qed.

Lemma pow2_add (a b : Z) : (2 ^ (a + b) == 2 ^ a * 2 ^ b)%Q.
Proof. apply Qpower_plus. discriminate. Qed.

Lemma pow2_inject (k : Z) : 0 <= k -> (inject_Z (2 ^ k) == 2 ^ k)%Q.
Proof. intros H. now rewrite Zpower_Qpower. Qed.

Lemma pow2_half (z : Z) : (2 ^ z * (1 # 2) == 2 ^ (z - 1))%Q.
Proof.
  replace z with (z - 1 + 1) at 1 by lia. rewrite pow2_add.
  change (2 ^ 1)%Q with 2%Q. field.
Qed.

Lemma signed_wd (s : bool) (a b : Q) : (a == b)%Q -> (signed s a == signed s b)%Q.
Proof. intros E. destruct s; cbn [signed]; now rewrite E. Qed.

Lemma inject_Z_pos (z : Z) : 0 < z -> (0 < inject_Z z)%Q.
Proof. intros H. change (inject_Z 0 < inject_Z z)%Q. now rewrite <- Zlt_Qlt. Qed.

Lemma inject_Z_nonneg (z : Z) : 0 <= z -> (0 <= inject_Z z)%Q.
Proof. intros H. change (inject_Z 0 <= inject_Z z)%Q. now rewrite <- Zle_Qle. Qed.

Lemma bound_to_Q (a d n : Z) :
  - d <= 2 * (a * d - n) <= d ->
  (- inject_Z d <= 2 * (inject_Z a * inject_Z d - inject_Z n) <= inject_Z d)%Q.
Proof.
  intros [H1 H2]. rewrite Zle_Qle in H1, H2. unfold Z.sub in H1, H2.
  rewrite inject_Z_opp, inject_Z_mult, inject_Z_plus, inject_Z_mult,
    inject_Z_opp in H1.
  rewrite inject_Z_mult, inject_Z_plus, inject_Z_mult, inject_Z_opp in H2.
  change (inject_Z 2) with 2%Q in H1, H2. split; lra.
Qed.

Lemma Q_scale (a n d K P : Q) :
  (0 < d -> 0 < P ->
   - (d * K) <= 2 * (a * (d * K) - n) <= d * K ->
   Qabs (a * (P * K) - n / d * P) <= P * K * (1 # 2))%Q.
Proof.
  intros Hd HP [H1 H2].
  assert (E : (n == n / d * d)%Q) by (field; lra).
  set (q := (n / d)%Q) in *. clearbody q.
  rewrite E in H1, H2.
  apply Qabs_Qle_condition.
  assert (0 <= 2 * (a * K - q) + K)%Q by nra.
  assert (2 * (a * K - q) - K <= 0)%Q by nra.
  split; nra.
Qed.

(** The value of a finite number. *)
Lemma toQ_finite (s : bool) (m : positive) (e : Z) (v : Q) :
  toQ (S754_finite s m e) = Some v ->
  (v == signed s (inject_Z (Zpos m) * 2 ^ e))%Q.
Proof.
  unfold toQ. intros H. injection H as <-.
  assert (E : ((if 0 <=? e then inject_Z (Zpos m * 2 ^ e)
                else Zpos m # Z.to_pos (2 ^ (- e)))
               == inject_Z (Zpos m) * 2 ^ e)%Q).
  { destruct (Z.leb_spec 0 e) as [He|He].
    - rewrite inject_Z_mult. now rewrite pow2_inject.
    - rewrite Qmake_Qdiv.
      assert (HP : (0 < 2 ^ (- e))%Z) by (apply Z.pow_pos_nonneg; lia).
      rewrite Z2Pos.id by exact HP.
      rewrite pow2_inject by lia.
      assert (E : (2 ^ e == / 2 ^ (- e))%Q).
      { rewrite <- Qpower_opp, Z.opp_involutive. reflexivity. }
      rewrite E. reflexivity. }
  destruct s; cbn [signed]; now rewrite E.
Qed.

Lemma toQ_zero (s : bool) (v : Q) : toQ (S754_zero s) = Some v -> (v == 0)%Q.
Proof. unfold toQ. intros H. injection H as <-. reflexivity. Qed.

Lemma Qabs_signed_sub (s : bool) (a b : Q) :
  (Qabs (signed s a - signed s b) == Qabs (a - b))%Q.
Proof.
  destruct s; cbn [signed]; [|reflexivity].
  rewrite <- (Qabs_opp (a - b)). apply Qabs_wd. ring.
Qed.

Lemma Qabs_signed (s : bool) (a : Q) : (Qabs (signed s a) == Qabs a)%Q.
Proof. destruct s; cbn [signed]; [apply Qabs_opp | reflexivity]. Qed.

(** [binary_round_aux] returns the value it is given, [N / D * 2 ^ e],
    within the rounding bound, when the mantissa handed to it is the integer
    part of [N / D] and is exact or not longer than the format allows. *)
Lemma binary_round_aux_rounded (s : bool) (m e : Z) (l : location) (N D : Z) :
  0 <= m -> 0 < D -> located N D (shr_record_of_loc m l) ->
  N = m * D \/ e <= fexp prec emax (Zdigits2 m + e) ->
  rounded (signed s (inject_Z N / inject_Z D * 2 ^ e))
          (binary_round_aux prec emax s m e l).
Proof.
  intros Hm HD Hl Hcase.
  destruct (binary_round_aux_cases s m e l N D Hm HD Hl)
    as (m2 & Hm2 & Hb & Hex & Hres).
  set (k := Z.max 0 (fexp prec emax (Zdigits2 m + e) - e)) in *.
  set (X := (inject_Z N / inject_Z D * 2 ^ e)%Q).
  set (V := (inject_Z m2 * 2 ^ (e + k))%Q).
  assert (Hk : 0 <= k) by (unfold k; lia).
  assert (HdQ : (0 < inject_Z D)%Q) by (now apply inject_Z_pos).
  assert (Hlow : m * D <= N).
  { destruct Hl as ((Hl1 & _) & _). now rewrite shr_m_of_loc in Hl1. }
  assert (HX : (inject_Z m * 2 ^ e <= X)%Q).
  { unfold X. apply Qmult_le_compat_r; [|apply Qlt_le_weak, pow2_pos].
    apply Qle_shift_div_l; [exact HdQ|].
    rewrite <- inject_Z_mult. now rewrite <- Zle_Qle. }
  assert (HX0 : (0 <= X)%Q).
  { eapply Qle_trans; [|exact HX].
    apply Qmult_le_0_compat; [|apply Qlt_le_weak, pow2_pos].
    now apply inject_Z_nonneg. }
  (* the distance from the value handed in *)
  assert (HA : (Qabs (V - X) <= 2 ^ (e + k) * (1 # 2))%Q).
  { unfold V, X. rewrite pow2_add. rewrite <- (pow2_inject k Hk).
    apply Q_scale; [exact HdQ | apply pow2_pos |].
    rewrite <- inject_Z_mult. now apply bound_to_Q. }
  (* which is within the bound *)
  assert (Heps : (0 < eps)%Q) by apply pow2_pos.
  assert (Heta : (0 < eta)%Q) by apply pow2_pos.
  assert (Hgen : e + k = fexp prec emax (Zdigits2 m + e) ->
                 (Qabs (V - X) <= X * eps + eta)%Q).
  { intros He1. eapply Qle_trans; [exact HA|]. rewrite pow2_half.
    pose proof (Zdigits2_nonneg m Hm) as Hd0.
    destruct (Z_le_gt_dec (Zdigits2 m + e - prec) (emin prec emax)) as [Hsub|Hnorm].
    - (* the subnormal range *)
      replace (e + k - 1) with (-1075) by (unfold fexp, emin, prec, emax in *; lia).
      fold eta. nra.
    - (* the normal range *)
      assert (Hk' : k = Zdigits2 m - prec)
        by (unfold fexp, emin, prec, emax in *; lia).
      assert (Hmpos : 0 < m).
      { destruct (Z.eq_dec m 0) as [->|]; [|lia].
        cbn [Zdigits2] in Hk'. unfold prec in Hk'. lia. }
      assert (Hd1 : 0 <= Zdigits2 m - 1) by (unfold prec in Hk'; lia).
      destruct (Zdigits2_bounds m Hmpos) as [Hlo _].
      assert (HloQ : (2 ^ (Zdigits2 m - 1) <= inject_Z m)%Q).
      { rewrite <- (pow2_inject (Zdigits2 m - 1) Hd1). now rewrite <- Zle_Qle. }
      replace (e + k - 1) with ((Zdigits2 m - 1) + e + (-53))
        by (unfold prec in Hk'; lia).
      rewrite !pow2_add. fold eps.
      pose proof (pow2_pos e) as Hpe.
      assert (2 ^ (Zdigits2 m - 1) * 2 ^ e <= X)%Q by nra.
      nra. }
  assert (HB : (Qabs (V - X) <= X * eps + eta)%Q).
  { destruct (Z.eq_dec k 0) as [Hk0|Hk0].
    - destruct Hcase as [HN|Hle].
      + (* exact, no shift *)
        assert (E : (V == X)%Q).
        { unfold V, X. rewrite (Hex HN Hk0), Hk0, Z.add_0_r, HN.
          rewrite inject_Z_mult. field. lra. }
        rewrite E. setoid_replace (X - X)%Q with 0%Q by ring.
        change (Qabs 0) with 0%Q. nra.
      + apply Hgen. unfold k in *. lia.
    - apply Hgen. unfold k in *. lia. }
  intros v Hv.
  assert (Ev : (v == signed s V)%Q).
  { destruct Hres as [[Hz Hr]|(m3 & j & Hj & Hm3 & Hr)]; rewrite Hr in Hv.
    - apply toQ_zero in Hv. rewrite Hv. unfold V. rewrite Hz.
      destruct s; cbn [signed]; ring.
    - destruct (e + k + j <=? emax - prec); [|discriminate Hv].
      apply toQ_finite in Hv. rewrite Hv. apply signed_wd.
      unfold V. rewrite <- Hm3, inject_Z_mult, pow2_add, (pow2_inject j Hj). ring. }
  rewrite Ev, Qabs_signed_sub, Qabs_signed, (Qabs_pos X HX0). exact HB.
Qed.

(** ** Sums, differences and products *)

Lemma rounded_wd (x y : Q) (r : number) : (x == y)%Q -> rounded x r -> rounded y r.
Proof. intros E H v Hv. rewrite <- E. now apply H. Qed.

Lemma rounded_exact (x : Q) (r : number) :
  (forall v, toQ r = Some v -> (v == x)%Q) -> rounded x r.
Proof.
  intros H v Hv. rewrite (H v Hv).
  setoid_replace (x - x)%Q with 0%Q by ring. change (Qabs 0) with 0%Q.
  pose proof (Qabs_nonneg x). pose proof (pow2_pos (-53)). pose proof (pow2_pos (-1075)).
  unfold eps, eta. nra.
Qed.

Lemma located_exact (m : Z) : located m 1 (shr_record_of_loc m loc_Exact).
Proof.
  unfold located. cbn [shr_record_of_loc shr_m shr_r shr_s].
  repeat split; intros; try discriminate; lia.
Qed.

Lemma iter_xO (m d : positive) : Zpos (Pos.iter xO m d) = Zpos m * 2 ^ Zpos d.
Proof.
  induction d as [|d IH] using Pos.peano_ind.
  - cbn [Pos.iter]. rewrite Z.pow_1_r. lia.
  - rewrite Pos.iter_succ, Pos2Z.inj_xO, IH, Pos2Z.inj_succ, Z.pow_succ_r by lia. ring.
Qed.

Lemma shl_align_spec (mx : positive) (ex ex' : Z) :
  snd (shl_align mx ex ex') = Z.min ex ex'
  /\ Zpos (fst (shl_align mx ex ex')) = Zpos mx * 2 ^ (ex - Z.min ex ex').
Proof.
  unfold shl_align. destruct (ex' - ex) as [|d|d] eqn:E; cbn [fst snd].
  - rewrite Z.min_l by lia. rewrite Z.sub_diag. change (2 ^ 0) with 1. lia.
  - rewrite Z.min_l by lia. rewrite Z.sub_diag. change (2 ^ 0) with 1. lia.
  - rewrite Z.min_r by lia. rewrite iter_xO.
    replace (ex - ex') with (Zpos d) by lia. tauto.
Qed.

(** The value [m * 2 ^ e] is written on a smaller exponent without loss. *)
Lemma shl_align_value (mx : positive) (ex ex' : Z) :
  (inject_Z (Zpos (fst (shl_align mx ex ex'))) * 2 ^ Z.min ex ex'
   == inject_Z (Zpos mx) * 2 ^ ex)%Q.
Proof.
  destruct (shl_align_spec mx ex ex') as [_ E]. rewrite E, inject_Z_mult.
  rewrite (pow2_inject (ex - Z.min ex ex') ltac:(lia)).
  rewrite <- Qmult_assoc, <- pow2_add.
  now replace (ex - Z.min ex ex' + Z.min ex ex') with ex by lia.
Qed.

Lemma binary_round_rounded (s : bool) (m : positive) (e : Z) :
  rounded (signed s (inject_Z (Zpos m) * 2 ^ e)) (binary_round prec emax s m e).
Proof.
  unfold binary_round.
  pose proof (shl_align_spec m e (fexp prec emax (Zpos (digits2_pos m) + e))) as [E1 _].
  pose proof (shl_align_value m e (fexp prec emax (Zpos (digits2_pos m) + e))) as E2.
  destruct (shl_align m e (fexp prec emax (Zpos (digits2_pos m) + e))) as [mz ez].
  cbn [fst snd] in E1, E2. rewrite <- E1 in E2.
  eapply rounded_wd;
    [|apply (binary_round_aux_rounded s (Zpos mz) ez loc_Exact (Zpos mz) 1);
      [lia | lia | apply located_exact | left; lia]].
  apply signed_wd. rewrite <- E2. change (inject_Z 1) with 1%Q. field.
Qed.

Lemma binary_normalize_rounded (z e : Z) (szero : bool) :
  rounded (inject_Z z * 2 ^ e) (binary_normalize prec emax z e szero).
Proof.
  destruct z as [|p|p]; cbn [binary_normalize].
  - apply rounded_exact. intros v Hv. apply toQ_zero in Hv. rewrite Hv. ring.
  - apply (binary_round_rounded false p e).
  - eapply rounded_wd; [|apply (binary_round_rounded true p e)].
    cbn [signed]. change (Zneg p) with (- Zpos p). rewrite inject_Z_opp. ring.
Qed.

Lemma inject_cond_Zopp (s : bool) (z : Z) :
  (inject_Z (cond_Zopp s z) == signed s (inject_Z z))%Q.
Proof. destruct s; cbn [cond_Zopp signed]; [now rewrite inject_Z_opp | reflexivity]. Qed.

(** The value of a finite number, zero included. *)
Lemma toQ_cases (a : number) (va : Q) :
  toQ a = Some va ->
  (exists s, a = S754_zero s /\ va = 0%Q)
  \/ (exists s m e, a = S754_finite s m e
                    /\ (va == signed s (inject_Z (Zpos m) * 2 ^ e))%Q).
Proof.
  destruct a as [s|s| |s m e]; try discriminate; intros H.
  - left. exists s. split; [reflexivity|]. cbn in H. now injection H as <-.
  - right. exists s, m, e. split; [reflexivity|]. now apply toQ_finite.
Qed.

Lemma add_rounded (a b : number) (va vb : Q) :
  toQ a = Some va -> toQ b = Some vb -> rounded (va + vb) (add a b).
Proof.
  intros Ha Hb.
  destruct (toQ_cases a va Ha) as [(sa & -> & ->)|(sa & ma & ea & -> & Ea)];
    destruct (toQ_cases b vb Hb) as [(sb & -> & ->)|(sb & mb & eb & -> & Eb)].
  - apply rounded_exact. intros v Hv.
    destruct sa, sb; cbn in Hv; injection Hv as <-; reflexivity.
  - apply rounded_exact. intros v Hv. cbn [add SFadd] in Hv.
    apply toQ_finite in Hv. rewrite Hv, Eb. ring.
  - apply rounded_exact. intros v Hv. cbn [add SFadd] in Hv.
    apply toQ_finite in Hv. rewrite Hv, Ea. ring.
  - unfold add. cbn [SFadd].
    eapply rounded_wd; [|apply binary_normalize_rounded].
    rewrite inject_Z_plus, !inject_cond_Zopp, Ea, Eb.
    pose proof (shl_align_value ma ea (Z.min ea eb)) as Va.
    pose proof (shl_align_value mb eb (Z.min ea eb)) as Vb.
    rewrite (Z.min_r ea (Z.min ea eb)) in Va by lia.
    rewrite (Z.min_r eb (Z.min ea eb)) in Vb by lia.
    destruct sa, sb; cbn [signed]; rewrite <- Va, <- Vb; ring.
Qed.

Lemma sub_rounded (a b : number) (va vb : Q) :
  toQ a = Some va -> toQ b = Some vb -> rounded (va - vb) (sub a b).
Proof.
  intros Ha Hb.
  destruct (toQ_cases a va Ha) as [(sa & -> & ->)|(sa & ma & ea & -> & Ea)];
    destruct (toQ_cases b vb Hb) as [(sb & -> & ->)|(sb & mb & eb & -> & Eb)].
  - apply rounded_exact. intros v Hv.
    destruct sa, sb; cbn in Hv; injection Hv as <-; reflexivity.
  - apply rounded_exact. intros v Hv. cbn [sub SFsub] in Hv.
    apply toQ_finite in Hv. rewrite Hv, Eb. destruct sb; cbn [signed negb]; ring.
  - apply rounded_exact. intros v Hv. cbn [sub SFsub] in Hv.
    apply toQ_finite in Hv. rewrite Hv, Ea. ring.
  - unfold sub. cbn [SFsub].
    eapply rounded_wd; [|apply binary_normalize_rounded].
    unfold Z.sub. rewrite inject_Z_plus, inject_Z_opp, !inject_cond_Zopp, Ea, Eb.
    pose proof (shl_align_value ma ea (Z.min ea eb)) as Va.
    pose proof (shl_align_value mb eb (Z.min ea eb)) as Vb.
    rewrite (Z.min_r ea (Z.min ea eb)) in Va by lia.
    rewrite (Z.min_r eb (Z.min ea eb)) in Vb by lia.
    destruct sa, sb; cbn [signed]; rewrite <- Va, <- Vb; ring.
Qed.

Lemma mul_rounded (a b : number) (va vb : Q) :
  toQ a = Some va -> toQ b = Some vb -> rounded (va * vb) (mul a b).
Proof.
  intros Ha Hb.
  destruct (toQ_cases a va Ha) as [(sa & -> & ->)|(sa & ma & ea & -> & Ea)];
    destruct (toQ_cases b vb Hb) as [(sb & -> & ->)|(sb & mb & eb & -> & Eb)].
  - apply rounded_exact. intros v Hv. cbn [mul SFmul] in Hv.
    apply toQ_zero in Hv. rewrite Hv. ring.
  - apply rounded_exact. intros v Hv. cbn [mul SFmul] in Hv.
    apply toQ_zero in Hv. rewrite Hv. ring.
  - apply rounded_exact. intros v Hv. cbn [mul SFmul] in Hv.
    apply toQ_zero in Hv. rewrite Hv. ring.
  - unfold mul. cbn [SFmul].
    eapply rounded_wd;
      [|apply (binary_round_aux_rounded (xorb sa sb) (Zpos (ma * mb)) (ea + eb)
                 loc_Exact (Zpos (ma * mb)) 1);
        [lia | lia | apply located_exact | left; lia]].
    rewrite Ea, Eb, Pos2Z.inj_mul, inject_Z_mult.
    change (inject_Z 1) with 1%Q.
    destruct sa, sb; cbn [signed xorb]; rewrite pow2_add; field.
Qed.

(** ** Quotients and decimal literals *)

(** The place of the remainder [r] of a division by [D], as
    [new_location] finds it. *)
Lemma located_new_location (N D q r : Z) :
  0 < D -> 0 <= r < D -> N = D * q + r ->
  located N D (shr_record_of_loc q (new_location D r)).
Proof.
  intros HD Hr HN.
  unfold new_location, new_location_even, new_location_odd.
  destruct (Z.even D) eqn:Ev; destruct (Z.eqb_spec r 0) as [Hr0|Hr0].
  - unfold located. cbn [shr_record_of_loc shr_m shr_r shr_s].
    repeat split; intros; try discriminate; lia.
  - destruct (Z.compare_spec (2 * r) D) as [Hc|Hc|Hc]; unfold located;
      cbn [shr_record_of_loc shr_m shr_r shr_s];
      repeat split; intros; try discriminate; lia.
  - unfold located. cbn [shr_record_of_loc shr_m shr_r shr_s].
    repeat split; intros; try discriminate; lia.
  - assert (Hodd : exists t, D = 2 * t + 1).
    { apply Z.odd_spec. now rewrite <- Z.negb_even, Ev. }
    destruct Hodd as [t Ht].
    destruct (Z.compare_spec (2 * r + 1) D) as [Hc|Hc|Hc]; unfold located;
      cbn [shr_record_of_loc shr_m shr_r shr_s];
      repeat split; intros; try discriminate; lia.
Qed.

(** The quotient has the digits that the exponent chosen by
    [SFdiv_core_binary] counts on. *)
Lemma quotient_digits (m1 m2 s q r : Z) :
  0 < m1 -> 0 < m2 -> 0 <= s -> 0 <= r < m2 -> m1 * 2 ^ s = m2 * q + r ->
  Zdigits2 m1 + s - Zdigits2 m2 <= Zdigits2 q.
Proof.
  intros H1 H2 Hs Hr E.
  assert (Hq : 0 <= q) by nia.
  pose proof (Zdigits2_nonneg q Hq) as Hdq.
  destruct (Z_lt_le_dec (Zdigits2 m1 + s - Zdigits2 m2) 1) as [|Ht]; [lia|].
  set (t := Zdigits2 m1 - 1 + s - Zdigits2 m2) in *.
  assert (Ht0 : 0 <= t) by (unfold t; lia).
  enough (t < Zdigits2 q) by (unfold t in *; lia).
  apply Zdigits2_gt; [exact Ht0|].
  destruct (Z_le_gt_dec (2 ^ t) q) as [|Hlt]; [assumption|exfalso].
  destruct (Zdigits2_bounds m1 H1) as [Hlo1 _].
  destruct (Zdigits2_bounds m2 H2) as [_ Hhi2].
  pose proof (Zdigits2_nonneg m2 ltac:(lia)) as Hd2.
  assert (Hd1 : 1 <= Zdigits2 m1).
  { destruct m1; try lia. cbn. lia. }
  assert (HS : 0 < 2 ^ s) by (apply Z.pow_pos_nonneg; lia).
  assert (HT : 0 < 2 ^ t) by (apply Z.pow_pos_nonneg; lia).
  assert (Epow : 2 ^ (Zdigits2 m1 - 1) * 2 ^ s = 2 ^ Zdigits2 m2 * 2 ^ t).
  { rewrite <- !Z.pow_add_r by lia. f_equal. unfold t. lia. }
  assert (m1 * 2 ^ s < m2 * 2 ^ t) by nia.
  assert (m2 * 2 ^ t < 2 ^ Zdigits2 m2 * 2 ^ t) by nia.
  nia.
Qed.

Lemma div_rounded (a b : number) (va vb : Q) :
  toQ a = Some va -> toQ b = Some vb -> rounded (va / vb) (div a b).
Proof.
  intros Ha Hb.
  destruct (toQ_cases a va Ha) as [(sa & -> & ->)|(sa & ma & ea & -> & Ea)];
    destruct (toQ_cases b vb Hb) as [(sb & -> & ->)|(sb & mb & eb & -> & Eb)].
  - intros v Hv. discriminate Hv.
  - apply rounded_exact. intros v Hv. cbn [div SFdiv] in Hv.
    apply toQ_zero in Hv. rewrite Hv. unfold Qdiv. ring.
  - intros v Hv. discriminate Hv.
  - unfold div. cbn [SFdiv]. unfold SFdiv_core_binary.
    set (e' := Z.min (fexp prec emax (Zdigits2 (Zpos ma) + ea - (Zdigits2 (Zpos mb) + eb)))
                     (ea - eb)).
    set (s := ea - eb - e').
    assert (Hs : 0 <= s) by (unfold s, e'; lia).
    set (m' := match s with
               | 0 => Zpos ma
               | Zpos _ => Z.shiftl (Zpos ma) s
               | Zneg _ => 0
               end).
    assert (Em : m' = Zpos ma * 2 ^ s).
    { unfold m'. destruct s as [|p|p]; try lia.
      now rewrite Z.shiftl_mul_pow2 by lia. }
    clearbody m'.
    pose proof (Z_div_mod m' (Zpos mb) ltac:(lia)) as Hdm.
    destruct (Z.div_eucl m' (Zpos mb)) as [q r]. destruct Hdm as [Hq Hr].
    assert (HS : 0 < 2 ^ s) by (apply Z.pow_pos_nonneg; lia).
    assert (Hq0 : 0 <= q) by nia.
    eapply rounded_wd;
      [|apply (binary_round_aux_rounded (xorb sa sb) q e' (new_location (Zpos mb) r)
                 m' (Zpos mb));
        [exact Hq0 | lia | now apply located_new_location |]].
    + assert (E2 : (2 ^ ea == 2 ^ s * 2 ^ e' * 2 ^ eb)%Q).
      { rewrite <- !pow2_add. now replace (s + e' + eb) with ea by (unfold s; lia). }
      pose proof (pow2_pos eb). pose proof (inject_Z_pos (Zpos mb) ltac:(lia)).
      rewrite Em, inject_Z_mult.
      destruct sa, sb; cbn [signed xorb] in *;
        rewrite Ea, Eb, (pow2_inject s Hs), E2; field; split; lra.
    + right.
      pose proof (quotient_digits (Zpos ma) (Zpos mb) s q r ltac:(lia) ltac:(lia) Hs Hr
                    ltac:(lia)) as Hd.
      unfold e', s in *. unfold fexp, emin, prec, emax in *. lia.
Qed.

(** [parseFloat] returns the decimal written in the text within the
    rounding bound. *)
Lemma roundDecimal_rounded (neg : bool) (m e : Z) (x : Q) :
  literalValue (LitDecimal neg m e) = Some x -> rounded x (roundDecimal neg m e).
Proof.
  cbn [literalValue]. intros H. injection H as <-.
  destruct m as [|p|p]; cbn [roundDecimal].
  - apply rounded_exact. intros v Hv. apply toQ_zero in Hv. rewrite Hv.
    destruct (0 <=? e), neg; reflexivity.
  - destruct (Z.leb_spec 0 e) as [He|He].
    + eapply rounded_wd; [|apply binary_normalize_rounded].
      change (2 ^ 0)%Q with 1%Q. rewrite inject_cond_Zopp.
      destruct neg; cbn [signed]; ring.
    + assert (HP : 0 < 10 ^ (- e)) by (apply Z.pow_pos_nonneg; lia).
      eapply rounded_wd;
        [|apply (div_rounded (S754_finite neg p 0)
                   (S754_finite false (Z.to_pos (10 ^ (- e))) 0)
                   (signed neg (inject_Z (Zpos p)))
                   (inject_Z (10 ^ (- e))))].
      * destruct neg; cbn [signed]; rewrite Qmake_Qdiv, Z2Pos.id by exact HP;
          unfold Qdiv; ring.
      * cbn [toQ]. f_equal. change (0 <=? 0) with true. cbv iota.
        rewrite Z.pow_0_r, Z.mul_1_r. reflexivity.
      * cbn [toQ]. f_equal. change (0 <=? 0) with true. cbv iota.
        rewrite Z.pow_0_r, Z.mul_1_r, Z2Pos.id by exact HP. reflexivity.
  - intros v Hv. discriminate Hv.
Qed.

Lemma parseFloat_rounded (s : string) (x : Q) :
  decimalValue s = Some x -> rounded x (parseFloat s).
Proof.
  unfold decimalValue, parseFloat.
  destruct (readLiteral s) as [[neg|neg m e]|]; try discriminate.
  apply roundDecimal_rounded.
Qed.

End Rounding.

(* ===================================================================== *)
(** * Binary floating point, not exact decimals *)
(* ===================================================================== *)

Module Exactness.
Import Number MemStorage Props MemStorageFacts Rounding.

(** Two buys, on two holdings, whose texts read as the same numbers leave
    the same quantity and the same average cost, and the same
    [currentValue], [totalGain] and [totalGainPercent], whatever decimals
    the texts spell. *)
Lemma same_readings_same_results
        (st1 st2 : MemStorage.t) (eT1 eH1 eT2 eH2 : Env)
        (i1 i2 : InsertTransaction.t) (h1 h2 : Holding.t) :
  wellFormed st1 -> wellFormed st2 ->
  InsertTransaction.type i1 = "buy" -> InsertTransaction.type i2 = "buy" ->
  findHolding (InsertTransaction.portfolioId i1) (InsertTransaction.symbol i1) st1
  = Some h1 ->
  findHolding (InsertTransaction.portfolioId i2) (InsertTransaction.symbol i2) st2
  = Some h2 ->
  sameReadings h1 h2 ->
  parseFloat (InsertTransaction.quantity i1) = parseFloat (InsertTransaction.quantity i2) ->
  parseFloat (InsertTransaction.price i1) = parseFloat (InsertTransaction.price i2) ->
  let st1' := snd (createTransaction eT1 eH1 i1 st1) in
  let st2' := snd (createTransaction eT2 eH2 i2 st2) in
  let bought := parseFloat (InsertTransaction.quantity i1) in
  let paid := parseFloat (InsertTransaction.price i1) in
  exists h1' h2',
    findHolding (InsertTransaction.portfolioId i1) (InsertTransaction.symbol i1) st1'
    = Some h1'
    /\ findHolding (InsertTransaction.portfolioId i2) (InsertTransaction.symbol i2) st2'
       = Some h2'
    /\ Holding.quantity h1' = toString (add (quantityOf h1) bought)
    /\ Holding.averageCost h1'
       = toString (div (add (mul (quantityOf h1) (averageCostOf h1)) (mul bought paid))
                       (add (quantityOf h1) bought))
    /\ HoldingWithMetrics.currentValue (holdingWithMetrics st1' h1')
       = mul (priceOf h1) (quantityOf h1')
    /\ HoldingWithMetrics.totalGain (holdingWithMetrics st1' h1')
       = sub (mul (priceOf h1) (quantityOf h1'))
             (mul (averageCostOf h1') (quantityOf h1'))
    /\ Holding.quantity h1' = Holding.quantity h2'
    /\ Holding.averageCost h1' = Holding.averageCost h2'
    /\ sameFigures (holdingWithMetrics st1' h1') (holdingWithMetrics st2' h2').
Proof.
  intros Hwf1 Hwf2 Ht1 Ht2 Hf1 Hf2 (Hq & Hc & Hp) Hbq Hbp st1' st2' bought paid.
  destruct (Buys.next_buy st1 eT1 eH1 i1 h1 Hwf1 Ht1 Hf1) as (_ & H1 & _).
  destruct (Buys.next_buy st2 eT2 eH2 i2 h2 Hwf2 Ht2 Hf2) as (_ & H2 & _).
  unfold quantityOf, averageCostOf, priceOf in *.
  assert (Eq : nextQuantity (Holding.quantity h1) (InsertTransaction.quantity i1)
               = nextQuantity (Holding.quantity h2) (InsertTransaction.quantity i2)).
  { unfold nextQuantity. now rewrite Hq, Hbq. }
  assert (Ec : nextAverageCost (Holding.quantity h1) (Holding.averageCost h1)
                 (InsertTransaction.quantity i1) (InsertTransaction.price i1)
               = nextAverageCost (Holding.quantity h2) (Holding.averageCost h2)
                   (InsertTransaction.quantity i2) (InsertTransaction.price i2)).
  { unfold nextAverageCost. now rewrite Hq, Hc, Hbq, Hbp. }
  eexists. eexists. split; [exact H1|]. split; [exact H2|].
  split; [reflexivity|]. split; [reflexivity|].
  split; [reflexivity|]. split; [reflexivity|].
  split; [exact Eq|]. split; [exact Ec|].
  unfold sameFigures, holdingWithMetrics. simpl.
  rewrite Eq, Ec, Hp. repeat split.
Qed.

Example dime_and_longDime :
  let st1' := snd (createTransaction (Sample.env 10) (Sample.env 11) Sample.dime
                                     Sample.fresh) in
  let st2' := snd (createTransaction (Sample.env 10) (Sample.env 11) Sample.longDime
                                     Sample.fresh) in
  InsertTransaction.quantity Sample.dime <> InsertTransaction.quantity Sample.longDime
  /\ parseFloat (InsertTransaction.quantity Sample.dime)
     = parseFloat (InsertTransaction.quantity Sample.longDime)
  /\ parseFloat (InsertTransaction.price Sample.dime)
     = parseFloat (InsertTransaction.price Sample.longDime)
  /\ exists h1' h2',
       findHolding "uuid-0" "AAPL" st1' = Some h1'
       /\ findHolding "uuid-0" "AAPL" st2' = Some h2'
       /\ Holding.quantity h1' = "50.1"
       /\ Holding.quantity h1' = Holding.quantity h2'
       /\ Holding.averageCost h1' = Holding.averageCost h2'.
Proof.
  intros st1' st2'.
  assert (Hf : findHolding "uuid-0" "AAPL" Sample.fresh = Some Sample.apple)
    by reflexivity.
  assert (Hq : parseFloat (InsertTransaction.quantity Sample.dime)
               = parseFloat (InsertTransaction.quantity Sample.longDime))
    by reflexivity.
  assert (Hp : parseFloat (InsertTransaction.price Sample.dime)
               = parseFloat (InsertTransaction.price Sample.longDime))
    by reflexivity.
  destruct (same_readings_same_results
              Sample.fresh Sample.fresh
              (Sample.env 10) (Sample.env 11) (Sample.env 10) (Sample.env 11)
              Sample.dime Sample.longDime Sample.apple Sample.apple
              Sells.fresh_wellFormed Sells.fresh_wellFormed eq_refl eq_refl Hf Hf
              (conj eq_refl (conj eq_refl eq_refl)) Hq Hp)
    as (h1' & h2' & H1 & H2 & Hq1 & _ & _ & _ & Eq & Ec & _).
  split; [discriminate|]. split; [exact Hq|]. split; [exact Hp|].
  exists h1', h2'. split; [exact H1|]. split; [exact H2|].
  split; [exact Hq1|]. split; [exact Eq | exact Ec].
Qed.

Lemma sold_down (st : MemStorage.t) (eT eH : Env) (i : InsertTransaction.t)
      (h : Holding.t) :
  wellFormed st ->
  InsertTransaction.type i = "sell" ->
  findHolding (InsertTransaction.portfolioId i) (InsertTransaction.symbol i) st = Some h ->
  gt (remaining h (InsertTransaction.quantity i)) zero = true ->
  findHolding (InsertTransaction.portfolioId i) (InsertTransaction.symbol i)
              (snd (createTransaction eT eH i st))
  = Some (restated h (toString (remaining h (InsertTransaction.quantity i)))
                   (Holding.averageCost h) (now eH)).
Proof.
  intros Hwf Ht Hf Hgt.
  apply NumberFacts.gt_zero_not_le in Hgt.
  unfold findHolding. rewrite holdings_createTransaction.
  rewrite (sell_reduce eH (newTransaction eT i) st h Hwf Ht Hf Hgt).
  apply (JsMapFacts.first_set_same _ (sameInstrument _ _) _ _ h).
  - exact Hf.
  - intros k' Hin. destruct Hwf as [_ Hkeyed]. now apply Hkeyed.
  - rewrite sameInstrument_restated. eapply found_same; eauto.
Qed.

(** C9. The figures are binary64 results, equal to the exact ones only up
    to rounding.  [parseFloat] returns the decimal written in a text, and
    [+], [-], [*] and [/] return the exact result on their operands, within
    [|exact| * 2 ^ -53 + 2 ^ -1075] whenever the result is finite.  A buy on
    an existing holding writes the texts of [existing_quantity +
    txn_quantity] and of the weighted average cost, a sell that leaves a
    quantity above zero the text of [existing_quantity - txn_quantity], and
    the metrics of a holding and of a portfolio are the formulas, each step
    of them one of these operations on the numbers read. *)
Theorem C9_results_are_rounded_binary64 :
  (forall (s : string) (x : Q), decimalValue s = Some x -> rounded x (parseFloat s))
  /\ (forall (a b : number) (va vb : Q),
        toQ a = Some va -> toQ b = Some vb ->
        rounded (va + vb) (add a b) /\ rounded (va - vb) (sub a b)
        /\ rounded (va * vb) (mul a b) /\ rounded (va / vb) (div a b))
  /\ (forall (st : MemStorage.t) (eT eH : Env) (i : InsertTransaction.t) (h : Holding.t),
        wellFormed st ->
        InsertTransaction.type i = "buy" ->
        findHolding (InsertTransaction.portfolioId i) (InsertTransaction.symbol i) st
        = Some h ->
        let bought := parseFloat (InsertTransaction.quantity i) in
        let paid := parseFloat (InsertTransaction.price i) in
        exists h',
          findHolding (InsertTransaction.portfolioId i) (InsertTransaction.symbol i)
                      (snd (createTransaction eT eH i st)) = Some h'
          /\ Holding.quantity h' = toString (add (quantityOf h) bought)
          /\ Holding.averageCost h'
             = toString (div (add (mul (quantityOf h) (averageCostOf h))
                                  (mul bought paid))
                             (add (quantityOf h) bought))
          /\ (forall q b : Q,
                toQ (quantityOf h) = Some q -> toQ bought = Some b ->
                rounded (q + b) (add (quantityOf h) bought)))
  /\ (forall (st : MemStorage.t) (eT eH : Env) (i : InsertTransaction.t) (h : Holding.t),
        wellFormed st ->
        InsertTransaction.type i = "sell" ->
        findHolding (InsertTransaction.portfolioId i) (InsertTransaction.symbol i) st
        = Some h ->
        let sold := parseFloat (InsertTransaction.quantity i) in
        gt (sub (quantityOf h) sold) zero = true ->
        exists h',
          findHolding (InsertTransaction.portfolioId i) (InsertTransaction.symbol i)
                      (snd (createTransaction eT eH i st)) = Some h'
          /\ Holding.quantity h' = toString (sub (quantityOf h) sold)
          /\ Holding.averageCost h' = Holding.averageCost h
          /\ (forall q b : Q,
                toQ (quantityOf h) = Some q -> toQ sold = Some b ->
                rounded (q - b) (sub (quantityOf h) sold)))
  /\ (forall (st : MemStorage.t) (h : Holding.t),
        let m := holdingWithMetrics st h in
        let value := mul (priceOf h) (quantityOf h) in
        let cost := mul (averageCostOf h) (quantityOf h) in
        HoldingWithMetrics.currentValue m = value
        /\ HoldingWithMetrics.totalGain m = sub value cost
        /\ HoldingWithMetrics.totalGainPercent m
           = (if gt cost zero then mul (div (sub value cost) cost) hundred else zero)
        /\ (forall p q : Q,
              toQ (priceOf h) = Some p -> toQ (quantityOf h) = Some q ->
              rounded (p * q) (HoldingWithMetrics.currentValue m))
        /\ (forall v c : Q,
              toQ value = Some v -> toQ cost = Some c ->
              rounded (v - c) (HoldingWithMetrics.totalGain m)))
  /\ (forall (st : MemStorage.t) (id : string) (p : Portfolio.t),
        JsMap.get id (portfolios st) = Some p ->
        exists r,
          getPortfolioWithMetrics id st = Some r
          /\ let hs := getHoldings id st in
             let value := fold_left add (map valueOf hs) zero in
             let cost := fold_left add (map costOf hs) zero in
             PortfolioWithMetrics.totalValue r = value
             /\ PortfolioWithMetrics.totalGain r = sub value cost
             /\ PortfolioWithMetrics.totalGainPercent r
                = (if gt cost zero then mul (div (sub value cost) cost) hundred
                   else zero)).
Proof.
  split; [exact parseFloat_rounded|].
  split.
  { intros a b va vb Ha Hb.
    split; [now apply add_rounded|]. split; [now apply sub_rounded|].
    split; [now apply mul_rounded | now apply div_rounded]. }
  split.
  { intros st eT eH i h Hwf Ht Hf bought paid.
    destruct (Buys.next_buy st eT eH i h Hwf Ht Hf) as (_ & H1 & _).
    eexists. split; [exact H1|]. split; [reflexivity|]. split; [reflexivity|].
    intros q b Hq Hb. now apply add_rounded. }
  split.
  { intros st eT eH i h Hwf Ht Hf sold Hgt.
    eexists. split; [exact (sold_down st eT eH i h Hwf Ht Hf Hgt)|].
    split; [reflexivity|]. split; [reflexivity|].
    intros q b Hq Hb. now apply sub_rounded. }
  split.
  { intros st h m value cost.
    split; [reflexivity|]. split; [reflexivity|]. split; [reflexivity|].
    split.
    - intros p q Hp Hq. now apply mul_rounded.
    - intros v c Hv Hc. now apply sub_rounded. }
  intros st id p Hp. unfold getPortfolioWithMetrics. rewrite Hp.
  fold (getHoldings id st).
  rewrite Metrics.fold_accumulate.
  eexists. split; [reflexivity|].
  cbv zeta. split; [reflexivity|]. split; reflexivity.
Qed.

Lemma C9_results_are_rounded_binary64_witness :
  rounded (1 # 10) (parseFloat "0.1")
  /\ toString (mul (parseFloat "0.1") (parseFloat "3")) = "0.30000000000000004"
  /\ (exists p q : Q,
        toQ (parseFloat "0.1") = Some p /\ toQ (parseFloat "3") = Some q
        /\ (q == 3)%Q /\ ~ (p == 1 # 10)%Q
        /\ rounded (p * q) (mul (parseFloat "0.1") (parseFloat "3")))
  /\ exists h',
       findHolding "uuid-0" "AAPL"
         (snd (createTransaction (Sample.env 10) (Sample.env 11) Sample.dime
                                 Sample.fresh)) = Some h'
       /\ Holding.quantity h' = "50.1".
Proof.
  destruct C9_results_are_rounded_binary64 as (Hread & Hop & Hbuy & _).
  split; [apply Hread; reflexivity|].
  split; [reflexivity|].
  split.
  { eexists. eexists. split; [reflexivity|]. split; [reflexivity|].
    split; [reflexivity|]. split; [discriminate|].
    destruct (Hop (parseFloat "0.1") (parseFloat "3") _ _ eq_refl eq_refl)
      as (_ & _ & Hm & _).
    exact Hm. }
  destruct (Hbuy Sample.fresh (Sample.env 10) (Sample.env 11) Sample.dime Sample.apple
              Sells.fresh_wellFormed eq_refl eq_refl) as (h' & Hf & Hq & _).
  exists h'. split; [exact Hf | exact Hq].
Defined.

(** C9, as worded, fails: for the holding of 3 TSLA bought at 0.1 the exact
    gain is -0.3, and the computed one is -0.30000000000000004. *)
Lemma C9_counterexample :
  ~ (forall h, In h (getHoldings "uuid-0" Sample.threeDimes) ->
               Stated.exactMetrics Sample.threeDimes h).
Proof.
  intros H.
  assert (Hin : In Sample.dimeHolding (getHoldings "uuid-0" Sample.threeDimes))
    by (vm_compute; do 2 right; left; reflexivity).
  destruct (H _ Hin) as (_ & Hg).
  vm_compute in Hg. discriminate Hg.
Qed.

Example threeDimes_gain :
  map (fun m => toString (HoldingWithMetrics.totalGain m))
      (getHoldingsWithMetrics "uuid-0" Sample.threeDimes)
  = ["1275"; "756.25"; "-0.30000000000000004"].
Proof. reflexivity. Qed.

End Exactness.

(* ===================================================================== *)
(** * More facts about [Map] and arrays *)
(* ===================================================================== *)

Module JsMapMore.
Import JsMap.

Section Facts.
Variable V : Type.
Implicit Types (m : JsMap.t V) (k : string) (v : V).

Lemma set_same k v m : get k m = Some v -> set k v m = m.
Proof.
  induction m as [|[k1 v1] r IH]; simpl; [discriminate|].
  destruct (String.eqb k k1) eqn:E.
  - intros H. inversion H; subst. apply String.eqb_eq in E. now subst.
  - intros H. now rewrite IH.
Qed.

Lemma keys_set_present k v v0 m : get k m = Some v0 -> keys (set k v m) = keys m.
Proof.
  unfold keys. induction m as [|[k1 v1] r IH]; simpl; [discriminate|].
  destruct (String.eqb k k1) eqn:E; simpl.
  - intros _. apply String.eqb_eq in E. now subst.
  - intros H. now rewrite IH.
Qed.

Lemma delete_absent k m : get k m = None -> delete k m = m.
Proof.
  induction m as [|[k1 v1] r IH]; simpl; [reflexivity|].
  destruct (String.eqb k k1); [discriminate|].
  intros H. now rewrite IH.
Qed.

Lemma values_set_absent k v m :
  get k m = None -> values (set k v m) = (values m ++ [v])%list.
Proof.
  intros H. rewrite (JsMapFacts.set_absent _ k v m H).
  unfold values. now rewrite map_app.
Qed.

(** Writing over a present key keeps the order of the values. *)
Lemma values_set_present (B : Type) (f : V -> B) k v v0 m :
  get k m = Some v0 -> f v = f v0 ->
  map f (values (set k v m)) = map f (values m).
Proof.
  unfold values. induction m as [|[k1 v1] r IH]; simpl; [discriminate|].
  destruct (String.eqb k k1); simpl.
  - intros H E. inversion H; subst. now rewrite E.
  - intros H E. now rewrite IH.
Qed.

Lemma length_set_present k v v0 m :
  get k m = Some v0 -> length (set k v m) = length m.
Proof.
  intros H. pose proof (keys_set_present k v v0 m H) as E.
  apply (f_equal (@length string)) in E. unfold keys in E.
  now rewrite !length_map in E.
Qed.

Lemma length_set_absent k v m : get k m = None -> length (set k v m) = S (length m).
Proof.
  intros H. rewrite (JsMapFacts.set_absent _ k v m H), length_app. simpl. lia.
Qed.

Lemma delete_set_absent k v m : get k m = None -> delete k (set k v m) = m.
Proof.
  induction m as [|[k1 v1] r IH]; simpl.
  - now rewrite String.eqb_refl.
  - destruct (String.eqb k k1) eqn:E; [discriminate|].
    intros H. simpl. rewrite E. now rewrite IH.
Qed.

Lemma has_get k m : has k m = true <-> get k m <> None.
Proof. unfold has. destruct (get k m); split; congruence. Qed.

End Facts.

End JsMapMore.

Module JsArrayFacts.
Import JsArray.

Section Facts.
Variable A : Type.
Variable compare : A -> A -> Z.

Lemma insert_permutation (x : A) (l : list A) :
  Permutation (insert compare x l) (x :: l).
Proof.
  induction l as [|y r IH]; simpl; [reflexivity|].
  destruct (compare x y <=? 0); [reflexivity|].
  rewrite IH. apply perm_swap.
Qed.

Lemma sort_permutation (l : list A) : Permutation (sort compare l) l.
Proof.
  induction l as [|x r IH]; simpl; [reflexivity|].
  rewrite insert_permutation. now constructor.
Qed.

(** A test that holds of elements the comparator does not order passes
    through the sort: those elements keep their order. *)
Lemma filter_insert (p : A -> bool) (x : A) (l : list A) :
  (forall y, p x = true -> p y = true -> compare x y <= 0) ->
  filter p (insert compare x l) = filter p (x :: l).
Proof.
  intros H. induction l as [|y r IH]; simpl; [reflexivity|].
  destruct (compare x y <=? 0) eqn:E; [reflexivity|].
  simpl. simpl in IH. rewrite IH.
  destruct (p x) eqn:Hx; [|reflexivity].
  destruct (p y) eqn:Hy; [|reflexivity].
  apply Z.leb_gt in E. specialize (H y eq_refl Hy). lia.
Qed.

Lemma filter_sort (p : A -> bool) (l : list A) :
  (forall x y, p x = true -> p y = true -> compare x y <= 0) ->
  filter p (sort compare l) = filter p l.
Proof.
  intros H. induction l as [|x r IH]; simpl; [reflexivity|].
  rewrite filter_insert by (intros y; apply H).
  simpl. now rewrite IH.
Qed.

Lemma slice_front (n : Z) (l : list A) :
  0 <= n -> slice 0 n l = firstn (Z.to_nat n) l.
Proof.
  intros Hn. unfold slice, relative.
  assert (Hlen : 0 <= Z.of_nat (length l)) by lia.
  destruct (0 <? 0) eqn:E0; [discriminate|].
  destruct (n <? 0) eqn:En; [apply Z.ltb_lt in En; lia|].
  rewrite (Z.min_l 0 (Z.of_nat (length l))) by lia. simpl skipn. rewrite Z.sub_0_r.
  destruct (Z.le_ge_cases n (Z.of_nat (length l))) as [Hle|Hge].
  - now rewrite Z.min_l.
  - rewrite Z.min_r by lia. rewrite Nat2Z.id.
    rewrite firstn_all. symmetry. apply firstn_all2. lia.
Qed.

Lemma slice_drop_last (n : Z) (l : list A) :
  n < 0 -> slice 0 n l = firstn (length l - Z.to_nat (- n)) l.
Proof.
  intros Hn. unfold slice, relative.
  destruct (0 <? 0) eqn:E0; [discriminate|].
  destruct (n <? 0) eqn:En; [|apply Z.ltb_ge in En; lia].
  rewrite (Z.min_l 0 (Z.of_nat (length l))) by lia. simpl skipn. rewrite Z.sub_0_r.
  f_equal. lia.
Qed.

End Facts.

End JsArrayFacts.

(* ===================================================================== *)
(** * Listing the ledger *)
(* ===================================================================== *)

Module Ledger.
Import Number MemStorage Props StoreProps.

Lemma insert_sorted (x : Transaction.t) (l : list Transaction.t) :
  StronglySorted notOlder l ->
  StronglySorted notOlder (JsArray.insert newestFirst x l).
Proof.
  induction 1 as [|y r Hs IH Hall]; simpl.
  - constructor; constructor.
  - unfold newestFirst at 1.
    destruct (Transaction.date y - Transaction.date x <=? 0) eqn:E.
    + apply Z.leb_le in E. constructor; [now constructor|].
      constructor; [unfold notOlder; lia|].
      eapply Forall_impl; [|exact Hall]. unfold notOlder. intros a Ha. lia.
    + apply Z.leb_gt in E. constructor; [exact IH|].
      apply (Permutation_Forall
               (Permutation_sym (JsArrayFacts.insert_permutation _ newestFirst x r))).
      constructor; [unfold notOlder; lia | exact Hall].
Qed.

Lemma sort_sorted (l : list Transaction.t) :
  StronglySorted notOlder (JsArray.sort newestFirst l).
Proof.
  induction l as [|x r IH]; simpl; [constructor|]. now apply insert_sorted.
Qed.

(** X1. [getTransactions] returns the ledger entries of the portfolio, each
    as often as the ledger has it and none else, ordered so that no entry is
    followed by a newer one. *)
Theorem getTransactions_newest_first (portfolioId : string) (st : MemStorage.t) :
  Permutation (getTransactions portfolioId st) (ledgerOf portfolioId st)
  /\ StronglySorted notOlder (getTransactions portfolioId st).
Proof.
  split.
  - apply JsArrayFacts.sort_permutation.
  - apply sort_sorted.
Qed.

(** X2. Entries of the same date come out in the order the ledger has them. *)
Theorem getTransactions_stable (portfolioId : string) (st : MemStorage.t) (d : Date) :
  filter (datedAt d) (getTransactions portfolioId st)
  = filter (datedAt d) (ledgerOf portfolioId st).
Proof.
  apply JsArrayFacts.filter_sort.
  unfold datedAt, newestFirst. intros x y Hx Hy.
  apply Z.eqb_eq in Hx. apply Z.eqb_eq in Hy. lia.
Qed.

Lemma sorted_split (l1 l2 : list Transaction.t) :
  StronglySorted notOlder (l1 ++ l2) ->
  forall a b, In a l1 -> In b l2 -> notOlder a b.
Proof.
  induction l1 as [|x r IH]; simpl; intros Hs a b Ha Hb; [contradiction|].
  inversion Hs as [|? ? Hr Hall]; subst.
  destruct Ha as [<-|Ha].
  - rewrite Forall_forall in Hall. apply Hall. apply in_or_app. now right.
  - now apply IH.
Qed.

(** X3. With a limit that is not negative, [getRecentTransactions] returns
    the first [limit] entries of [getTransactions], all of them when there
    are fewer; none of the entries left out is newer than one returned.
    With the limit left out it is 5. *)
Theorem getRecentTransactions_newest (portfolioId : string) (limit : Z)
        (st : MemStorage.t) :
  0 <= limit ->
  let all := getTransactions portfolioId st in
  let recent := getRecentTransactions portfolioId (Some limit) st in
  recent = firstn (Z.to_nat limit) all
  /\ length recent = Nat.min (Z.to_nat limit) (length all)
  /\ all = (recent ++ skipn (Z.to_nat limit) all)%list
  /\ (forall a b, In a recent -> In b (skipn (Z.to_nat limit) all) -> notOlder a b)
  /\ getRecentTransactions portfolioId None st
     = firstn 5 (getTransactions portfolioId st).
Proof.
  intros Hl all recent.
  assert (E : recent = firstn (Z.to_nat limit) all).
  { subst recent. unfold getRecentTransactions. now apply JsArrayFacts.slice_front. }
  split; [exact E|]. rewrite E.
  split; [apply length_firstn|].
  split; [symmetry; apply firstn_skipn|].
  split.
  - apply sorted_split. rewrite firstn_skipn. apply sort_sorted.
  - unfold getRecentTransactions. now rewrite JsArrayFacts.slice_front.
Qed.

Lemma getRecentTransactions_newest_witness :
  let all := getTransactions "uuid-0" Sample.fresh in
  let recent := getRecentTransactions "uuid-0" (Some 1) Sample.fresh in
  0 <= 1
  /\ map Transaction.symbol all = ["MSFT"; "AAPL"]
  /\ map Transaction.symbol recent = ["MSFT"]
  /\ length recent = 1%nat.
Proof.
  intros all recent.
  destruct (getRecentTransactions_newest "uuid-0" 1 Sample.fresh) as (E & Hlen & _);
    [lia|].
  split; [lia|]. split; [reflexivity|]. split; [reflexivity | exact Hlen].
Defined.

(** X4. A negative limit does not fail and does not mean none: it drops
    that many of the oldest entries and returns the rest, which is empty
    only when there are no more entries than that. *)
Theorem getRecentTransactions_negative_limit (portfolioId : string) (limit : Z)
        (st : MemStorage.t) :
  limit < 0 ->
  let all := getTransactions portfolioId st in
  getRecentTransactions portfolioId (Some limit) st
  = firstn (length all - Z.to_nat (- limit)) all.
Proof.
  intros Hl all. unfold getRecentTransactions.
  now apply JsArrayFacts.slice_drop_last.
Qed.

Lemma getRecentTransactions_negative_limit_witness :
  -1 < 0
  /\ map Transaction.symbol (getRecentTransactions "uuid-0" (Some (-1)) Sample.fresh)
     = ["MSFT"].
Proof.
  split; [lia|].
  rewrite (getRecentTransactions_negative_limit "uuid-0" (-1) Sample.fresh); [|lia].
  reflexivity.
Defined.

End Ledger.

(* ===================================================================== *)
(** * Portfolios *)
(* ===================================================================== *)

Module Portfolios.
Import Number MemStorage Props StoreProps.

Lemma fresh_portfolios_wf : JsMap.wf (portfolios Sample.fresh).
Proof.
  unfold JsMap.wf. simpl. constructor.
  - intros [H|[]]. discriminate H.
  - constructor; [intros []|constructor].
Qed.

(** X5. [deletePortfolio] answers whether the portfolio was there and removes
    it alone: the holdings and the ledger entries filed under its id stay in
    the store and are still listed, while [getPortfolioWithMetrics] no longer
    finds a portfolio to report on. *)
Theorem deletePortfolio_keeps_holdings (id : string) (st : MemStorage.t) :
  JsMap.wf (portfolios st) ->
  let r := deletePortfolio id st in
  (fst r = true <-> getPortfolio id st <> None)
  /\ getPortfolio id (snd r) = None
  /\ getPortfolioWithMetrics id (snd r) = None
  /\ (forall k, k <> id -> getPortfolio k (snd r) = getPortfolio k st)
  /\ getHoldings id (snd r) = getHoldings id st
  /\ getHoldingsWithMetrics id (snd r) = getHoldingsWithMetrics id st
  /\ getTransactions id (snd r) = getTransactions id st.
Proof.
  intros Hwf r.
  assert (Hg : getPortfolio id (snd r) = None).
  { unfold getPortfolio. simpl. now apply JsMapFacts.get_delete_same. }
  split; [apply JsMapMore.has_get|]. split; [exact Hg|]. split.
  { unfold getPortfolioWithMetrics. unfold getPortfolio in Hg. now rewrite Hg. }
  split.
  { intros k Hk. unfold getPortfolio. simpl.
    apply JsMapFacts.get_delete_other. congruence. }
  split; [reflexivity|]. split; reflexivity.
Qed.

Lemma deletePortfolio_keeps_holdings_witness :
  let r := deletePortfolio "uuid-0" Sample.fresh in
  JsMap.wf (portfolios Sample.fresh)
  /\ fst r = true
  /\ getPortfolioWithMetrics "uuid-0" (snd r) = None
  /\ length (getHoldings "uuid-0" (snd r)) = 2%nat.
Proof.
  intros r.
  destruct (deletePortfolio_keeps_holdings "uuid-0" Sample.fresh fresh_portfolios_wf)
    as (Hb & _ & Hm & _ & Hh & _).
  split; [exact fresh_portfolios_wf|].
  split; [apply Hb; discriminate|].
  split; [exact Hm|].
  fold r in Hh. rewrite Hh. reflexivity.
Defined.

Lemma orElse_not_empty (s : option string) (d : string) :
  d <> "" -> orElse s d <> "".
Proof. intros Hd. destruct s as [[|c r]|]; simpl; congruence. Qed.

Lemma orNull_not_empty (s : option string) : orNull s <> Some "".
Proof. destruct s as [[|c r]|]; simpl; congruence. Qed.

(** X6. [createPortfolio] under an id not in use adds the portfolio at the
    end of the list and makes it retrievable by its id.  None of its
    optional fields is ever the empty text: an empty or missing description
    or external identifier is stored as null, an empty or missing tax
    residency, year end, method or base currency as its default.  As long as
    no holding was filed under the id beforehand, its metrics are all 0. *)
Theorem createPortfolio_listed (e : Env) (i : InsertPortfolio.t) (st : MemStorage.t) :
  JsMap.get (uuid e) (portfolios st) = None ->
  let r := createPortfolio e i st in
  getPortfolio (uuid e) (snd r) = Some (fst r)
  /\ getPortfolios (snd r) = (getPortfolios st ++ [fst r])%list
  /\ Portfolio.name (fst r) = InsertPortfolio.name i
  /\ Portfolio.description (fst r) <> Some ""
  /\ Portfolio.externalIdentifier (fst r) <> Some ""
  /\ Portfolio.taxResidency (fst r) <> ""
  /\ Portfolio.financialYearEnd (fst r) <> ""
  /\ Portfolio.performanceCalculationMethod (fst r) <> ""
  /\ Portfolio.baseCurrency (fst r) <> ""
  /\ (getHoldings (uuid e) st = [] ->
      exists m,
        getPortfolioWithMetrics (uuid e) (snd r) = Some m
        /\ PortfolioWithMetrics.portfolio m = fst r
        /\ PortfolioWithMetrics.totalValue m = zero
        /\ PortfolioWithMetrics.totalGain m = zero
        /\ PortfolioWithMetrics.totalGainPercent m = zero
        /\ PortfolioWithMetrics.dividendYield m = zero
        /\ PortfolioWithMetrics.holdingsCount m = 0%nat).
Proof.
  intros Hn r.
  assert (Hg : JsMap.get (uuid e) (portfolios (snd r)) = Some (fst r))
    by apply JsMapFacts.get_set_same.
  split; [exact Hg|].
  split; [unfold getPortfolios; simpl; now apply JsMapMore.values_set_absent|].
  split; [reflexivity|].
  split; [apply orNull_not_empty|]. split; [apply orNull_not_empty|].
  split; [apply orElse_not_empty; discriminate|].
  split; [apply orElse_not_empty; discriminate|].
  split; [apply orElse_not_empty; discriminate|].
  split; [apply orElse_not_empty; discriminate|].
  intros Hh. unfold getPortfolioWithMetrics. rewrite Hg.
  change (holdings (snd r)) with (holdings st).
  unfold getHoldings in Hh. rewrite Hh.
  eexists. split; [reflexivity|]. simpl. repeat split.
Qed.

Lemma createPortfolio_listed_witness :
  let r := createPortfolio (Sample.env 40) Fixture.growth Sample.fresh in
  JsMap.get "uuid-40" (portfolios Sample.fresh) = None
  /\ getPortfolio "uuid-40" (snd r) = Some (fst r)
  /\ Portfolio.description (fst r) = None
  /\ Portfolio.taxResidency (fst r) = "US"
  /\ Portfolio.baseCurrency (fst r) = "AUD"
  /\ length (getPortfolios (snd r)) = 3%nat.
Proof.
  intros r.
  destruct (createPortfolio_listed (Sample.env 40) Fixture.growth Sample.fresh eq_refl)
    as (Hg & Hl & _).
  split; [reflexivity|]. split; [exact Hg|].
  split; [reflexivity|]. split; [reflexivity|]. split; [reflexivity|].
  fold r in Hl. rewrite Hl. reflexivity.
Defined.

Lemma mergePortfolio_noChange (p : Portfolio.t) : mergePortfolio p Fixture.noChange = p.
Proof. now destruct p. Qed.

(** X7. [updatePortfolio] on an id that is not there returns undefined and
    leaves the store as it was.  On a portfolio that is there it returns
    what it stores, never changes the id, the creation time or the place in
    the list, and leaves the other portfolios alone; an update without
    fields changes nothing at all. *)
Theorem updatePortfolio_in_place (id : string) (u : PartialInsertPortfolio.t)
        (st : MemStorage.t) :
  (getPortfolio id st = None -> updatePortfolio id u st = (None, st))
  /\ (forall p, getPortfolio id st = Some p ->
      let r := updatePortfolio id u st in
      fst r = Some (mergePortfolio p u)
      /\ getPortfolio id (snd r) = fst r
      /\ Portfolio.id (mergePortfolio p u) = Portfolio.id p
      /\ Portfolio.createdAt (mergePortfolio p u) = Portfolio.createdAt p
      /\ map Portfolio.id (getPortfolios (snd r)) = map Portfolio.id (getPortfolios st)
      /\ (forall k, k <> id -> getPortfolio k (snd r) = getPortfolio k st)
      /\ snd (updatePortfolio id Fixture.noChange st) = st).
Proof.
  unfold getPortfolio, updatePortfolio. split.
  - intros H. now rewrite H.
  - intros p H. rewrite H. cbv zeta. simpl fst. simpl snd.
    split; [reflexivity|].
    split; [simpl; apply JsMapFacts.get_set_same|].
    split; [reflexivity|]. split; [reflexivity|].
    split.
    { unfold getPortfolios. simpl.
      now apply JsMapMore.values_set_present with (v0 := p). }
    split.
    { intros k Hk. simpl. apply JsMapFacts.get_set_other. congruence. }
    rewrite mergePortfolio_noChange, (JsMapMore.set_same _ id p _ H).
    now destruct st.
Qed.

Lemma updatePortfolio_in_place_witness :
  let r := updatePortfolio "uuid-0" Fixture.rename Sample.fresh in
  exists p p',
    getPortfolio "uuid-0" Sample.fresh = Some p
    /\ getPortfolio "uuid-0" (snd r) = Some p'
    /\ Portfolio.name p' = "US Core"
    /\ Portfolio.description p' = None
    /\ Portfolio.baseCurrency p' = Portfolio.baseCurrency p.
Proof.
  intros r.
  destruct (getPortfolio "uuid-0" Sample.fresh) as [p|] eqn:Hp; [|discriminate Hp].
  destruct (updatePortfolio_in_place "uuid-0" Fixture.rename Sample.fresh) as (_ & H).
  destruct (H p Hp) as (Hf & Hg & _).
  exists p, (mergePortfolio p Fixture.rename).
  split; [reflexivity|]. split; [fold r in Hg; rewrite Hg; exact Hf|].
  vm_compute in Hp. inversion Hp; subst p.
  split; [reflexivity|]. split; reflexivity.
Defined.

End Portfolios.

(* ===================================================================== *)
(** * Holdings across the operations *)
(* ===================================================================== *)

Module Holdings.
Import Number MemStorage Props StoreProps MemStorageFacts.

(** X8. In a well-formed store the holdings listed for a portfolio are
    exactly the holdings that [getHolding] returns under their own id and
    that carry the portfolio's id. *)
Theorem getHoldings_getHolding (portfolioId : string) (h : Holding.t)
        (st : MemStorage.t) :
  wellFormed st ->
  (In h (getHoldings portfolioId st)
   <-> getHolding (Holding.id h) st = Some h /\ Holding.portfolioId h = portfolioId).
Proof.
  intros [Hwf Hk]. unfold getHoldings, getHolding. rewrite filter_In. split.
  - intros [Hin He]. apply String.eqb_eq in He. split; [|exact He].
    apply JsMapFacts.values_in in Hin. destruct Hin as [k Hin].
    rewrite <- (Hk _ _ Hin). now apply JsMapFacts.in_get.
  - intros [Hg He]. split; [|now apply String.eqb_eq].
    apply JsMapFacts.get_in in Hg. eapply JsMapFacts.in_values; eauto.
Qed.

Lemma getHoldings_getHolding_witness :
  wellFormed Sample.fresh
  /\ In Sample.apple (getHoldings "uuid-0" Sample.fresh)
  /\ getHolding "uuid-2" Sample.fresh = Some Sample.apple.
Proof.
  assert (Hin : In Sample.apple (getHoldings "uuid-0" Sample.fresh))
    by (left; reflexivity).
  split; [exact Sells.fresh_wellFormed|]. split; [exact Hin|].
  apply (getHoldings_getHolding "uuid-0" Sample.apple Sample.fresh
           Sells.fresh_wellFormed).
  exact Hin.
Defined.

(** X9. Deleting a holding answers whether it was there; afterwards the id
    is unknown, so that updating it returns undefined and deleting it again
    answers no, either of them leaving the store as it is.  Holdings under
    other ids are not touched. *)
Theorem deleteHolding_then_missing (id : string) (st : MemStorage.t) :
  wellFormed st ->
  let r := deleteHolding id st in
  (fst r = true <-> getHolding id st <> None)
  /\ getHolding id (snd r) = None
  /\ (forall k, k <> id -> getHolding k (snd r) = getHolding k st)
  /\ (forall d u, updateHolding d id u (snd r) = (None, snd r))
  /\ deleteHolding id (snd r) = (false, snd r).
Proof.
  intros [Hwf Hk] r.
  assert (Hg : JsMap.get id (holdings (snd r)) = None)
    by (simpl; now apply JsMapFacts.get_delete_same).
  split; [apply JsMapMore.has_get|]. split; [exact Hg|]. split.
  { intros k Hne. unfold getHolding. simpl.
    apply JsMapFacts.get_delete_other. congruence. }
  split.
  - intros d u. unfold updateHolding. now rewrite Hg.
  - unfold deleteHolding, JsMap.has. rewrite Hg.
    rewrite (JsMapMore.delete_absent _ _ _ Hg). now rewrite setHoldings_same.
Qed.

Lemma deleteHolding_then_missing_witness :
  let r := deleteHolding "uuid-2" Sample.fresh in
  wellFormed Sample.fresh
  /\ fst r = true
  /\ getHolding "uuid-2" (snd r) = None
  /\ deleteHolding "uuid-2" (snd r) = (false, snd r).
Proof.
  intros r.
  destruct (deleteHolding_then_missing "uuid-2" Sample.fresh Sells.fresh_wellFormed)
    as (Hb & Hg & _ & _ & Hd).
  split; [exact Sells.fresh_wellFormed|].
  split; [apply Hb; discriminate|]. split; [exact Hg | exact Hd].
Defined.

(** X10. The two metrics endpoints agree: the [totalValue] of a portfolio is
    the sum, from left to right, of the [currentValue] that
    [getHoldingsWithMetrics] reports for its holdings, and its
    [holdingsCount] is their number. *)
Theorem portfolio_value_is_sum_of_holdings (id : string) (p : Portfolio.t)
        (st : MemStorage.t) :
  getPortfolio id st = Some p ->
  exists r,
    getPortfolioWithMetrics id st = Some r
    /\ PortfolioWithMetrics.totalValue r
       = sum (map HoldingWithMetrics.currentValue (getHoldingsWithMetrics id st))
    /\ PortfolioWithMetrics.holdingsCount r = length (getHoldingsWithMetrics id st).
Proof.
  unfold getPortfolio. intros Hp. unfold getPortfolioWithMetrics. rewrite Hp.
  fold (getHoldings id st). rewrite Metrics.fold_accumulate.
  eexists. split; [reflexivity|]. simpl.
  unfold getHoldingsWithMetrics. rewrite map_map, length_map.
  split; reflexivity.
Qed.

Lemma portfolio_value_is_sum_of_holdings_witness :
  exists p r,
    getPortfolio "uuid-0" Sample.fresh = Some p
    /\ getPortfolioWithMetrics "uuid-0" Sample.fresh = Some r
    /\ PortfolioWithMetrics.totalValue r
       = add (add zero (parseFloat "8775")) (parseFloat "7756.25").
Proof.
  destruct (getPortfolio "uuid-0" Sample.fresh) as [p|] eqn:Hp; [|discriminate Hp].
  destruct (portfolio_value_is_sum_of_holdings "uuid-0" p Sample.fresh Hp)
    as (r & Hr & Hv & _).
  exists p, r. split; [reflexivity|]. split; [exact Hr|].
  rewrite Hv. reflexivity.
Defined.

(** X11. Caching a quote changes no figure: the holdings keep their own
    [currentPrice], so [currentValue], [totalGain] and [totalGainPercent] of
    every holding and the metrics of every portfolio are what they were.
    The holdings of that symbol are reported with the new quote attached. *)
Theorem updateMarketData_changes_no_figure (e : Env) (d : InsertMarketData.t)
        (st : MemStorage.t) (portfolioId : string) :
  let r := updateMarketData e d st in
  holdings (snd r) = holdings st
  /\ map figures (getHoldingsWithMetrics portfolioId (snd r))
     = map figures (getHoldingsWithMetrics portfolioId st)
  /\ getPortfolioWithMetrics portfolioId (snd r) = getPortfolioWithMetrics portfolioId st
  /\ (forall m, In m (getHoldingsWithMetrics portfolioId (snd r)) ->
      Holding.symbol (HoldingWithMetrics.holding m) = InsertMarketData.symbol d ->
      HoldingWithMetrics.marketData m = Some (fst r)).
Proof.
  intros r. split; [reflexivity|]. split.
  { unfold getHoldingsWithMetrics. rewrite !map_map. reflexivity. }
  split; [reflexivity|].
  intros m Hin Hs. unfold getHoldingsWithMetrics in Hin.
  apply in_map_iff in Hin. destruct Hin as (h & <- & _).
  simpl in *. rewrite Hs. apply JsMapFacts.get_set_same.
Qed.

(** X12. A transaction whose type is neither [buy] nor [sell], a dividend
    for one, is put in the ledger and returned, and that is all: the
    holdings, and with them the figures reported for them, are unchanged. *)
Theorem other_types_only_recorded (st : MemStorage.t) (eT eH : Env)
        (i : InsertTransaction.t) :
  InsertTransaction.type i <> "buy" ->
  InsertTransaction.type i <> "sell" ->
  let r := createTransaction eT eH i st in
  snd r = setTransactions (JsMap.set (uuid eT) (fst r) (transactions st)) st
  /\ getTransaction (uuid eT) (snd r) = Some (fst r)
  /\ holdings (snd r) = holdings st
  /\ (forall p, getHoldingsWithMetrics p (snd r) = getHoldingsWithMetrics p st).
Proof.
  intros Hb Hs r.
  assert (E : snd r = setTransactions
                        (JsMap.set (uuid eT) (fst r) (transactions st)) st).
  { subst r. unfold createTransaction. simpl snd. simpl fst.
    now apply other_type. }
  split; [exact E|]. rewrite E.
  split; [apply JsMapFacts.get_set_same|]. split; [reflexivity|].
  intros p. reflexivity.
Qed.

Lemma other_types_only_recorded_witness :
  let r := createTransaction (Sample.env 10) (Sample.env 11) Fixture.dividend
                             Sample.fresh in
  InsertTransaction.type Fixture.dividend <> "buy"
  /\ InsertTransaction.type Fixture.dividend <> "sell"
  /\ holdings (snd r) = holdings Sample.fresh
  /\ getTransaction "uuid-10" (snd r) = Some (fst r).
Proof.
  intros r.
  assert (Hb : InsertTransaction.type Fixture.dividend <> "buy") by discriminate.
  assert (Hs : InsertTransaction.type Fixture.dividend <> "sell") by discriminate.
  destruct (other_types_only_recorded Sample.fresh (Sample.env 10) (Sample.env 11)
              Fixture.dividend Hb Hs) as (_ & Hg & Hh & _).
  split; [exact Hb|]. split; [exact Hs|]. split; [exact Hh | exact Hg].
Defined.

(** X13. Whatever the transaction, [createTransaction] writes the ledger and
    the holdings only: portfolios, currencies, quotes and users are as they
    were, it does not look whether the portfolio exists, and every ledger
    entry under another id is still there unchanged. *)
Theorem createTransaction_writes_ledger_and_holdings (st : MemStorage.t)
        (eT eH : Env) (i : InsertTransaction.t) :
  let r := createTransaction eT eH i st in
  sameElsewhere st (snd r)
  /\ getTransaction (uuid eT) (snd r) = Some (fst r)
  /\ (forall k, k <> uuid eT -> getTransaction k (snd r) = getTransaction k st).
Proof.
  intros r. subst r. unfold createTransaction. simpl snd. simpl fst.
  rewrite updateHoldingFromTransaction_frame.
  split; [repeat split|]. split.
  - apply JsMapFacts.get_set_same.
  - intros k Hk. unfold getTransaction. simpl.
    apply JsMapFacts.get_set_other. congruence.
Qed.

(** X14. A transaction leaves the holdings of every other instrument as they
    are, provided the id drawn for a holding it may create is not the id of
    a holding already there. *)
Theorem createTransaction_leaves_other_instruments (st : MemStorage.t)
        (eT eH : Env) (i : InsertTransaction.t) (k : string) (h' : Holding.t) :
  wellFormed st ->
  getHolding (uuid eH) st = None ->
  getHolding k st = Some h' ->
  sameInstrument (InsertTransaction.portfolioId i) (InsertTransaction.symbol i) h'
  = false ->
  getHolding k (snd (createTransaction eT eH i st)) = Some h'.
Proof.
  unfold getHolding. intros Hwf Hfresh Hk Hother.
  rewrite holdings_createTransaction.
  set (t := newTransaction eT i).
  assert (Hne : forall h,
             findHolding (Transaction.portfolioId t) (Transaction.symbol t) st = Some h ->
             Holding.id h <> k).
  { intros h Hf Heq. pose proof (found_get _ _ _ _ Hwf Hf) as Hg.
    rewrite Heq, Hk in Hg. inversion Hg; subst h'.
    apply found_same in Hf. simpl in Hf. congruence. }
  destruct (findHolding (Transaction.portfolioId t) (Transaction.symbol t) st)
    as [h|] eqn:Hf;
  destruct (String.eqb (Transaction.type t) "buy") eqn:Hb.
  - apply String.eqb_eq in Hb. rewrite (buy_more eH t st h Hwf Hb Hf).
    rewrite JsMapFacts.get_set_other; [exact Hk | now apply Hne].
  - destruct (String.eqb (Transaction.type t) "sell") eqn:Hs.
    + apply String.eqb_eq in Hs.
      destruct (le (remaining h (Transaction.quantity t)) zero) eqn:Hle.
      * rewrite (sell_close eH t st h Hwf Hs Hf Hle).
        rewrite JsMapFacts.get_delete_other; [exact Hk | now apply Hne].
      * rewrite (sell_reduce eH t st h Hwf Hs Hf Hle).
        rewrite JsMapFacts.get_set_other; [exact Hk | now apply Hne].
    + apply String.eqb_neq in Hb. apply String.eqb_neq in Hs.
      now rewrite other_type.
  - apply String.eqb_eq in Hb. rewrite (buy_new eH t st Hb Hf).
    rewrite JsMapFacts.get_set_other; [exact Hk|]. congruence.
  - destruct (String.eqb (Transaction.type t) "sell") eqn:Hs.
    + apply String.eqb_eq in Hs. now rewrite sell_nothing.
    + apply String.eqb_neq in Hb. apply String.eqb_neq in Hs.
      now rewrite other_type.
Qed.

Lemma createTransaction_leaves_other_instruments_witness :
  let i := Sample.request "uuid-0" "AAPL" "sell" "50" "175.50" in
  wellFormed Sample.fresh
  /\ getHolding "uuid-11" Sample.fresh = None
  /\ getHolding "uuid-3" Sample.fresh
     = getHolding "uuid-3" (snd (createTransaction (Sample.env 10) (Sample.env 11) i
                                                   Sample.fresh))
  /\ getHolding "uuid-3" Sample.fresh <> None.
Proof.
  intros i.
  destruct (getHolding "uuid-3" Sample.fresh) as [h|] eqn:Hh; [|discriminate Hh].
  split; [exact Sells.fresh_wellFormed|]. split; [reflexivity|].
  split; [|discriminate].
  symmetry.
  apply (createTransaction_leaves_other_instruments Sample.fresh (Sample.env 10)
           (Sample.env 11) i "uuid-3" h Sells.fresh_wellFormed eq_refl Hh).
  vm_compute in Hh. inversion Hh; subst h. reflexivity.
Defined.

End Holdings.

(* ===================================================================== *)
(** * The ledger grows *)
(* ===================================================================== *)

Module Recording.
Import Number MemStorage Props StoreProps MemStorageFacts.

(** X15. A transaction recorded under an id not in use is listed from then
    on for its portfolio, next to all the entries listed before, and the
    lists of the other portfolios are what they were. *)
Theorem createTransaction_listed (st : MemStorage.t) (eT eH : Env)
        (i : InsertTransaction.t) :
  getTransaction (uuid eT) st = None ->
  let r := createTransaction eT eH i st in
  Permutation (getTransactions (InsertTransaction.portfolioId i) (snd r))
              (fst r :: getTransactions (InsertTransaction.portfolioId i) st)
  /\ (forall p, p <> InsertTransaction.portfolioId i ->
      getTransactions p (snd r) = getTransactions p st).
Proof.
  intros Hn r. unfold getTransaction in Hn.
  assert (Hv : JsMap.values (transactions (snd r))
               = (JsMap.values (transactions st) ++ [fst r])%list).
  { subst r. rewrite transactions_createTransaction.
    now apply JsMapMore.values_set_absent. }
  unfold getTransactions. rewrite Hv. split.
  - rewrite filter_app. simpl. rewrite String.eqb_refl.
    rewrite JsArrayFacts.sort_permutation.
    rewrite <- Permutation_cons_append. constructor.
    symmetry. apply JsArrayFacts.sort_permutation.
  - intros p Hp. rewrite filter_app. simpl.
    destruct (String.eqb (InsertTransaction.portfolioId i) p) eqn:E.
    + apply String.eqb_eq in E. congruence.
    + now rewrite app_nil_r.
Qed.

Lemma createTransaction_listed_witness :
  let r := createTransaction (Sample.env 10) (Sample.env 11) Fixture.dividend
                             Sample.fresh in
  getTransaction "uuid-10" Sample.fresh = None
  /\ length (getTransactions "uuid-0" (snd r)) = 3%nat
  /\ getTransactions "uuid-1" (snd r) = getTransactions "uuid-1" Sample.fresh.
Proof.
  intros r.
  destruct (createTransaction_listed Sample.fresh (Sample.env 10) (Sample.env 11)
              Fixture.dividend eq_refl) as (Hp & Ho).
  split; [reflexivity|]. split.
  - etransitivity; [exact (Permutation_length Hp) | reflexivity].
  - apply Ho. discriminate.
Defined.

End Recording.

(* ===================================================================== *)
(** * Users *)
(* ===================================================================== *)

Module Users.
Import Number MemStorage Props StoreProps.

Lemma registry_fresh : registry Sample.fresh.
Proof.
  split.
  - intros k u [].
  - intros g k H. discriminate H.
Qed.

Lemma registry_get (st : MemStorage.t) (k : string) (u : User.t) :
  registry st -> JsMap.get k (users st) = Some u -> User.id u = k.
Proof.
  intros [Hk _] H. symmetry. apply Hk. now apply JsMapFacts.get_in.
Qed.

Lemma registry_createUser (e : Env) (i : InsertUser.t) (st : MemStorage.t) :
  registry st -> getUserById (uuid e) st = None ->
  registry (snd (createUser e i st)).
Proof.
  unfold getUserById. intros [Hk Hi] Hn. split.
  - intros k u Hin. simpl in Hin. apply JsMapFacts.in_set in Hin.
    destruct Hin as [[-> ->]|Hin]; [reflexivity | now apply Hk].
  - intros g k Hg. simpl in Hg. simpl users.
    destruct (String.eqb (InsertUser.googleId i) g) eqn:E.
    + apply String.eqb_eq in E. subst g.
      rewrite JsMapFacts.get_set_same in Hg. inversion Hg; subst k.
      eexists. split; [apply JsMapFacts.get_set_same | reflexivity].
    + apply String.eqb_neq in E.
      rewrite JsMapFacts.get_set_other in Hg by exact E.
      destruct (Hi g k Hg) as (u & Hu & Hgu). exists u. split; [|exact Hgu].
      rewrite JsMapFacts.get_set_other; [exact Hu|]. congruence.
Qed.

Lemma registry_updateUserToken (id token : string) (st : MemStorage.t) :
  registry st -> registry (snd (updateUserToken id token st)).
Proof.
  intros Hr. unfold updateUserToken.
  destruct (JsMap.get id (users st)) as [u|] eqn:E; [|exact Hr].
  pose proof (registry_get st id u Hr E) as Hid.
  destruct Hr as [Hk Hi]. split.
  - intros k v Hin. simpl in Hin. apply JsMapFacts.in_set in Hin.
    destruct Hin as [[-> ->]|Hin]; [now simpl | now apply Hk].
  - intros g k Hg. simpl in Hg. simpl users.
    destruct (Hi g k Hg) as (v & Hv & Hgv).
    destruct (String.eqb id k) eqn:Ek.
    + apply String.eqb_eq in Ek. subst k. rewrite E in Hv. inversion Hv; subst v.
      eexists. split; [apply JsMapFacts.get_set_same | exact Hgv].
    + apply String.eqb_neq in Ek. exists v. split; [|exact Hgv].
      now rewrite JsMapFacts.get_set_other.
Qed.

Lemma registry_verify (e : Env) (token : string) (profile : Auth.Profile)
      (st : MemStorage.t) :
  registry st -> getUserById (uuid e) st = None ->
  registry (snd (Auth.verify e token profile st)).
Proof.
  intros Hr Hn. unfold Auth.verify.
  destruct (getUserByGoogleId (Auth.id profile) st) as [u|].
  - pose proof (registry_updateUserToken (User.id u) token st Hr) as H.
    destruct (updateUserToken (User.id u) token st) as [[v|err] st2]; exact H.
  - destruct (Auth.firstValue (Auth.emails profile)) as [email|err]; [|exact Hr].
    destruct (Auth.firstValue (Auth.photos profile)) as [picture|err]; [|exact Hr].
    set (i := {| InsertUser.googleId := Auth.id profile; InsertUser.email := email;
                 InsertUser.name := Auth.displayName profile;
                 InsertUser.picture := Some picture |}).
    pose proof (registry_updateUserToken (uuid e) token (snd (createUser e i st))
                  (registry_createUser e i st Hr Hn)) as H.
    change (createUser e i st) with (fst (createUser e i st), snd (createUser e i st)).
    cbv iota. change (User.id (fst (createUser e i st))) with (uuid e).
    destruct (updateUserToken (uuid e) token (snd (createUser e i st)))
      as [[v|err] st2]; exact H.
Qed.

Lemma registry_signedIn : registry Fixture.signedIn.
Proof. apply registry_verify; [exact registry_fresh | reflexivity]. Qed.

Lemma createUser_indexed (e : Env) (i : InsertUser.t) (st : MemStorage.t) :
  uuid e <> "" ->
  getUserByGoogleId (InsertUser.googleId i) (snd (createUser e i st))
  = Some (fst (createUser e i st)).
Proof.
  intros He. unfold getUserByGoogleId. simpl googleIdToUserId.
  rewrite JsMapFacts.get_set_same. simpl User.id.
  destruct (uuid e) eqn:Eu; [congruence|]. rewrite <- Eu.
  apply JsMapFacts.get_set_same.
Qed.

(** X16. A user created under a new, non-empty id is found again both by
    that id and by the Google id, carries no access token yet, and the
    users found by other Google ids are the ones found before; the index by
    Google id keeps leading to users with that Google id. *)
Theorem createUser_found (e : Env) (i : InsertUser.t) (st : MemStorage.t) :
  registry st ->
  getUserById (uuid e) st = None ->
  uuid e <> "" ->
  let r := createUser e i st in
  getUserById (uuid e) (snd r) = Some (fst r)
  /\ getUserByGoogleId (InsertUser.googleId i) (snd r) = Some (fst r)
  /\ User.accessToken (fst r) = None
  /\ (forall g, g <> InsertUser.googleId i ->
      getUserByGoogleId g (snd r) = getUserByGoogleId g st)
  /\ registry (snd r).
Proof.
  intros Hr Hn He r. unfold getUserById in *.
  assert (Hg : JsMap.get (uuid e) (users (snd r)) = Some (fst r))
    by apply JsMapFacts.get_set_same.
  split; [exact Hg|]. split; [now apply createUser_indexed|].
  split; [reflexivity|]. split.
  - intros g Hne. unfold getUserByGoogleId. simpl googleIdToUserId.
    rewrite JsMapFacts.get_set_other by congruence.
    destruct (JsMap.get g (googleIdToUserId st)) as [k|] eqn:Ek; [|reflexivity].
    destruct k as [|c k']; [reflexivity|].
    destruct Hr as [_ Hi]. destruct (Hi _ _ Ek) as (u & Hu & _).
    simpl users. rewrite JsMapFacts.get_set_other; [reflexivity|]. congruence.
  - now apply registry_createUser.
Qed.

Lemma createUser_found_witness :
  let i := {| InsertUser.googleId := "g-100"; InsertUser.email := "ada@example.org";
              InsertUser.name := "Ada"; InsertUser.picture := None |} in
  let r := createUser (Sample.env 20) i Sample.fresh in
  registry Sample.fresh
  /\ getUserById "uuid-20" Sample.fresh = None
  /\ getUserByGoogleId "g-100" (snd r) = Some (fst r)
  /\ User.name (fst r) = "Ada".
Proof.
  intros i r.
  assert (Hne : uuid (Sample.env 20) <> "") by discriminate.
  destruct (createUser_found (Sample.env 20) i Sample.fresh registry_fresh eq_refl Hne)
    as (_ & Hg & _).
  split; [exact registry_fresh|]. split; [reflexivity|].
  split; [exact Hg | reflexivity].
Defined.

(** X17. [updateUserToken] throws "User not found" for an unknown id and
    leaves the store as it was.  For a known id it returns the stored user
    with the token replaced and nothing else changed, in the same place, and
    touches neither the other users nor the index by Google id. *)
Theorem updateUserToken_only_token (id token : string) (st : MemStorage.t) :
  (getUserById id st = None ->
   updateUserToken id token st = (Throws (Error "User not found"), st))
  /\ (forall u, getUserById id st = Some u ->
      let r := updateUserToken id token st in
      fst r = Returns (withAccessToken token u)
      /\ getUserById id (snd r) = Some (withAccessToken token u)
      /\ User.accessToken (withAccessToken token u) = Some token
      /\ (User.id (withAccessToken token u), User.googleId (withAccessToken token u),
          User.email (withAccessToken token u), User.name (withAccessToken token u),
          User.picture (withAccessToken token u), User.createdAt (withAccessToken token u))
         = (User.id u, User.googleId u, User.email u, User.name u, User.picture u,
            User.createdAt u)
      /\ JsMap.keys (users (snd r)) = JsMap.keys (users st)
      /\ (forall k, k <> id -> getUserById k (snd r) = getUserById k st)
      /\ googleIdToUserId (snd r) = googleIdToUserId st).
Proof.
  unfold getUserById, updateUserToken. split.
  - intros H. now rewrite H.
  - intros u H. rewrite H. cbv zeta. simpl fst. simpl snd.
    split; [reflexivity|].
    split; [simpl; apply JsMapFacts.get_set_same|].
    split; [reflexivity|]. split; [reflexivity|].
    split; [simpl; now apply JsMapMore.keys_set_present with (v0 := u)|].
    split; [|reflexivity].
    intros k Hk. simpl. apply JsMapFacts.get_set_other. congruence.
Qed.

Lemma updateUserToken_only_token_witness :
  exists u,
    getUserByGoogleId "g-100" Fixture.signedIn = Some u
    /\ getUserById "uuid-20" Fixture.signedIn = Some u
    /\ fst (updateUserToken "uuid-20" "token-2" Fixture.signedIn)
       = Returns (withAccessToken "token-2" u)
    /\ updateUserToken "uuid-99" "token-2" Fixture.signedIn
       = (Throws (Error "User not found"), Fixture.signedIn).
Proof.
  destruct (getUserById "uuid-20" Fixture.signedIn) as [u|] eqn:Hu; [|discriminate Hu].
  destruct (updateUserToken_only_token "uuid-20" "token-2" Fixture.signedIn)
    as (_ & Hknown).
  destruct (updateUserToken_only_token "uuid-99" "token-2" Fixture.signedIn)
    as (Hunknown & _).
  destruct (Hknown u Hu) as (Hf & _).
  exists u. split; [rewrite <- Hu; reflexivity|]. split; [reflexivity|].
  split; [exact Hf | apply Hunknown; reflexivity].
Defined.

(** X18. [createUser] does not look for a user with the same Google id: a
    second one takes over the Google id, and the first, still in the store
    under its own id, is no longer found by it. *)
Theorem createUser_shadows (e : Env) (i : InsertUser.t) (st : MemStorage.t)
        (u1 : User.t) :
  registry st ->
  getUserByGoogleId (InsertUser.googleId i) st = Some u1 ->
  getUserById (uuid e) st = None ->
  uuid e <> "" ->
  let r := createUser e i st in
  getUserByGoogleId (InsertUser.googleId i) (snd r) = Some (fst r)
  /\ User.id (fst r) <> User.id u1
  /\ getUserById (User.id u1) (snd r) = Some u1
  /\ length (users (snd r)) = S (length (users st)).
Proof.
  intros Hr Hu1 Hn He r.
  pose proof (createUser_indexed e i st He) as Hg.
  assert (H1 : JsMap.get (User.id u1) (users st) = Some u1).
  { unfold getUserByGoogleId in Hu1.
    destruct (JsMap.get (InsertUser.googleId i) (googleIdToUserId st)) as [k|];
      [|discriminate].
    destruct k as [|c k']; [discriminate|].
    now rewrite (registry_get st _ u1 Hr Hu1). }
  assert (Hne : uuid e <> User.id u1).
  { unfold getUserById in Hn. intros E. rewrite E in Hn. congruence. }
  split; [exact Hg|]. split; [exact Hne|]. split.
  - unfold getUserById. simpl users. now rewrite JsMapFacts.get_set_other.
  - simpl users. unfold getUserById in Hn. now apply JsMapMore.length_set_absent.
Qed.

Lemma createUser_shadows_witness :
  let i := {| InsertUser.googleId := "g-100"; InsertUser.email := "other@example.org";
              InsertUser.name := "Ada II"; InsertUser.picture := None |} in
  let r := createUser (Sample.env 21) i Fixture.signedIn in
  exists u1,
    getUserByGoogleId "g-100" Fixture.signedIn = Some u1
    /\ User.name u1 = "Ada"
    /\ option_map User.name (getUserByGoogleId "g-100" (snd r)) = Some "Ada II"
    /\ getUserById "uuid-20" (snd r) = Some u1.
Proof.
  intros i r.
  pose proof registry_signedIn as Hreg.
  destruct (getUserByGoogleId "g-100" Fixture.signedIn) as [u1|] eqn:Hu;
    [|discriminate Hu].
  assert (Hne : uuid (Sample.env 21) <> "") by discriminate.
  destruct (createUser_shadows (Sample.env 21) i Fixture.signedIn u1 Hreg Hu eq_refl Hne)
    as (Hg & _ & H1 & _).
  vm_compute in Hu. inversion Hu; subst u1.
  eexists. split; [reflexivity|]. split; [reflexivity|].
  split; [exact (f_equal (option_map User.name) Hg) | exact H1].
Defined.

End Users.

(* ===================================================================== *)
(** * Signing in *)
(* ===================================================================== *)

Module Login.
Import Number MemStorage Props StoreProps.

Lemma found_by_google_id (st : MemStorage.t) (g : string) (u : User.t) :
  registry st -> getUserByGoogleId g st = Some u ->
  JsMap.get g (googleIdToUserId st) = Some (User.id u)
  /\ User.id u <> ""
  /\ JsMap.get (User.id u) (users st) = Some u.
Proof.
  intros Hr H. unfold getUserByGoogleId in H.
  destruct (JsMap.get g (googleIdToUserId st)) as [k|]; [|discriminate].
  destruct k as [|c k']; [discriminate|].
  rewrite (Users.registry_get st _ u Hr H).
  split; [reflexivity|]. split; [discriminate | exact H].
Qed.

(** X19. The first sign-in of a Google account whose profile has no empty
    [emails] or [photos] array succeeds: it creates one user from the
    profile and stores the access token with it, so that the account and the
    session id both lead to the user with the token.  The user handed on is
    the one built before the token was stored and carries none. *)
Theorem verify_new_user (e : Env) (token : string) (profile : Auth.Profile)
        (st : MemStorage.t) (email picture : string) :
  registry st ->
  getUserByGoogleId (Auth.id profile) st = None ->
  Auth.firstValue (Auth.emails profile) = Returns email ->
  Auth.firstValue (Auth.photos profile) = Returns picture ->
  getUserById (uuid e) st = None ->
  uuid e <> "" ->
  let r := Auth.verify e token profile st in
  exists user,
    fst r = Returns user
    /\ (User.id user, User.googleId user, User.email user, User.name user)
       = (uuid e, Auth.id profile, email, Auth.displayName profile)
    /\ User.accessToken user = None
    /\ getUserByGoogleId (Auth.id profile) (snd r) = Some (withAccessToken token user)
    /\ Auth.deserializeUser (User.id user) (snd r) = Some (withAccessToken token user)
    /\ length (users (snd r)) = S (length (users st))
    /\ registry (snd r).
Proof.
  intros Hr Hnone Hemail Hphoto Hfresh Hne r.
  pose proof (Users.registry_verify e token profile st Hr Hfresh) as Hreg.
  subst r. revert Hreg. unfold Auth.verify. rewrite Hnone, Hemail, Hphoto.
  set (i := {| InsertUser.googleId := Auth.id profile; InsertUser.email := email;
               InsertUser.name := Auth.displayName profile;
               InsertUser.picture := Some picture |}).
  change (createUser e i st) with (fst (createUser e i st), snd (createUser e i st)).
  cbv iota. change (User.id (fst (createUser e i st))) with (uuid e).
  unfold updateUserToken.
  assert (Hg : JsMap.get (uuid e) (users (snd (createUser e i st)))
               = Some (fst (createUser e i st)))
    by apply JsMapFacts.get_set_same.
  rewrite Hg. simpl fst. simpl snd. intros Hreg.
  eexists. split; [reflexivity|]. split; [reflexivity|]. split; [reflexivity|].
  split.
  { unfold getUserByGoogleId. simpl googleIdToUserId.
    rewrite JsMapFacts.get_set_same. simpl users.
    destruct (uuid e) eqn:Eu; [congruence|]. apply JsMapFacts.get_set_same. }
  split; [unfold Auth.deserializeUser, getUserById; simpl; apply JsMapFacts.get_set_same|].
  split; [|exact Hreg].
  simpl users. unfold getUserById in Hfresh.
  rewrite (JsMapMore.length_set_present _ _ _ _ _ (JsMapFacts.get_set_same _ _ _ _)).
  now apply JsMapMore.length_set_absent.
Qed.

Lemma verify_new_user_witness :
  let r := Auth.verify (Sample.env 20) "token-1" Fixture.ada Sample.fresh in
  registry Sample.fresh
  /\ getUserByGoogleId "g-100" Sample.fresh = None
  /\ exists user,
       fst r = Returns user
       /\ User.email user = "ada@example.org"
       /\ option_map User.accessToken (getUserByGoogleId "g-100" (snd r))
          = Some (Some "token-1").
Proof.
  intros r.
  assert (Hne : uuid (Sample.env 20) <> "") by discriminate.
  destruct (verify_new_user (Sample.env 20) "token-1" Fixture.ada Sample.fresh
              "ada@example.org" "" Users.registry_fresh eq_refl eq_refl eq_refl
              eq_refl Hne) as (user & Hf & He & _ & Hg & _).
  split; [exact Users.registry_fresh|]. split; [reflexivity|].
  exists user. split; [exact Hf|]. split; [now inversion He|].
  exact (f_equal (option_map User.accessToken) Hg).
Defined.

(** X20. A later sign-in of an account that has a user creates none: it
    stores the new token with that user and changes neither the set of users
    nor the index; the profile is not read, so nothing of it is refreshed
    and an empty [emails] array does no harm.  The user handed on is the one
    read before the token was stored. *)
Theorem verify_returning_user (e : Env) (token : string) (profile : Auth.Profile)
        (st : MemStorage.t) (u : User.t) :
  registry st ->
  getUserByGoogleId (Auth.id profile) st = Some u ->
  let r := Auth.verify e token profile st in
  fst r = Returns u
  /\ getUserByGoogleId (Auth.id profile) (snd r) = Some (withAccessToken token u)
  /\ Auth.deserializeUser (User.id u) (snd r) = Some (withAccessToken token u)
  /\ JsMap.keys (users (snd r)) = JsMap.keys (users st)
  /\ googleIdToUserId (snd r) = googleIdToUserId st
  /\ registry (snd r).
Proof.
  intros Hr Hu r.
  destruct (found_by_google_id st _ u Hr Hu) as (Hidx & Hne & Hget).
  pose proof (Users.registry_updateUserToken (User.id u) token st Hr) as Hreg.
  subst r. revert Hreg. unfold Auth.verify. rewrite Hu.
  unfold updateUserToken. rewrite Hget. simpl fst. simpl snd. intros Hreg.
  split; [reflexivity|]. split.
  { unfold getUserByGoogleId. simpl googleIdToUserId. rewrite Hidx.
    destruct (User.id u) eqn:Eu; [congruence|]. simpl users.
    apply JsMapFacts.get_set_same. }
  split; [unfold Auth.deserializeUser, getUserById; simpl; apply JsMapFacts.get_set_same|].
  split; [simpl; now apply JsMapMore.keys_set_present with (v0 := u)|].
  split; [reflexivity | exact Hreg].
Qed.

Lemma verify_returning_user_witness :
  let again := {| Auth.id := "g-100"; Auth.displayName := "Ada L.";
                  Auth.emails := Some []; Auth.photos := None |} in
  let r := Auth.verify (Sample.env 22) "token-2" again Fixture.signedIn in
  exists u,
    registry Fixture.signedIn
    /\ getUserByGoogleId "g-100" Fixture.signedIn = Some u
    /\ fst r = Returns u
    /\ User.accessToken u = Some "token-1"
    /\ option_map User.accessToken (getUserByGoogleId "g-100" (snd r))
       = Some (Some "token-2")
    /\ length (users (snd r)) = 1%nat.
Proof.
  intros again r.
  destruct (getUserByGoogleId "g-100" Fixture.signedIn) as [u|] eqn:Hu;
    [|discriminate Hu].
  destruct (verify_returning_user (Sample.env 22) "token-2" again Fixture.signedIn u
              Users.registry_signedIn Hu) as (Hf & Hg & _ & Hk & _).
  exists u. split; [exact Users.registry_signedIn|]. split; [reflexivity|].
  split; [exact Hf|].
  vm_compute in Hu. inversion Hu; subst u.
  split; [reflexivity|].
  split; [exact (f_equal (option_map User.accessToken) Hg)|].
  reflexivity.
Defined.

(** X21. The first sign-in of an account whose profile has an empty [emails]
    or [photos] array fails with a TypeError, and no user is created. *)
Theorem verify_fails_on_empty_array (e : Env) (token : string)
        (profile : Auth.Profile) (st : MemStorage.t) :
  getUserByGoogleId (Auth.id profile) st = None ->
  Auth.emails profile = Some [] \/ Auth.photos profile = Some [] ->
  Auth.verify e token profile st = (Throws TypeError, st).
Proof.
  intros Hn H. unfold Auth.verify. rewrite Hn.
  destruct H as [H|H]; rewrite H; simpl.
  - reflexivity.
  - destruct (Auth.firstValue (Auth.emails profile)) as [email|err] eqn:E;
      [reflexivity|].
    unfold Auth.firstValue in E.
    destruct (Auth.emails profile) as [[|v l]|]; inversion E; reflexivity.
Qed.

Lemma verify_fails_on_empty_array_witness :
  getUserByGoogleId "g-200" Sample.fresh = None
  /\ Auth.emails Fixture.noMail = Some []
  /\ Auth.verify (Sample.env 20) "token-1" Fixture.noMail Sample.fresh
     = (Throws TypeError, Sample.fresh).
Proof.
  split; [reflexivity|]. split; [reflexivity|].
  apply verify_fails_on_empty_array; [reflexivity | left; reflexivity].
Defined.

End Login.

(* ===================================================================== *)
(** * Currency rates *)
(* ===================================================================== *)

Module Rates.
Import Number MemStorage Props StoreProps.

(** With no hyphen in the first code, a key tells the pair of codes. *)
Lemma rateKey_injective (f1 t1 f2 t2 : string) :
  dashFree f1 = true -> dashFree f2 = true ->
  rateKey f1 t1 = rateKey f2 t2 -> f1 = f2 /\ t1 = t2.
Proof.
  unfold rateKey. revert f2.
  induction f1 as [|c1 r1 IH]; intros [|c2 r2]; simpl; intros H1 H2 E.
  - inversion E. now split.
  - inversion E; subst c2. simpl in H2. discriminate H2.
  - inversion E; subst c1. simpl in H1. discriminate H1.
  - apply andb_true_iff in H1. apply andb_true_iff in H2.
    inversion E; subst c2.
    destruct (IH r2 (proj2 H1) (proj2 H2) H3) as [-> ->]. now split.
Qed.

(** X22. A rate written by [updateCurrencyRate] is the one read back for its
    pair of codes.  It replaces the rate the pair had, where it stood, under
    a new id, and is added at the end when the pair had none; so there is
    never more than one rate for a key. *)
Theorem updateCurrencyRate_read_back (e : Env) (i : InsertCurrency.t)
        (st : MemStorage.t) :
  let r := updateCurrencyRate e i st in
  let before := getCurrencyRate (InsertCurrency.fromCurrency i)
                                (InsertCurrency.toCurrency i) st in
  getCurrencyRate (InsertCurrency.fromCurrency i) (InsertCurrency.toCurrency i) (snd r)
  = Some (fst r)
  /\ Currency.rate (fst r) = InsertCurrency.rate i
  /\ Currency.id (fst r) = uuid e
  /\ (before <> None ->
      length (getAllCurrencyRates (snd r)) = length (getAllCurrencyRates st))
  /\ (before = None ->
      getAllCurrencyRates (snd r) = (getAllCurrencyRates st ++ [fst r])%list)
  /\ (JsMap.wf (currencies st) -> JsMap.wf (currencies (snd r))).
Proof.
  intros r before. unfold getCurrencyRate, getAllCurrencyRates. simpl.
  split; [apply JsMapFacts.get_set_same|]. split; [reflexivity|].
  split; [reflexivity|]. split; [|split].
  - subst before. unfold getCurrencyRate. intros Hb.
    destruct (JsMap.get (rateKey (InsertCurrency.fromCurrency i)
                                 (InsertCurrency.toCurrency i)) (currencies st))
      as [c|] eqn:E; [|congruence].
    unfold JsMap.values. rewrite !length_map.
    now apply JsMapMore.length_set_present with (v0 := c).
  - subst before. unfold getCurrencyRate. intros Hb.
    now apply JsMapMore.values_set_absent.
  - apply JsMapFacts.wf_set.
Qed.

(** X23. Writing the rate of one pair leaves the rate read for any other
    pair as it was, as long as the first codes of the two pairs contain no
    hyphen; with hyphens two pairs may share a key. *)
Theorem updateCurrencyRate_other_pairs (e : Env) (i : InsertCurrency.t)
        (st : MemStorage.t) (fromCurrency toCurrency : string) :
  dashFree (InsertCurrency.fromCurrency i) = true ->
  dashFree fromCurrency = true ->
  (fromCurrency, toCurrency)
  <> (InsertCurrency.fromCurrency i, InsertCurrency.toCurrency i) ->
  getCurrencyRate fromCurrency toCurrency (snd (updateCurrencyRate e i st))
  = getCurrencyRate fromCurrency toCurrency st.
Proof.
  intros H1 H2 Hne. unfold getCurrencyRate. simpl.
  apply JsMapFacts.get_set_other. intros E.
  apply rateKey_injective in E; [|assumption|assumption].
  destruct E as [E1 E2]. apply Hne. now rewrite E1, E2.
Qed.

Lemma updateCurrencyRate_other_pairs_witness :
  let st' := snd (updateCurrencyRate (Sample.env 50) Fixture.gbpUsd Sample.fresh) in
  dashFree "GBP" = true
  /\ dashFree "USD" = true
  /\ option_map Currency.rate (getCurrencyRate "USD" "EUR" st') = Some "0.8473"
  /\ option_map Currency.rate (getCurrencyRate "GBP" "USD" st') = Some "1.27".
Proof.
  intros st'.
  pose proof (updateCurrencyRate_other_pairs (Sample.env 50) Fixture.gbpUsd
                Sample.fresh "USD" "EUR" eq_refl eq_refl) as H.
  split; [reflexivity|]. split; [reflexivity|]. split; [|reflexivity].
  fold st' in H. rewrite H; [reflexivity | discriminate].
Defined.

(** Two pairs that share a key: the rate of one is read for the other. *)
Example hyphen_collision :
  let i := {| InsertCurrency.fromCurrency := "A-B"; InsertCurrency.toCurrency := "C";
              InsertCurrency.rate := "2" |} in
  option_map Currency.rate
    (getCurrencyRate "A" "B-C" (snd (updateCurrencyRate (Sample.env 50) i Sample.fresh)))
  = Some "2".
Proof. reflexivity. Qed.

End Rates.

(* ===================================================================== *)
(** * Quotes *)
(* ===================================================================== *)

Module Quotes.
Import Number MemStorage Props StoreProps.

Lemma quotesKeyed_fresh : quotesKeyed Sample.fresh.
Proof. intros k d []. Qed.

Lemma quotesKeyed_updateMarketData (e : Env) (i : InsertMarketData.t)
      (st : MemStorage.t) :
  quotesKeyed st -> quotesKeyed (snd (updateMarketData e i st)).
Proof.
  intros Hk k d Hin. simpl in Hin. apply JsMapFacts.in_set in Hin.
  destruct Hin as [[-> ->]|Hin]; [reflexivity | now apply Hk].
Qed.

(** X24. A quote written by [updateMarketData] is the one read back for its
    symbol, the quotes of other symbols are left alone, and every quote stays
    filed under its own symbol.  The stored quote keeps the price as given;
    an empty change, change percent or market cap and a volume of 0 are
    stored as null. *)
Theorem updateMarketData_read_back (e : Env) (i : InsertMarketData.t)
        (st : MemStorage.t) :
  quotesKeyed st ->
  let r := updateMarketData e i st in
  getMarketData (InsertMarketData.symbol i) (snd r) = Some (fst r)
  /\ (forall s, s <> InsertMarketData.symbol i ->
      getMarketData s (snd r) = getMarketData s st)
  /\ MarketData.price (fst r) = InsertMarketData.price i
  /\ MarketData.volume (fst r) <> Some 0
  /\ MarketData.change (fst r) <> Some ""
  /\ MarketData.changePercent (fst r) <> Some ""
  /\ MarketData.marketCap (fst r) <> Some ""
  /\ quotesKeyed (snd r).
Proof.
  intros Hk r. unfold getMarketData. simpl.
  split; [apply JsMapFacts.get_set_same|]. split.
  { intros s Hs. apply JsMapFacts.get_set_other. congruence. }
  split; [reflexivity|]. split.
  { destruct (InsertMarketData.volume i) as [[|v|v]|]; simpl; congruence. }
  split; [apply Portfolios.orNull_not_empty|].
  split; [apply Portfolios.orNull_not_empty|].
  split; [apply Portfolios.orNull_not_empty|].
  now apply quotesKeyed_updateMarketData.
Qed.

Lemma updateMarketData_read_back_witness :
  quotesKeyed Sample.fresh
  /\ exists d,
       getMarketData "AAPL" Fixture.quoted = Some d
       /\ MarketData.price d = "180.10"
       /\ MarketData.volume d = None.
Proof.
  destruct (updateMarketData_read_back (Sample.env 30) Fixture.appleQuote Sample.fresh
              quotesKeyed_fresh) as (Hg & _).
  split; [exact quotesKeyed_fresh|].
  eexists. split; [exact Hg|]. split; reflexivity.
Defined.

Lemma batch_symbols (symbols : list string) (st : MemStorage.t) :
  quotesKeyed st ->
  map MarketData.symbol (getMarketDataBatch symbols st)
  = filter (fun s => JsMap.has s (marketData st)) symbols.
Proof.
  intros Hk. unfold getMarketDataBatch, JsMap.has.
  induction symbols as [|s r IH]; simpl; [reflexivity|].
  destruct (JsMap.get s (marketData st)) as [d|] eqn:E; simpl.
  - rewrite IH. f_equal. symmetry. apply Hk. now apply JsMapFacts.get_in.
  - exact IH.
Qed.

(** X25. [getMarketDataBatch] returns the cached quotes of the symbols asked
    for, in the order asked and once for each time a symbol is asked,
    leaving out the symbols without a quote; so it returns as many quotes as
    symbols exactly when every symbol has one. *)
Theorem getMarketDataBatch_cached_symbols (symbols : list string)
        (st : MemStorage.t) :
  quotesKeyed st ->
  map MarketData.symbol (getMarketDataBatch symbols st)
  = filter (fun s => JsMap.has s (marketData st)) symbols
  /\ (forall d, In d (getMarketDataBatch symbols st) ->
      getMarketData (MarketData.symbol d) st = Some d
      /\ In (MarketData.symbol d) symbols)
  /\ (length (getMarketDataBatch symbols st) = length symbols
      <-> forall s, In s symbols -> getMarketData s st <> None).
Proof.
  intros Hk. pose proof (batch_symbols symbols st Hk) as Hs.
  split; [exact Hs|]. split.
  - intros d Hin. unfold getMarketDataBatch, getMarketData in *.
    induction symbols as [|s r IH]; simpl in *; [contradiction|].
    destruct (JsMap.get s (marketData st)) as [d0|] eqn:E.
    + destruct Hin as [<-|Hin].
      * rewrite <- (Hk _ _ (JsMapFacts.get_in _ _ _ _ E)). split; [exact E | now left].
      * destruct (IH (batch_symbols r st Hk) Hin) as [H1 H2]. split; [exact H1 | now right].
    + destruct (IH (batch_symbols r st Hk) Hin) as [H1 H2]. split; [exact H1 | now right].
  - apply (f_equal (@length string)) in Hs. rewrite length_map in Hs. rewrite Hs.
    unfold getMarketData. clear Hs. split.
    + intros Hl s Hin. apply JsMapMore.has_get.
      induction symbols as [|s0 r IH]; simpl in *; [contradiction|].
      destruct (JsMap.has s0 (marketData st)) eqn:E0; simpl in Hl.
      * destruct Hin as [<-|Hin]; [exact E0 | apply IH; [lia | exact Hin]].
      * pose proof (filter_length_le (fun s => JsMap.has s (marketData st)) r). lia.
    + intros Hall. induction symbols as [|s0 r IH]; simpl; [reflexivity|].
      rewrite (proj2 (JsMapMore.has_get _ s0 _) (Hall s0 (or_introl eq_refl))).
      simpl. f_equal. apply IH. intros s Hin. apply Hall. now right.
Qed.

Lemma getMarketDataBatch_cached_symbols_witness :
  quotesKeyed Fixture.quoted
  /\ map MarketData.symbol (getMarketDataBatch ["MSFT"; "AAPL"; "AAPL"] Fixture.quoted)
     = ["AAPL"; "AAPL"].
Proof.
  assert (Hk : quotesKeyed Fixture.quoted)
    by (apply quotesKeyed_updateMarketData; exact quotesKeyed_fresh).
  split; [exact Hk|].
  destruct (getMarketDataBatch_cached_symbols ["MSFT"; "AAPL"; "AAPL"] Fixture.quoted Hk)
    as (Hs & _).
  rewrite Hs. reflexivity.
Defined.

End Quotes.

(* ===================================================================== *)
(** * Opening and closing a position *)
(* ===================================================================== *)

Module Positions.
Import Number MemStorage Props StoreProps MemStorageFacts.

(** X26. Buying an instrument that is not held and then selling the same
    quantity, written in any way that reads as the same finite number, puts
    the holdings map back exactly as it was, provided the id drawn for the
    holding was not in use; the two transactions stay in the ledger. *)
Theorem buy_then_sell_restores_holdings (st : MemStorage.t)
        (eT1 eH1 eT2 eH2 : Env) (buy sell : InsertTransaction.t) :
  wellFormed st ->
  InsertTransaction.type buy = "buy" ->
  InsertTransaction.type sell = "sell" ->
  InsertTransaction.portfolioId sell = InsertTransaction.portfolioId buy ->
  InsertTransaction.symbol sell = InsertTransaction.symbol buy ->
  findHolding (InsertTransaction.portfolioId buy) (InsertTransaction.symbol buy) st
  = None ->
  getHolding (uuid eH1) st = None ->
  parseFloat (InsertTransaction.quantity sell)
  = parseFloat (InsertTransaction.quantity buy) ->
  isFinite (parseFloat (InsertTransaction.quantity buy)) = true ->
  let st1 := snd (createTransaction eT1 eH1 buy st) in
  let st2 := snd (createTransaction eT2 eH2 sell st1) in
  holdings st2 = holdings st
  /\ getTransaction (uuid eT2) st2 = Some (newTransaction eT2 sell)
  /\ (uuid eT1 <> uuid eT2 ->
      getTransaction (uuid eT1) st2 = Some (newTransaction eT1 buy)).
Proof.
  intros Hwf Hb Hs Hp Hsym Hnone Hfresh Hq Hfin st1 st2.
  unfold getHolding in Hfresh.
  destruct (Buys.first_buy st eT1 eH1 buy Hb Hnone) as (Hf1 & _).
  fold st1 in Hf1.
  assert (Hh1 : holdings st1
                = JsMap.set (uuid eH1) (opened eH1 (newTransaction eT1 buy)) (holdings st)).
  { subst st1. rewrite holdings_createTransaction.
    now apply (buy_new eH1 (newTransaction eT1 buy) st). }
  assert (Hwf1 : wellFormed st1) by (subst st1; now apply wellFormed_createTransaction).
  assert (Hle : le (remaining (opened eH1 (newTransaction eT1 buy))
                              (Transaction.quantity (newTransaction eT2 sell))) zero
                = true).
  { unfold remaining. simpl. rewrite Hq. now apply NumberFacts.sub_self. }
  split.
  - subst st2. rewrite holdings_createTransaction.
    rewrite (sell_close eH2 (newTransaction eT2 sell) st1
               (opened eH1 (newTransaction eT1 buy)) Hwf1 Hs).
    + rewrite Hh1. simpl Holding.id. now apply JsMapMore.delete_set_absent.
    + simpl. rewrite Hp, Hsym. exact Hf1.
    + exact Hle.
  - unfold getTransaction. subst st2 st1.
    rewrite !transactions_createTransaction. split.
    + apply JsMapFacts.get_set_same.
    + intros Hne. rewrite JsMapFacts.get_set_other by congruence.
      apply JsMapFacts.get_set_same.
Qed.

Lemma buy_then_sell_restores_holdings_witness :
  let buy := Sample.request "uuid-0" "TSLA" "buy" "0.1" "250" in
  let sell := Sample.request "uuid-0" "TSLA" "sell" "0.10" "260" in
  let st2 := applyAll [Sample.call 10 buy; Sample.call 12 sell] Sample.fresh in
  wellFormed Sample.fresh
  /\ findHolding "uuid-0" "TSLA" Sample.fresh = None
  /\ getHolding "uuid-11" Sample.fresh = None
  /\ holdings st2 = holdings Sample.fresh
  /\ length (transactions st2) = 4%nat.
Proof.
  intros buy sell st2.
  destruct (buy_then_sell_restores_holdings Sample.fresh (Sample.env 10) (Sample.env 11)
              (Sample.env 12) (Sample.env 13) buy sell Sells.fresh_wellFormed
              eq_refl eq_refl eq_refl eq_refl eq_refl eq_refl eq_refl eq_refl)
    as (Hh & _).
  split; [exact Sells.fresh_wellFormed|]. split; [reflexivity|].
  split; [reflexivity|]. split; [exact Hh | reflexivity].
Defined.

(** X27. Once a sell has closed the only holding of an instrument, a later
    buy does not bring that holding back: it creates a new one, under a new
    id, with the company name set to the symbol and no current price,
    whatever the closed holding had. *)
Theorem reopened_position_is_new (st : MemStorage.t) (eT1 eH1 eT2 eH2 : Env)
        (sell buy : InsertTransaction.t) (h : Holding.t) :
  wellFormed st ->
  uniqueHoldings st ->
  InsertTransaction.type sell = "sell" ->
  InsertTransaction.type buy = "buy" ->
  InsertTransaction.portfolioId buy = InsertTransaction.portfolioId sell ->
  InsertTransaction.symbol buy = InsertTransaction.symbol sell ->
  findHolding (InsertTransaction.portfolioId sell) (InsertTransaction.symbol sell) st
  = Some h ->
  le (remaining h (InsertTransaction.quantity sell)) zero = true ->
  let st1 := snd (createTransaction eT1 eH1 sell st) in
  let st2 := snd (createTransaction eT2 eH2 buy st1) in
  exists h',
    findHolding (InsertTransaction.portfolioId buy) (InsertTransaction.symbol buy) st2
    = Some h'
    /\ Holding.id h' = uuid eH2
    /\ Holding.quantity h' = InsertTransaction.quantity buy
    /\ Holding.averageCost h' = InsertTransaction.price buy
    /\ Holding.companyName h' = InsertTransaction.symbol buy
    /\ Holding.currentPrice h' = None.
Proof.
  intros Hwf Hu Hs Hb Hp Hsym Hf Hle st1 st2.
  assert (Hh1 : holdings st1 = JsMap.delete (Holding.id h) (holdings st)).
  { subst st1. rewrite holdings_createTransaction.
    now apply (sell_close eH1 (newTransaction eT1 sell) st h). }
  assert (Hnone : findHolding (InsertTransaction.portfolioId buy)
                              (InsertTransaction.symbol buy) st1 = None).
  { rewrite Hp, Hsym. unfold findHolding. rewrite Hh1.
    apply (JsMapFacts.count_none_first _ (sameInstrument _ _)).
    pose proof (JsMapFacts.count_delete_hit _
                  (sameInstrument (InsertTransaction.portfolioId sell)
                                  (InsertTransaction.symbol sell))
                  (Holding.id h) h (holdings st)
                  (found_get _ _ _ _ Hwf Hf) (found_same _ _ _ _ Hf)) as Hc.
    specialize (Hu (InsertTransaction.portfolioId sell) (InsertTransaction.symbol sell)).
    lia. }
  destruct (Buys.first_buy st1 eT2 eH2 buy Hb Hnone) as (Hf2 & _).
  eexists. split; [exact Hf2|]. repeat split.
Qed.

Lemma reopened_position_is_new_witness :
  let sell := Sample.request "uuid-0" "AAPL" "sell" "50" "175.50" in
  let buy := Sample.request "uuid-0" "AAPL" "buy" "10" "176" in
  let st2 := applyAll [Sample.call 10 sell; Sample.call 12 buy] Sample.fresh in
  wellFormed Sample.fresh
  /\ uniqueHoldings Sample.fresh
  /\ findHolding "uuid-0" "AAPL" Sample.fresh = Some Sample.apple
  /\ exists h',
       findHolding "uuid-0" "AAPL" st2 = Some h'
       /\ Holding.id h' = "uuid-13"
       /\ Holding.companyName h' = "AAPL"
       /\ Holding.currentPrice h' = None.
Proof.
  intros sell buy st2.
  pose proof (Invariants.unique_constructor Sample.ids 1700000000000) as Hu.
  destruct (reopened_position_is_new Sample.fresh (Sample.env 10) (Sample.env 11)
              (Sample.env 12) (Sample.env 13) sell buy Sample.apple
              Sells.fresh_wellFormed Hu eq_refl eq_refl eq_refl eq_refl eq_refl eq_refl)
    as (h' & Hf & Hid & _ & _ & Hn & Hc).
  split; [exact Sells.fresh_wellFormed|]. split; [exact Hu|].
  split; [reflexivity|].
  exists h'. split; [exact Hf|]. split; [exact Hid|]. split; [exact Hn | exact Hc].
Defined.

End Positions.

(* ===================================================================== *)
(** * Prices written to holdings *)
(* ===================================================================== *)

Module Prices.
Import Number MemStorage Props StoreProps.



End Prices.
